(** * SPN core: navigator matcher, captain orchestration, message
      consumption and crane terminal establishment.

    A shallow embedding of the Go sources
    - [navigator/options.go]   (Options, Copy, Matcher, endpointListMatch),
    - [captain/navigation.go]  (establishHomeHub, connectToHomeHub,
                                optimizeNetwork),
    - [terminal/msg.go]        (Msg, Pack, Consume, FinishUnit),
    - [docks/crane_establish.go] (establishTerminal and its timeouts),
    together with the properties the specification states about them. *)

From Stdlib Require Import ZArith NArith List Bool Lia.
From Stdlib.Strings Require Import Byte.
From stdpp Require Import gmap strings list fin_maps pretty.

Set Implicit Arguments.
Unset Strict Implicit.
Set Default Proof Using "Type".

Local Open Scope N_scope.

(** ** Collaborators outside the repository *)

(** [endpoints.EPResult] of portmaster: the verdict of an endpoint list. *)
Inductive EPResult : Type :=
  | NoMatch
  | MatchError
  | Denied
  | Permitted.

Definition EPResult_eqb (a b : EPResult) : bool :=
  match a, b with
  | NoMatch, NoMatch | MatchError, MatchError
  | Denied, Denied | Permitted, Permitted => true
  | _, _ => false
  end.

(** The part of portmaster's [intel] and [endpoints] packages the navigator
    calls.  An endpoint list is a Go slice of endpoints ([len] is taken of it
    in [establishHomeHub]); what a single endpoint is, and how lists are
    matched, is left to the library. *)
Class EndpointsAPI : Type := {
  Entity : Type;
  Endpoint : Type;
  (** [list.IsSet()] *)
  IsSet : list Endpoint -> bool;
  (** [list.Match(ctx, entity)] : result and reason *)
  Match : list Endpoint -> Entity -> EPResult * string;
  (** [list.MatchMulti(ctx, entityV4, entityV6)]; either entity may be nil *)
  MatchMulti : list Endpoint -> option Entity -> option Entity -> EPResult * string
}.

Abbreviation Endpoints := (list Endpoint).

(** ** navigator: pin states *)

Module Navigator.

(** [PinState] is a bitset. *)
Definition PinState : Type := N.

(** Modelled from the spec: [PinState.Add], [Remove], [Has] and [HasAnyOf]
    live in navigator/state.go, which is not among the sources.  The spec
    describes Regard and Disregard as state bitsets to which states are
    added and from which they are dropped, and requires a pin's state to
    contain all Regard bits and none of the Disregard bits. *)
Definition Add (s states : PinState) : PinState := N.lor s states.
Definition Remove (s states : PinState) : PinState := N.ldiff s states.
Definition Has (s states : PinState) : bool := N.land s states =? states.
Definition HasAnyOf (s states : PinState) : bool := negb (N.land s states =? 0).

(** The named states used by [Matcher]; their values are declared in
    navigator/state.go and are parameters here. *)
Class StateConsts : Type := {
  StateReachable : PinState;
  StateActive : PinState;
  StateTrusted : PinState;
  StateUsageAsHomeDiscouraged : PinState;
  StateUsageAsDestinationDiscouraged : PinState;
  StateConnectivityIssues : PinState;
  StateSummaryRegard : PinState;
  StateSummaryDisregard : PinState
}.

(** [HubType]: the three declared hub types (the [switch] statements of
    [Matcher] have no other case). *)
Inductive HubType : Type :=
  | HomeHub
  | TransitHub
  | DestinationHub.

Definition HubType_eqb (a b : HubType) : bool :=
  match a, b with
  | HomeHub, HomeHub | TransitHub, TransitHub
  | DestinationHub, DestinationHub => true
  | _, _ => false
  end.

Section WithAPI.
Context {api : EndpointsAPI} {sc : StateConsts}.

(** [Options] *)
Record Options : Type := {
  Regard : PinState;
  Disregard : PinState;
  HubPolicies : list Endpoints;
  CheckHubEntryPolicyWith : option Entity;
  CheckHubExitPolicyWith : option Entity;
  RequireVerifiedOwners : list string;
  NoDefaults : bool;
  RequireTrustedDestinationHubs : bool;
  RoutingProfile : string
}.

(** [Options.Copy]: the composite literal names eight fields;
    [RequireVerifiedOwners] is not among them and gets its zero value. *)
Definition Copy (o : Options) : Options :=
  {| Regard := Regard o;
     Disregard := Disregard o;
     HubPolicies := HubPolicies o;
     CheckHubEntryPolicyWith := CheckHubEntryPolicyWith o;
     CheckHubExitPolicyWith := CheckHubExitPolicyWith o;
     RequireVerifiedOwners := [];
     NoDefaults := NoDefaults o;
     RequireTrustedDestinationHubs := RequireTrustedDestinationHubs o;
     RoutingProfile := RoutingProfile o |}.

(** [Options.HubPoliciesAreSet] *)
Definition HubPoliciesAreSet (o : Options) : bool :=
  existsb IsSet (HubPolicies o).

(** The hub as a pin refers to it: its announcement carries the entry and
    the exit policy ([pin.Hub.Info.EntryPolicy()], [ExitPolicy()]). *)
Record HubInfo : Type := {
  EntryPolicy : Endpoints;
  ExitPolicy : Endpoints
}.

Record Hub : Type := {
  ID : string;
  Info : HubInfo
}.

(** [Pin], as far as the matcher reads it. *)
Record Pin : Type := {
  State : PinState;
  VerifiedOwner : string;
  EntityV4 : option Entity;
  EntityV6 : option Entity;
  PinHub : Hub
}.

(** [hub.Intel]: [hubIntel.Parsed()] may be nil. *)
Record ParsedIntel : Type := {
  HubAdvisory : Endpoints;
  HomeHubAdvisory : Endpoints;
  DestinationHubAdvisory : Endpoints
}.

Record Intel : Type := {
  Parsed : option ParsedIntel
}.

(** What a matcher does besides returning its verdict: the warning it logs
    on a policy error, and its calls of [endpointListMatch], tagged with the
    call site. *)
Inductive ProbeSite : Type :=
  | EntryProbe
  | ExitProbe.

Inductive Event : Type :=
  | EvWarn (reason : string)
  | EvEndpointListMatch (site : ProbeSite) (lst : Endpoints) (entity : Entity).

(** [endpointListMatch] *)
Definition endpointListMatch (lst : Endpoints) (entity : option Entity) : EPResult :=
  match entity with
  | None => NoMatch
  | Some e => if negb (IsSet lst) then NoMatch else fst (Match lst e)
  end.

(** The variables a [PinMatcher] closure captures.  The closure reads
    [o.RequireVerifiedOwners] through [o] when it is called; the options
    are taken not to change between [Matcher] and that call. *)
Record Compiled : Type := {
  c_regard : PinState;
  c_disregard : PinState;
  c_owners : list string;
  c_hubPolicies : list Endpoints;
  c_checkHubEntryPolicyWith : option Entity;
  c_checkHubExitPolicyWith : option Entity
}.

(** First half of [Matcher]: states to regard and to disregard. *)
Definition compileRegard (o : Options) (hubType : HubType) : PinState :=
  let regard := Regard o in
  let regard :=
    if negb (NoDefaults o) then
      let regard := Add regard StateSummaryRegard in
      match hubType with
      | HomeHub => Remove (Remove regard StateReachable) StateActive
      | TransitHub => regard
      | DestinationHub => regard
      end
    else regard in
  if RequireTrustedDestinationHubs o && HubType_eqb hubType DestinationHub
  then N.lor regard StateTrusted
  else regard.

Definition compileDisregard (o : Options) (hubType : HubType) : PinState :=
  let disregard := Disregard o in
  if negb (NoDefaults o) then
    let disregard := Add disregard StateSummaryDisregard in
    match hubType with
    | HomeHub => Add disregard StateUsageAsHomeDiscouraged
    | TransitHub => disregard
    | DestinationHub =>
        Add (Add disregard StateUsageAsDestinationDiscouraged) StateConnectivityIssues
    end
  else disregard.

(** Intel policies appended to the caller's hub policies. *)
Definition compilePolicies (o : Options) (hubType : HubType)
    (hubIntel : option Intel) : list Endpoints :=
  let hubPolicies := HubPolicies o in
  match hubIntel with
  | Some i =>
      match Parsed i with
      | Some p =>
          match hubType with
          | HomeHub => hubPolicies ++ [HubAdvisory p; HomeHubAdvisory p]
          | TransitHub => hubPolicies ++ [HubAdvisory p]
          | DestinationHub => hubPolicies ++ [HubAdvisory p; DestinationHubAdvisory p]
          end
      | None => hubPolicies
      end
  | None => hubPolicies
  end.

Definition compile (o : Options) (hubType : HubType) (hubIntel : option Intel) : Compiled :=
  {| c_regard := compileRegard o hubType;
     c_disregard := compileDisregard o hubType;
     c_owners := RequireVerifiedOwners o;
     c_hubPolicies := compilePolicies o hubType hubIntel;
     c_checkHubEntryPolicyWith := CheckHubEntryPolicyWith o;
     c_checkHubExitPolicyWith := CheckHubExitPolicyWith o |}.

(** The verified-owner check of the closure. *)
Definition inList (allowedOwners : list string) (owner : string) : bool :=
  existsb (String.eqb owner) allowedOwners.

Definition ownerCheck (owners : list string) (pin : Pin) : bool :=
  match owners with
  | [] => true
  | _ :: _ =>
      if String.eqb (VerifiedOwner pin) EmptyString then false
      else inList owners (VerifiedOwner pin)
  end.

(** The [policyCheck] loop: [false] is the early [return false]; the list
    holds the warnings logged on the way. *)
Fixpoint policyCheck (hubPolicies : list Endpoints) (pin : Pin) : bool * list Event :=
  match hubPolicies with
  | [] => (true, [])
  | policy :: rest =>
      if negb (IsSet policy) then policyCheck rest pin
      else
        let '(result, reason) := MatchMulti policy (EntityV4 pin) (EntityV6 pin) in
        match result with
        | NoMatch => policyCheck rest pin
        | MatchError =>
            let '(ok, evs) := policyCheck rest pin in (ok, EvWarn reason :: evs)
        | Denied => (false, [])
        | Permitted => (true, [])
        end
  end.

(** One entry/exit probe: [check != nil && endpointListMatch(list, check) ==
    Denied]; the call is only made when the entity is there. *)
Definition probe (site : ProbeSite) (lst : Endpoints) (check : option Entity)
    : bool * list Event :=
  match check with
  | None => (false, [])
  | Some e =>
      (EPResult_eqb (endpointListMatch lst check) Denied,
       [EvEndpointListMatch site lst e])
  end.

(** The closure returned by [Matcher], with its effects. *)
Definition pinMatch (c : Compiled) (pin : Pin) : bool * list Event :=
  if negb (Has (State pin) (c_regard c)) || HasAnyOf (State pin) (c_disregard c)
  then (false, [])
  else if negb (ownerCheck (c_owners c) pin) then (false, [])
  else
    let '(ok, evs) := policyCheck (c_hubPolicies c) pin in
    if negb ok then (false, evs)
    else
      let '(denied, evs1) :=
        probe EntryProbe (EntryPolicy (Info (PinHub pin))) (c_checkHubEntryPolicyWith c) in
      if denied then (false, evs ++ evs1)
      else
        let '(denied, evs2) :=
          probe ExitProbe (EntryPolicy (Info (PinHub pin))) (c_checkHubExitPolicyWith c) in
        if denied then (false, evs ++ evs1 ++ evs2)
        else (true, evs ++ evs1 ++ evs2).

(** [Options.Matcher]: the verdict of the generated [PinMatcher]. *)
Definition Matcher (o : Options) (hubType : HubType) (hubIntel : option Intel)
    (pin : Pin) : bool :=
  fst (pinMatch (compile o hubType hubIntel) pin).

(** The effects of one evaluation of the generated [PinMatcher]. *)
Definition MatcherEvents (o : Options) (hubType : HubType) (hubIntel : option Intel)
    (pin : Pin) : list Event :=
  snd (pinMatch (compile o hubType hubIntel) pin).

(** *** Vocabulary of the statements about the matcher *)

(** A closure with other hub policies, or other allowed owners. *)
Definition withPolicies (c : Compiled) (ps : list Endpoints) : Compiled :=
  {| c_regard := c_regard c; c_disregard := c_disregard c; c_owners := c_owners c;
     c_hubPolicies := ps;
     c_checkHubEntryPolicyWith := c_checkHubEntryPolicyWith c;
     c_checkHubExitPolicyWith := c_checkHubExitPolicyWith c |}.

Definition withOwners (c : Compiled) (owners : list string) : Compiled :=
  {| c_regard := c_regard c; c_disregard := c_disregard c; c_owners := owners;
     c_hubPolicies := c_hubPolicies c;
     c_checkHubEntryPolicyWith := c_checkHubEntryPolicyWith c;
     c_checkHubExitPolicyWith := c_checkHubExitPolicyWith c |}.

(** A pin whose hub announces another entry policy, or another exit policy. *)
Definition withEntryPolicy (pin : Pin) (lst : Endpoints) : Pin :=
  {| State := State pin; VerifiedOwner := VerifiedOwner pin;
     EntityV4 := EntityV4 pin; EntityV6 := EntityV6 pin;
     PinHub := {| ID := ID (PinHub pin);
                  Info := {| EntryPolicy := lst;
                             ExitPolicy := ExitPolicy (Info (PinHub pin)) |} |} |}.

Definition withExitPolicy (pin : Pin) (lst : Endpoints) : Pin :=
  {| State := State pin; VerifiedOwner := VerifiedOwner pin;
     EntityV4 := EntityV4 pin; EntityV6 := EntityV6 pin;
     PinHub := {| ID := ID (PinHub pin);
                  Info := {| EntryPolicy := EntryPolicy (Info (PinHub pin));
                             ExitPolicy := lst |} |} |}.

(** The verdict of one hub policy on a pin, and whether the policy loop
    goes on after it: the policy is not set, or matches nothing, or fails
    to match. *)
Definition policyResult (pin : Pin) (policy : Endpoints) : EPResult :=
  fst (MatchMulti policy (EntityV4 pin) (EntityV6 pin)).

Definition passesThrough (pin : Pin) (policy : Endpoints) : bool :=
  negb (IsSet policy) ||
  match policyResult pin policy with
  | NoMatch | MatchError => true
  | Denied | Permitted => false
  end.

(** The state and owner checks that come before the policy loop. *)
Definition stateCheck (c : Compiled) (pin : Pin) : bool :=
  Has (State pin) (c_regard c) && negb (HasAnyOf (State pin) (c_disregard c)).

Definition isEntryProbe (ev : Event) : bool :=
  match ev with EvEndpointListMatch EntryProbe _ _ => true | _ => false end.
Definition isProbe (ev : Event) : bool :=
  match ev with EvEndpointListMatch _ _ _ => true | _ => false end.

(** [Map.defaultOptions]: only the routing profile is set, to
    [DefaultRoutingProfileID] (declared in navigator/routing-profiles.go). *)
Definition defaultOptions (DefaultRoutingProfileID : string) : Options :=
  {| Regard := 0; Disregard := 0; HubPolicies := [];
     CheckHubEntryPolicyWith := None; CheckHubExitPolicyWith := None;
     RequireVerifiedOwners := []; NoDefaults := false;
     RequireTrustedDestinationHubs := false;
     RoutingProfile := DefaultRoutingProfileID |}.

(** The advisories [Matcher] takes from the hub intel for a hub type. *)
Definition intelPolicies (hubType : HubType) (hubIntel : option Intel) : list Endpoints :=
  match hubIntel with
  | Some i =>
      match Parsed i with
      | Some p =>
          match hubType with
          | HomeHub => [HubAdvisory p; HomeHubAdvisory p]
          | TransitHub => [HubAdvisory p]
          | DestinationHub => [HubAdvisory p; DestinationHubAdvisory p]
          end
      | None => []
      end
  | None => []
  end.

(** Options that differ in [RequireTrustedDestinationHubs] only. *)
Definition withRequireTrusted (o : Options) (b : bool) : Options :=
  {| Regard := Regard o; Disregard := Disregard o; HubPolicies := HubPolicies o;
     CheckHubEntryPolicyWith := CheckHubEntryPolicyWith o;
     CheckHubExitPolicyWith := CheckHubExitPolicyWith o;
     RequireVerifiedOwners := RequireVerifiedOwners o;
     NoDefaults := NoDefaults o;
     RequireTrustedDestinationHubs := b;
     RoutingProfile := RoutingProfile o |}.

End WithAPI.

End Navigator.

(** ** terminal: errors, messages and their units *)

Module Terminal.

(** Modelled from the spec: [terminal.Error] is declared in
    terminal/errors.go, which is not among the sources.  The spec gives
    errors a code that is their identity and a wrappable message; [Wrap] and
    [With] preserve the code, [Is] compares codes, and [IsOK] holds of nil
    and of [ErrExplicitAck]. *)
Inductive ErrorCode : Type :=
  | CodeStopping
  | CodeTimeout
  | CodeExplicitAck
  | CodeIdleTimeout
  | CodeOther (n : N).

#[global] Instance ErrorCode_eq_dec : EqDecision ErrorCode.
Proof. solve_decision. Defined.

Record Error : Type := {
  code : ErrorCode;
  messages : list string
}.

#[global] Instance Error_eq_dec : EqDecision Error.
Proof. solve_decision. Defined.

Definition ErrStopping : Error := {| code := CodeStopping; messages := [] |}.
Definition ErrTimeout : Error := {| code := CodeTimeout; messages := [] |}.
Definition ErrExplicitAck : Error := {| code := CodeExplicitAck; messages := [] |}.
Definition ErrIdleTimeout : Error := {| code := CodeIdleTimeout; messages := [] |}.

Definition Wrap (e : Error) (msg : string) : Error :=
  {| code := code e; messages := msg :: messages e |}.
Definition With (e : Error) (msg : string) : Error :=
  {| code := code e; messages := msg :: messages e |}.
Definition Is (e target : Error) : bool := bool_decide (code e = code target).
Definition IsOK (e : option Error) : bool :=
  match e with
  | None => true
  | Some e => Is e ErrExplicitAck
  end.

(** [MsgType] *)
Inductive MsgType : Type :=
  | MsgTypeInit
  | MsgTypeData
  | MsgTypeStop.

(** [Msg]: [Data] points to a container and may be nil (as after
    [NewEmptyMsg]); [Unit] points to the message's unit.  Containers and
    units live in a store, so that two messages can share either. *)
Record Msg : Type := {
  FlowID : N;
  Type_ : MsgType;
  Data : option nat;
  Unit : nat
}.

(** Modelled from the spec: the unit and its scheduler are declared in the
    [unit] package, which is not among the sources.  A unit carries a
    priority bit; [FinishUnit] marks it complete, and finishing twice is a
    bug, so the calls are counted. *)
Record UnitState : Type := {
  highPriority : bool;
  finishCalls : nat
}.

Record Store : Type := {
  containers : gmap nat (list byte);
  units : gmap nat UnitState;
  nextAddr : nat
}.

Definition IsHighPriorityUnit (msg : Msg) (s : Store) : bool :=
  match units s !! Unit msg with
  | Some u => highPriority u
  | None => false
  end.

Definition MakeUnitHighPriority (msg : Msg) (s : Store) : Store :=
  {| containers := containers s;
     units := alter (fun u => {| highPriority := true; finishCalls := finishCalls u |})
                    (Unit msg) (units s);
     nextAddr := nextAddr s |}.

(** [Msg.FinishUnit] on a message that is there (a nil message is a no-op). *)
Definition FinishUnit (msg : option Msg) (s : Store) : Store :=
  match msg with
  | None => s
  | Some msg =>
      {| containers := containers s;
         units := alter (fun u => {| highPriority := highPriority u;
                                      finishCalls := S (finishCalls u) |})
                        (Unit msg) (units s);
         nextAddr := nextAddr s |}
  end.

Definition finishCount (msg : Msg) (s : Store) : nat :=
  match units s !! Unit msg with
  | Some u => finishCalls u
  | None => 0%nat
  end.

Section WithHeader.
(** [MakeMsg(c, id, type)] of terminal/msg_encoding (not among the sources)
    prepends a header to the container; the header it builds from the flow
    ID, the type and the payload is a parameter. *)
Variable msgHeader : N -> MsgType -> list byte -> list byte.

(** [scheduler.NewUnit] and [container.New]: fresh addresses. *)
Definition NewMsg (data : list byte) (s : Store) : Msg * Store :=
  let a := nextAddr s in
  ({| FlowID := 0; Type_ := MsgTypeData; Data := Some a; Unit := a |},
   {| containers := <[a := data]> (containers s);
      units := <[a := {| highPriority := false; finishCalls := 0 |}]> (units s);
      nextAddr := S a |}).

Definition NewEmptyMsg (s : Store) : Msg * Store :=
  let a := nextAddr s in
  ({| FlowID := 0; Type_ := MsgTypeData; Data := None; Unit := a |},
   {| containers := containers s;
      units := <[a := {| highPriority := false; finishCalls := 0 |}]> (units s);
      nextAddr := S a |}).

(** [Msg.Pack]; [None] is the nil dereference of a message without data. *)
Definition Pack (msg : Msg) (s : Store) : option Store :=
  a ← Data msg;
  d ← containers s !! a;
  Some {| containers := <[a := msgHeader (FlowID msg) (Type_ msg) d ++ d]> (containers s);
          units := units s;
          nextAddr := nextAddr s |}.

(** [c.AppendContainer(data)] on two container pointers. *)
Definition AppendContainer (c data : option nat) (s : Store) : option Store :=
  a ← c;
  b ← data;
  dc ← containers s !! a;
  dd ← containers s !! b;
  Some {| containers := <[a := dc ++ dd]> (containers s);
          units := units s;
          nextAddr := nextAddr s |}.

(** [Msg.Consume] *)
Definition Consume (msg other : Msg) (s : Store) : option Store :=
  s1 ← Pack other s;
  s2 ← AppendContainer (Data msg) (Data other) s1;
  let s3 := if IsHighPriorityUnit other s2 then MakeUnitHighPriority msg s2 else s2 in
  Some (FinishUnit (Some other) s3).

End WithHeader.

End Terminal.

(** ** Go's [time.Duration]: a signed count of nanoseconds *)

Module GoTime.

Local Open Scope Z_scope.

Definition Duration : Type := Z.
Definition Nanosecond : Duration := 1.
Definition Microsecond : Duration := 1000 * Nanosecond.
Definition Millisecond : Duration := 1000 * Microsecond.
Definition Second : Duration := 1000 * Millisecond.
Definition Minute : Duration := 60 * Second.
Definition Hour : Duration := 60 * Minute.

End GoTime.

(** ** docks: establishing a terminal on a crane *)

Module Docks.

Import Terminal GoTime.

Local Open Scope Z_scope.

Definition defaultTerminalIdleTimeout : Duration := 15 * Minute.
Definition remoteTerminalIdleTimeout : Duration := 30 * Minute.

(** A crane terminal, as far as [establishTerminal] touches it: its ID and
    the idle timeout of its terminal base. *)
Record CraneTerminal : Type := {
  termID : N;
  idleTimeout : Duration
}.

(** [TerminalBase.SetTimeout] *)
Definition SetTimeout (t : CraneTerminal) (d : Duration) : CraneTerminal :=
  {| termID := termID t; idleTimeout := d |}.

(** [Crane]: the public flag, the terminals by ID, the messages sent on
    [terminalMsgs] and the messages handed to an [abandon terminal] worker. *)
Record Crane : Type := {
  Public : bool;
  terminals : gmap N CraneTerminal;
  terminalMsgs : list Msg;
  abandonWorkers : list Msg
}.

(** [crane.setTerminal] *)
Definition setTerminal (crane : Crane) (t : CraneTerminal) : Crane :=
  {| Public := Public crane;
     terminals := <[termID t := t]> (terminals crane);
     terminalMsgs := terminalMsgs crane;
     abandonWorkers := abandonWorkers crane |}.

Section Establish.
(** [NewRemoteCraneTerminal] is declared in docks/terminal_crane.go and
    [Error.Pack] in terminal/errors.go; neither is among the sources. *)
Variable NewRemoteCraneTerminal : Crane -> N -> option nat -> CraneTerminal + Error.
Variable packError : Error -> list byte.

(** [Crane.establishTerminal].  [sendReady] tells whether the send on
    [crane.terminalMsgs] can proceed at once (the first case of the
    [select]); otherwise the [default] case starts a worker. *)
Definition establishTerminal (crane : Crane) (id : N) (initData : option nat)
    (sendReady : bool) (s : Store) : Crane * Store :=
  match NewRemoteCraneTerminal crane id initData with
  | inl newTerminal =>
      let newTerminal :=
        if Public crane then SetTimeout newTerminal remoteTerminalIdleTimeout
        else newTerminal in
      (setTerminal crane newTerminal, s)
  | inr err =>
      let '(msg, s) := NewMsg (packError err) s in
      let msg := {| FlowID := id; Type_ := MsgTypeStop; Data := Data msg; Unit := Unit msg |} in
      if sendReady then
        ({| Public := Public crane;
            terminals := terminals crane;
            terminalMsgs := terminalMsgs crane ++ [msg];
            abandonWorkers := abandonWorkers crane |}, s)
      else
        ({| Public := Public crane;
            terminals := terminals crane;
            terminalMsgs := terminalMsgs crane;
            abandonWorkers := abandonWorkers crane ++ [msg] |}, s)
  end.

End Establish.

Section EstablishNew.
(** [crane.AbandonTerminal] is declared in docks/crane.go, which is not
    among the sources. *)
Variable AbandonTerminal : Crane -> N -> Error -> Crane.

(** The case of the [select] in [EstablishNewTerminal] that fires: the send
    on [crane.controllerMsgs], or the crane's context being done. *)
Inductive SendArm : Type :=
  | ArmControllerMsgs
  | ArmCraneDone.

(** [Crane.EstablishNewTerminal]: the crane, the store, the messages sent on
    [crane.controllerMsgs] and the returned error. *)
Definition EstablishNewTerminal (crane : Crane) (localTerm : CraneTerminal)
    (initData : option nat) (arm : SendArm) (s : Store)
    : Crane * Store * list Msg * option Error :=
  let '(msg, s) := NewEmptyMsg s in
  let msg := {| FlowID := termID localTerm; Type_ := MsgTypeInit;
                Data := initData; Unit := Unit msg |} in
  let crane := setTerminal crane localTerm in
  match arm with
  | ArmControllerMsgs => (crane, s, [msg], None)
  | ArmCraneDone =>
      (AbandonTerminal crane (termID localTerm) (With ErrStopping "initiation aborted"),
       s, [], Some ErrStopping)
  end.

End EstablishNew.

End Docks.

(** ** captain: home hub and network optimization *)

Module Captain.

Import Navigator GoTime.

Local Open Scope Z_scope.

Definition stopCraneAfterBeingUnsuggestedFor : Duration := 6 * Hour.

(** Go [error] values: a package-level error variable (identified by its
    name), an error made on the spot, an error wrapping another with [%w],
    and a [*terminal.Error]. *)
Inductive error : Type :=
  | ErrorVar (name : string)
  | ErrorNew (msg : string)
  | ErrorWrap (msg : string) (cause : error)
  | ErrorTerminal (e : Terminal.Error).

#[global] Instance error_eq_dec : EqDecision error.
Proof. solve_decision. Defined.

(** [errors.Is]: the chain of [err] is searched for [target]; a terminal
    error matches by its own [Is]. *)
Fixpoint errors_Is (err target : error) : bool :=
  bool_decide (err = target) ||
  match err with
  | ErrorWrap _ cause => errors_Is cause target
  | ErrorTerminal e =>
      match target with
      | ErrorTerminal t => Terminal.Is e t
      | _ => false
      end
  | _ => false
  end.

(** [navigator.ErrEmptyMap] and [ErrAllHomeHubsExcluded]. *)
Definition ErrEmptyMap : error := ErrorVar "navigator.ErrEmptyMap".
Definition ErrAllHomeHubsExcluded : error := ErrorVar "captain.ErrAllHomeHubsExcluded".

(** *** The authentication wait of [connectToHomeHub] *)

(** The case of the [select] that fires. *)
Inductive SelectArm : Type :=
  | ArmEnded (tErr : Terminal.Error)
  | ArmTimeout
  | ArmCtxDone.

Definition authTimeout : Duration := 3 * Second.

(** The body of the [select]: [Some e] returns [e] from
    [connectToHomeHub], [None] falls through to the code after it. *)
Definition authSelect (arm : SelectArm) : option Terminal.Error :=
  match arm with
  | ArmEnded tErr =>
      if negb (Terminal.Is tErr Terminal.ErrExplicitAck)
      then Some (Terminal.Wrap tErr "failed to authenticate to")
      else None
  | ArmTimeout =>
      Some (Terminal.With Terminal.ErrTimeout "timed out waiting for auth to complete")
  | ArmCtxDone => Some Terminal.ErrStopping
  end.

(** When the three channels of the [select] become ready, in nanoseconds
    after the [select] is entered: [authOp.Ended] delivers a value at some
    time or never, the context is done at some time or never (a time that
    is not positive: it was done already), and [time.After] fires when
    [authTimeout] has passed. *)
Record AuthRace : Type := {
  endedAt : option (Z * Terminal.Error);
  ctxDoneAt : option Z
}.

Definition armTime (race : AuthRace) (arm : SelectArm) : option Z :=
  match arm with
  | ArmEnded tErr =>
      match endedAt race with
      | Some (t, e) => if bool_decide (e = tErr) then Some t else None
      | None => None
      end
  | ArmTimeout => Some authTimeout
  | ArmCtxDone => ctxDoneAt race
  end.

(** The [select] blocks until the first channel is ready. *)
Definition selectTime (race : AuthRace) : Z :=
  let t := authTimeout in
  let t := match endedAt race with Some (te, _) => Z.min t te | None => t end in
  let t := match ctxDoneAt race with Some tc => Z.min t tc | None => t end in
  Z.max 0 t.

(** A case can fire when its channel is ready at that time; among several
    ready cases Go chooses any. *)
Definition mayFire (race : AuthRace) (arm : SelectArm) : bool :=
  match armTime race arm with
  | Some t => t <=? selectTime race
  | None => false
  end.

(** Vocabulary of the statements about the wait: the context is not done
    up to a time, and [Ended] has delivered nothing up to a time. *)
Definition ctxLiveUntil (race : AuthRace) (t : Z) : bool :=
  match ctxDoneAt race with
  | Some tc => t <? tc
  | None => true
  end.

Definition endedSilentUntil (race : AuthRace) (t : Z) : bool :=
  match endedAt race with
  | Some (te, _) => t <? te
  | None => true
  end.

(** *** connectToHomeHub *)

(** What the collaborators of one [connectToHomeHub] call return. *)
Record ConnectEnv : Type := {
  ceEstablishCrane : option error;
  ceNewGossipQueryOp : option Terminal.Error;
  ceNewLocalCraneTerminal : option Terminal.Error;
  ceEstablishNewTerminal : option Terminal.Error;
  ceAuthorizeToTerminal : option Terminal.Error;
  ceSetHome : bool
}.

Inductive ConnectEvent : Type :=
  | EvSetExceptions (hubAddresses : bool)
  | EvLogWarning (msg : string)
  | EvSetHome
  | EvAssignCrane
  | EvCraneStop.

(** [connectToHomeHub]: the returned error and what was done; the two
    deferred calls run last, the crane cleanup before the exceptions. *)
Definition connectToHomeHub (env : ConnectEnv) (arm : SelectArm)
    : option error * list ConnectEvent :=
  match ceEstablishCrane env with
  | Some err => (Some err, [EvSetExceptions true; EvSetExceptions false])
  | None =>
      let gossip :=
        match ceNewGossipQueryOp env with
        | Some _ => [EvLogWarning "failed to start initial gossip query"]
        | None => []
        end in
      let failed (err : error) (evs : list ConnectEvent) :=
        (Some err, EvSetExceptions true :: gossip ++ evs ++ [EvCraneStop; EvSetExceptions false]) in
      match ceNewLocalCraneTerminal env with
      | Some tErr => failed (ErrorTerminal (Terminal.Wrap tErr "failed to create home terminal")) []
      | None =>
      match ceEstablishNewTerminal env with
      | Some tErr => failed (ErrorTerminal (Terminal.Wrap tErr "failed to connect home terminal")) []
      | None =>
      match ceAuthorizeToTerminal env with
      | Some tErr => failed (ErrorTerminal (Terminal.Wrap tErr "failed to authorize")) []
      | None =>
      match authSelect arm with
      | Some tErr => failed (ErrorTerminal tErr) []
      | None =>
          if negb (ceSetHome env)
          then failed (ErrorNew "failed to set home hub on map") [EvSetHome]
          else (None, EvSetExceptions true :: gossip
                        ++ [EvSetHome; EvAssignCrane; EvSetExceptions false])
      end end end end
  end.

Section WithAPI.
Context {api : EndpointsAPI}.
(** [netenv]'s device locations and [intel.Entity]'s [SetIP] followed by
    [FetchData]. *)
Variables (IP Location : Type) (entityOfIP : IP -> Entity).

Record DeviceLocation : Type := {
  dlIP : option IP;
  dlLocation : option Location
}.

Record DeviceLocations : Type := {
  BestV4 : option DeviceLocation;
  BestV6 : option DeviceLocation
}.

Definition LocationOrNil (dl : option DeviceLocation) : option Location :=
  match dl with
  | Some dl => dlLocation dl
  | None => None
  end.

(** The own entity built at the start of [establishHomeHub]. *)
Definition ownEntity (locations : DeviceLocations) : option Entity :=
  match BestV4 locations with
  | Some {| dlIP := Some ip |} => Some (entityOfIP ip)
  | _ =>
      match BestV6 locations with
      | Some {| dlIP := Some ip |} => Some (entityOfIP ip)
      | _ => None
      end
  end.

(** The calls [establishHomeHub] makes, in order. *)
Inductive Call : Type :=
  | CallFindNearestHubs (v4 v6 : option Location) (opts : Options)
      (hubType : HubType) (n : nat)
  | CallBootstrapWithUpdates
  | CallConnectToHomeHub (dst : Hub).

Definition isBootstrap (c : Call) : bool :=
  match c with CallBootstrapWithUpdates => true | _ => false end.
Definition isFind (c : Call) : bool :=
  match c with CallFindNearestHubs _ _ _ _ _ => true | _ => false end.

(** What the world answers: the device location (or not ok), the home hub
    policy, the results of the successive [FindNearestHubs] and
    [bootstrapWithUpdates] calls, and how connecting to a hub goes. *)
Record World : Type := {
  internetLocation : option DeviceLocations;
  homeHubPolicy : Endpoints + error;
  findResults : list (list Hub + error);
  bootstrapResults : list (option error);
  connectEnv : Hub -> ConnectEnv * SelectArm
}.

(** The [findCandidates] label with its [goto]: one iteration per result of
    [FindNearestHubs].  [None] as outcome: the answers given do not take
    the loop to its end. *)
Fixpoint findCandidates (v4 v6 : option Location) (opts : Options)
    (finds : list (list Hub + error)) (boots : list (option error))
    : list Call * option (list Hub + error) :=
  let call := CallFindNearestHubs v4 v6 opts HomeHub 10 in
  match finds with
  | [] => ([], None)
  | inl candidates :: _ => ([call], Some (inl candidates))
  | inr err :: finds' =>
      if errors_Is err ErrEmptyMap then
        match boots with
        | [] => ([call], None)
        | Some err :: _ => ([call; CallBootstrapWithUpdates], Some (inr err))
        | None :: boots' =>
            let '(calls, res) := findCandidates v4 v6 opts finds' boots' in
            (call :: CallBootstrapWithUpdates :: calls, res)
        end
      else ([call], Some (inr (ErrorWrap "failed to find nearby hubs" err)))
  end.

(** The loop over the candidates; [err] is the function's [err] variable,
    [tries] the number of candidates tried so far (Go's [tries+1] once the
    loop is over). *)
Fixpoint connectLoop (connect : Hub -> ConnectEnv * SelectArm)
    (candidates : list Hub) (tries : nat) (err : option error)
    : list Call * option error :=
  match candidates with
  | [] =>
      match err with
      | Some e =>
          ([], Some (ErrorWrap ("failed to connect to a new home hub - tried "
                                 +:+ pretty tries +:+ " hubs") e))
      | None => ([], Some (ErrorNew "no home hub candidates available"))
      end
  | candidate :: rest =>
      let '(env, arm) := connect candidate in
      match fst (connectToHomeHub env arm) with
      | Some e =>
          if errors_Is e (ErrorTerminal Terminal.ErrStopping)
          then ([CallConnectToHomeHub candidate], Some e)
          else
            let '(calls, res) := connectLoop connect rest (S tries) (Some e) in
            (CallConnectToHomeHub candidate :: calls, res)
      | None => ([CallConnectToHomeHub candidate], None)
      end
  end.

(** The navigation options [establishHomeHub] builds: the home policy and
    the own entity; every other field has its zero value. *)
Definition homeHubOptions (homePolicy : Endpoints) (myEntity : option Entity) : Options :=
  {| Regard := 0%N; Disregard := 0%N;
     HubPolicies := [homePolicy];
     CheckHubEntryPolicyWith := myEntity;
     CheckHubExitPolicyWith := None;
     RequireVerifiedOwners := [];
     NoDefaults := false;
     RequireTrustedDestinationHubs := false;
     RoutingProfile := EmptyString |}.

(** [establishHomeHub]: the calls made and, when it returns, the error. *)
Definition establishHomeHub (w : World) : list Call * option (option error) :=
  match internetLocation w with
  | None => ([], Some (Some (ErrorNew "failed to locate own device")))
  | Some locations =>
      let myEntity := ownEntity locations in
      match homeHubPolicy w with
      | inr err => ([], Some (Some err))
      | inl homePolicy =>
          let opts := homeHubOptions homePolicy myEntity in
          let '(calls, found) :=
            findCandidates (LocationOrNil (BestV4 locations))
              (LocationOrNil (BestV6 locations)) opts
              (findResults w) (bootstrapResults w) in
          match found with
          | None => (calls, None)
          | Some (inr err) => (calls, Some (Some err))
          | Some (inl candidates) =>
              if (length candidates =? 0)%nat && (0 <? length homePolicy)%nat
              then (calls, Some (Some ErrAllHomeHubsExcluded))
              else
                let '(calls', res) := connectLoop (connectEnv w) candidates 0 None in
                (calls ++ calls', Some res)
          end
      end
  end.

(** Vocabulary of the statements about [establishHomeHub]: the IP of a
    device location that may be missing, a result of [FindNearestHubs] that
    is not the empty-map failure, and the number of calls of a kind. *)
Definition ownIP (dl : option DeviceLocation) : option IP :=
  match dl with
  | Some dl => dlIP dl
  | None => None
  end.

Definition isEmptyMapFailure (r : list Hub + error) : bool :=
  match r with
  | inl _ => false
  | inr err => errors_Is err ErrEmptyMap
  end.

Definition countCalls (kind : Call -> bool) (calls : list Call) : nat :=
  length (List.filter kind calls).

(** The error of connecting to a candidate, as the world has it. *)
Definition connectError (connect : Hub -> ConnectEnv * SelectArm) (dst : Hub)
    : option error :=
  fst (connectToHomeHub (fst (connect dst)) (snd (connect dst))).

(** A candidate fails without stopping the search for a home hub. *)
Definition failsSoftly (connect : Hub -> ConnectEnv * SelectArm) (dst : Hub) : bool :=
  match connectError connect dst with
  | Some e => negb (errors_Is e (ErrorTerminal Terminal.ErrStopping))
  | None => false
  end.

(** The error [err] holds after the candidates given have been tried. *)
Definition lastError (connect : Hub -> ConnectEnv * SelectArm)
    (tried : list Hub) (err : option error) : option error :=
  fold_left (fun _ dst => connectError connect dst) tried err.

(** The search [establishHomeHub] makes for a located device. *)
Definition homeHubSearch (locations : DeviceLocations) (homePolicy : Endpoints) : Call :=
  CallFindNearestHubs (LocationOrNil (BestV4 locations))
    (LocationOrNil (BestV6 locations))
    (homeHubOptions homePolicy (ownEntity locations)) HomeHub 10.

End WithAPI.

Arguments CallBootstrapWithUpdates {api Location}.
Arguments CallConnectToHomeHub {api Location} dst.
Arguments connectLoop {api Location} connect candidates tries err.
Arguments isBootstrap {api Location} c.
Arguments isFind {api Location} c.

(** *** optimizeNetwork *)

(** A crane as [optimizeNetwork] sees it: [NetState.LastSuggestedAt] (a
    reading of the clock), the stopping mark, and what the retirement loop
    asks about. *)
Record CraneState : Type := {
  lastSuggestedAt : Z;
  stopping : bool;
  stopped : bool;
  isMine : bool;
  updatesNotified : nat
}.

(** The cranes by address, the assignment of cranes to hub IDs kept by
    [docks], and [time.Now()]. *)
Record DocksState : Type := {
  cranes : gmap nat CraneState;
  assigned : gmap string nat;
  clock : Z
}.

Definition withCranes (d : DocksState) (cs : gmap nat CraneState) : DocksState :=
  {| cranes := cs; assigned := assigned d; clock := clock d |}.

(** [docks.GetAssignedCrane] *)
Definition GetAssignedCrane (d : DocksState) (hubID : string) : option nat :=
  assigned d !! hubID.

(** [crane.NetState.UpdateLastSuggestedAt] *)
Definition UpdateLastSuggestedAt (crane : nat) (d : DocksState) : DocksState :=
  withCranes d
    (alter (fun c => {| lastSuggestedAt := clock d; stopping := stopping c;
                        stopped := stopped c; isMine := isMine c;
                        updatesNotified := updatesNotified c |}) crane (cranes d)).

(** Modelled from the spec: [Crane.AbortStopping] and [Crane.MarkStopping]
    are declared in docks/crane.go, which is not among the sources.  The spec
    has them compare and swap the stopping mark: [AbortStopping] clears a
    set mark, [MarkStopping] sets a clear one, and each reports whether it
    changed the mark. *)
Definition AbortStopping (crane : nat) (d : DocksState) : bool * DocksState :=
  match cranes d !! crane with
  | Some c =>
      (stopping c,
       withCranes d
         (<[crane := {| lastSuggestedAt := lastSuggestedAt c; stopping := false;
                        stopped := stopped c; isMine := isMine c;
                        updatesNotified := updatesNotified c |}]> (cranes d)))
  | None => (false, d)
  end.

Definition MarkStopping (crane : nat) (d : DocksState) : bool * DocksState :=
  match cranes d !! crane with
  | Some c =>
      (negb (stopping c),
       withCranes d
         (<[crane := {| lastSuggestedAt := lastSuggestedAt c; stopping := true;
                        stopped := stopped c; isMine := isMine c;
                        updatesNotified := updatesNotified c |}]> (cranes d)))
  | None => (false, d)
  end.

(** [crane.NotifyUpdate] *)
Definition NotifyUpdate (crane : nat) (d : DocksState) : DocksState :=
  withCranes d
    (alter (fun c => {| lastSuggestedAt := lastSuggestedAt c; stopping := stopping c;
                        stopped := stopped c; isMine := isMine c;
                        updatesNotified := S (updatesNotified c) |}) crane (cranes d)).

(** The lines [optimizeNetwork] logs. *)
Inductive LogLine : Type :=
  | LogAbortedRetiring (crane : nat)
  | LogLaneFailed (hubID : string)
  | LogLaneEstablished (hubID : string)
  | LogCreated (created attempted : Z) (purpose : string)
  | LogChecked (suggestions : nat) (purpose : string)
  | LogRetiring (crane : nat).

Definition isLaneEstablished (l : LogLine) : bool :=
  match l with LogLaneEstablished _ => true | _ => false end.

(** The number of lanes a log reports as established. *)
Definition lanesLogged (lg : list LogLine) : Z :=
  Z.of_nat (length (List.filter isLaneEstablished lg)).

Section Optimize.
Context {api : EndpointsAPI}.

(** [navigator.OptimizationResult] and its suggested connections. *)
Record SuggestedConnection : Type := {
  SuggestedHub : Hub;
  Duplicate : bool
}.

Record OptimizationResult : Type := {
  Purpose : string;
  SuggestedConnections : list SuggestedConnection;
  MaxConnect : Z;
  StopOthers : bool
}.

(** [EstablishPublicLane] is declared in captain/public.go, which is not
    among the sources: it acts on the docks and returns a crane and a
    terminal error. *)
Variable EstablishPublicLane : DocksState -> Hub -> DocksState * (nat * option Terminal.Error).

(** The variables of the loop over the suggested connections. *)
Record LoopState : Type := {
  docks : DocksState;
  createdConnections : Z;
  attemptedConnections : Z;
  logged : list LogLine
}.

(** One iteration of the loop over [result.SuggestedConnections]. *)
Definition suggestionStep (maxConnect : Z) (st : LoopState)
    (connectTo : SuggestedConnection) : LoopState :=
  if Duplicate connectTo then st
  else
    match GetAssignedCrane (docks st) (ID (SuggestedHub connectTo)) with
    | Some crane =>
        let d := UpdateLastSuggestedAt crane (docks st) in
        let '(aborted, d) := AbortStopping crane d in
        if aborted then
          {| docks := NotifyUpdate crane d;
             createdConnections := createdConnections st;
             attemptedConnections := attemptedConnections st;
             logged := logged st ++ [LogAbortedRetiring crane] |}
        else
          {| docks := d;
             createdConnections := createdConnections st;
             attemptedConnections := attemptedConnections st;
             logged := logged st |}
    | None =>
        if createdConnections st <? maxConnect then
          let '(d, (crane, tErr)) := EstablishPublicLane (docks st) (SuggestedHub connectTo) in
          if negb (Terminal.IsOK tErr) then
            {| docks := d;
               createdConnections := createdConnections st;
               attemptedConnections := attemptedConnections st + 1;
               logged := logged st ++ [LogLaneFailed (ID (SuggestedHub connectTo))] |}
          else
            {| docks := UpdateLastSuggestedAt crane d;
               createdConnections := createdConnections st + 1;
               attemptedConnections := attemptedConnections st + 1;
               logged := logged st ++ [LogLaneEstablished (ID (SuggestedHub connectTo))] |}
        else st
    end.

Definition suggestionLoop (maxConnect : Z) (st : LoopState)
    (suggestions : list SuggestedConnection) : LoopState :=
  fold_left (suggestionStep maxConnect) suggestions st.

(** What the loop keeps true of its counter of created connections: it
    counts the lanes logged as established and stays within the bound. *)
Definition countsLanes (maxConnect : Z) (st : LoopState) : Prop :=
  createdConnections st = lanesLogged (logged st)
  /\ createdConnections st <= Z.max 0 maxConnect.

(** One iteration of the retirement loop over the assigned cranes. *)
Definition retireStep (st : DocksState * list LogLine) (crane : nat)
    : DocksState * list LogLine :=
  let '(d, lg) := st in
  match cranes d !! crane with
  | None => st
  | Some c =>
      if negb (isMine c) then st
      else if stopped c || stopping c then st
      else if clock d - stopCraneAfterBeingUnsuggestedFor <? lastSuggestedAt c then st
      else
        let '(marked, d) := MarkStopping crane d in
        if marked then (NotifyUpdate crane d, lg ++ [LogRetiring crane])
        else (d, lg)
  end.

(** [docks.GetAllAssignedCranes] *)
Definition GetAllAssignedCranes (d : DocksState) : list nat :=
  (map_to_list (assigned d)).*2.

(** The [optimize] label with its [goto], one iteration per result of
    [navigator.Main.Optimize]; as in [findCandidates], [None] means the
    answers given do not take the loop to its end. *)
Fixpoint optimize (results : list (OptimizationResult + error))
    (boots : list (option error)) : option (OptimizationResult + error) :=
  match results with
  | [] => None
  | inl result :: _ => Some (inl result)
  | inr err :: results' =>
      if errors_Is err ErrEmptyMap then
        match boots with
        | [] => None
        | Some err :: _ => Some (inr err)
        | None :: boots' => optimize results' boots'
        end
      else Some (inr err)
  end.

(** [optimizeNetwork]: the docks are left untouched without a public
    identity or on error. *)
Definition optimizeNetwork (publicIdentity : bool)
    (results : list (OptimizationResult + error)) (boots : list (option error))
    (d : DocksState) : option (option error * DocksState * list LogLine) :=
  if negb publicIdentity then Some (None, d, [])
  else
    match optimize results boots with
    | None => None
    | Some (inr err) => Some (Some err, d, [])
    | Some (inl result) =>
        let st := suggestionLoop (MaxConnect result)
                    {| docks := d; createdConnections := 0;
                       attemptedConnections := 0; logged := [] |}
                    (SuggestedConnections result) in
        let lg :=
          if 0 <? attemptedConnections st
          then logged st ++ [LogCreated (createdConnections st)
                               (attemptedConnections st) (Purpose result)]
          else logged st ++ [LogChecked (length (SuggestedConnections result))
                               (Purpose result)] in
        let '(d', lg) :=
          if StopOthers result
          then fold_left retireStep (GetAllAssignedCranes (docks st)) (docks st, lg)
          else (docks st, lg) in
        Some (None, d', lg)
    end.

(** Vocabulary of the statements about a whole pass.  A lane builder keeps
    what is there during a pass that started on [d]: called for a hub that
    has no crane, at a time less than [stopCraneAfterBeingUnsuggestedFor]
    after the start, it leaves the cranes and assignments that exist as they
    are and the clock within that time. *)
Definition duringPass (d cur : DocksState) : Prop :=
  clock d <= clock cur < clock d + stopCraneAfterBeingUnsuggestedFor.

Definition laneKeeps (d : DocksState) : Prop :=
  forall cur h,
    GetAssignedCrane cur (ID h) = None ->
    duringPass d cur ->
    let cur' := fst (EstablishPublicLane cur h) in
    duringPass d cur'
    /\ (forall a c, cranes cur !! a = Some c -> cranes cur' !! a = Some c)
    /\ (forall k a, assigned cur !! k = Some a -> assigned cur' !! k = Some a).

(** A crane the retirement loop would mark. *)
Definition retirable (d : DocksState) (c : CraneState) : bool :=
  isMine c && negb (stopped c || stopping c)
  && negb (clock d - stopCraneAfterBeingUnsuggestedFor <? lastSuggestedAt c).

Definition isLaneFailed (l : LogLine) : bool :=
  match l with LogLaneFailed _ => true | _ => false end.

Definition failsLogged (lg : list LogLine) : Z :=
  Z.of_nat (length (List.filter isLaneFailed lg)).

(** A crane after the retirement loop has marked it: it is stopping and
    has been notified of the update once more. *)
Definition markedCrane (c : CraneState) : CraneState :=
  {| lastSuggestedAt := lastSuggestedAt c; stopping := true;
     stopped := stopped c; isMine := isMine c;
     updatesNotified := S (updatesNotified c) |}.

(** What the loop keeps true of its two counters, [n] bounding the
    attempts. *)
Definition countersAgree (st : LoopState) (n : Z) : Prop :=
  createdConnections st = lanesLogged (logged st)
  /\ attemptedConnections st = lanesLogged (logged st) + failsLogged (logged st)
  /\ attemptedConnections st <= n.

(** During a pass that started on [d]: a crane that is kept (not stopping
    and suggested since the start), and a hub's crane that is there. *)
Definition keptCrane (d cur : DocksState) (crane : nat) : Prop :=
  duringPass d cur
  /\ exists c, cranes cur !! crane = Some c
               /\ stopping c = false /\ clock d <= lastSuggestedAt c.

Definition assignedCrane (d cur : DocksState) (hubID : string) (crane : nat) : Prop :=
  duringPass d cur
  /\ GetAssignedCrane cur hubID = Some crane
  /\ is_Some (cranes cur !! crane).

End Optimize.

End Captain.

(** ** crew: registration of the connect operation metrics *)

Module Crew.

Import Captain.

Inductive MetricKind : Type :=
  | CounterMetric
  | GaugeMetric
  | HistogramMetric.

(** [metrics.Options] as [registerMetrics] fills them in; every metric is
    permitted to the user. *)
Record MetricOptions : Type := {
  Name : string;
  InternalID : string;
  Persist : bool
}.

Record Metric : Type := {
  kind : MetricKind;
  metricID : string;
  options : MetricOptions
}.

(** The nine metrics of [registerMetrics], in the order it makes them. *)
Definition connectMetrics : list Metric :=
  [ {| kind := CounterMetric; metricID := "spn/op/connect/total";
       options := {| Name := "SPN Total Connect Operations";
                     InternalID := "spn_connect_count"; Persist := true |} |};
    {| kind := GaugeMetric; metricID := "spn/op/connect/active";
       options := {| Name := "SPN Active Connect Operations";
                     InternalID := EmptyString; Persist := false |} |};
    {| kind := CounterMetric; metricID := "spn/op/connect/incoming/bytes";
       options := {| Name := "SPN Connect Operation Incoming Bytes";
                     InternalID := "spn_connect_in_bytes"; Persist := true |} |};
    {| kind := CounterMetric; metricID := "spn/op/connect/outgoing/bytes";
       options := {| Name := "SPN Connect Operation Outgoing Bytes";
                     InternalID := "spn_connect_out_bytes"; Persist := true |} |};
    {| kind := HistogramMetric; metricID := "spn/op/connect/histogram/ttcr/seconds";
       options := {| Name := "SPN Connect Operation time-to-connect-request Histogram";
                     InternalID := EmptyString; Persist := false |} |};
    {| kind := HistogramMetric; metricID := "spn/op/connect/histogram/ttfb/seconds";
       options := {| Name := "SPN Connect Operation time-to-first-byte (from TTCR) Histogram";
                     InternalID := EmptyString; Persist := false |} |};
    {| kind := HistogramMetric; metricID := "spn/op/connect/histogram/duration/seconds";
       options := {| Name := "SPN Connect Operation Duration Histogram";
                     InternalID := EmptyString; Persist := false |} |};
    {| kind := HistogramMetric; metricID := "spn/op/connect/histogram/incoming/bytes";
       options := {| Name := "SPN Connect Operation Downloaded Data Histogram";
                     InternalID := EmptyString; Persist := false |} |};
    {| kind := HistogramMetric; metricID := "spn/op/connect/histogram/outgoing/bytes";
       options := {| Name := "SPN Connect Operation Outgoing Data Histogram";
                     InternalID := EmptyString; Persist := false |} |} ].

(** The package state: the [metricsRegistered] flag and the metrics the
    library has made so far, in order. *)
Record State : Type := {
  metricsRegistered : bool;
  registered : list Metric
}.

Section Register.
(** [metrics.NewCounter], [NewGauge] and [NewHistogram] of portbase: given
    the metrics made so far, the error of making one more (nil on success). *)
Variable NewMetric : list Metric -> Metric -> option error.

(** The calls of [registerMetrics] one after the other, each followed by
    [if err != nil { return err }]. *)
Fixpoint registerEach (ms : list Metric) (reg : list Metric)
    : list Metric * option error :=
  match ms with
  | [] => (reg, None)
  | m :: ms' =>
      match NewMetric reg m with
      | Some err => (reg, Some err)
      | None => registerEach ms' (reg ++ [m])
      end
  end.

(** [registerMetrics]: [SetToIf(false, true)] sets the flag when it is not
    set and tells whether it did. *)
Definition registerMetrics (st : State) : State * option error :=
  if metricsRegistered st then (st, None)
  else
    let '(reg, err) := registerEach connectMetrics (registered st) in
    ({| metricsRegistered := true; registered := reg |}, err).

(** Vocabulary: the library accepts these metrics one after the other. *)
Fixpoint acceptsEach (ms : list Metric) (reg : list Metric) : bool :=
  match ms with
  | [] => true
  | m :: ms' =>
      match NewMetric reg m with
      | Some _ => false
      | None => acceptsEach ms' (reg ++ [m])
      end
  end.

End Register.

End Crew.

(** ** Sample data: a small endpoint library, state values and a few pins *)

Module Samples.

Import Navigator.

(** An entity is a number; an endpoint names an entity and the verdict it
    gives on it.  As in portmaster, the first endpoint of a list whose
    verdict is not [NoMatch] decides, and [MatchMulti] asks each endpoint
    about every entity that is there. *)
Definition sampleMatches (ep : nat * EPResult) (e : nat) : EPResult :=
  if (fst ep =? e)%nat then snd ep else NoMatch.

Fixpoint sampleMatch (l : list (nat * EPResult)) (e : nat) : EPResult * string :=
  match l with
  | [] => (NoMatch, EmptyString)
  | ep :: l' =>
      match sampleMatches ep e with
      | NoMatch => sampleMatch l' e
      | r => (r, "endpoint " +:+ pretty (fst ep))
      end
  end.

Definition sampleMatchesAny (ep : nat * EPResult) (es : list nat) : EPResult :=
  match List.filter (fun r => negb (EPResult_eqb r NoMatch)) (map (sampleMatches ep) es) with
  | r :: _ => r
  | [] => NoMatch
  end.

Fixpoint sampleMatchMulti (l : list (nat * EPResult)) (v4 v6 : option nat)
    : EPResult * string :=
  match l with
  | [] => (NoMatch, EmptyString)
  | ep :: l' =>
      match sampleMatchesAny ep (option_list v4 ++ option_list v6) with
      | NoMatch => sampleMatchMulti l' v4 v6
      | r => (r, "endpoint " +:+ pretty (fst ep))
      end
  end.

Definition sampleAPI : EndpointsAPI :=
  {| Entity := nat;
     Endpoint := nat * EPResult;
     IsSet := fun l => negb (length l =? 0)%nat;
     Match := sampleMatch;
     MatchMulti := sampleMatchMulti |}.

#[local] Existing Instance sampleAPI.

(** State bits, one bit per named state. *)
Definition sampleStates : StateConsts :=
  {| StateReachable := 32;
     StateActive := 64;
     StateTrusted := 128;
     StateUsageAsHomeDiscouraged := 512;
     StateUsageAsDestinationDiscouraged := 1024;
     StateConnectivityIssues := 4096;
     StateSummaryRegard := 32 + 64;
     StateSummaryDisregard := 1 + 2 + 4 + 8 + 256 + 2048 |}.

Definition sampleOptions : @Options sampleAPI :=
  {| Regard := 0; Disregard := 0; HubPolicies := [];
     CheckHubEntryPolicyWith := None; CheckHubExitPolicyWith := None;
     RequireVerifiedOwners := []; NoDefaults := false;
     RequireTrustedDestinationHubs := false; RoutingProfile := EmptyString |}.

(** A reachable and active pin of entity 4 whose hub has the given entry
    and exit policies. *)
Definition samplePin (entry exit : list (nat * EPResult)) : @Pin sampleAPI :=
  {| State := 32 + 64; VerifiedOwner := "owner";
     EntityV4 := Some 4%nat; EntityV6 := None;
     PinHub := {| ID := "hub"; Info := {| EntryPolicy := entry; ExitPolicy := exit |} |} |}.

(** Options that ask to check the hub's exit policy with entity 7, and a
    pin whose hub has no entry policy and an exit policy denying entity 7. *)
Definition exitOptions : @Options sampleAPI :=
  {| Regard := 0; Disregard := 0; HubPolicies := [];
     CheckHubEntryPolicyWith := None; CheckHubExitPolicyWith := Some 7%nat;
     RequireVerifiedOwners := []; NoDefaults := false;
     RequireTrustedDestinationHubs := false; RoutingProfile := EmptyString |}.

Definition exitDenyingPin : @Pin sampleAPI := samplePin [] [(7%nat, Denied)].

(** Hub policies: one that fails to match entity 4, one that denies it and
    one that permits it. *)
Definition failingPolicy : list (nat * EPResult) := [(4%nat, MatchError)].
Definition denyingPolicy : list (nat * EPResult) := [(4%nat, Denied)].
Definition permittingPolicy : list (nat * EPResult) := [(4%nat, Permitted)].

Definition optionsWithPolicies (ps : list (list (nat * EPResult))) : @Options sampleAPI :=
  {| Regard := 0; Disregard := 0; HubPolicies := ps;
     CheckHubEntryPolicyWith := None; CheckHubExitPolicyWith := None;
     RequireVerifiedOwners := []; NoDefaults := false;
     RequireTrustedDestinationHubs := false; RoutingProfile := EmptyString |}.

(** Options without defaults that regard bit 1 and disregard bit 2, and
    options that only admit hubs of a verified owner. *)
Definition bareOptions : @Options sampleAPI :=
  {| Regard := 1; Disregard := 2; HubPolicies := [];
     CheckHubEntryPolicyWith := None; CheckHubExitPolicyWith := None;
     RequireVerifiedOwners := []; NoDefaults := true;
     RequireTrustedDestinationHubs := false; RoutingProfile := EmptyString |}.

Definition ownerOptions : @Options sampleAPI :=
  {| Regard := 0; Disregard := 0; HubPolicies := [];
     CheckHubEntryPolicyWith := None; CheckHubExitPolicyWith := None;
     RequireVerifiedOwners := ["somebody else"]; NoDefaults := false;
     RequireTrustedDestinationHubs := false; RoutingProfile := EmptyString |}.

(** A connection attempt in which every step succeeds and authentication is
    acknowledged. *)
Definition smoothConnect : Captain.ConnectEnv :=
  {| Captain.ceEstablishCrane := None;
     Captain.ceNewGossipQueryOp := None;
     Captain.ceNewLocalCraneTerminal := None;
     Captain.ceEstablishNewTerminal := None;
     Captain.ceAuthorizeToTerminal := None;
     Captain.ceSetHome := true |}.

Definition sampleHub : @Hub sampleAPI :=
  {| ID := "hub"; Info := {| EntryPolicy := []; ExitPolicy := [] |} |}.

(** A device whose location is known but carries no IP, and a map that is
    still empty after the first bootstrap and holds one hub after the
    second. *)
Definition twiceEmptyWorld : @Captain.World sampleAPI nat nat :=
  {| Captain.internetLocation :=
       Some {| Captain.BestV4 := None;
               Captain.BestV6 := Some {| Captain.dlIP := None;
                                         Captain.dlLocation := Some 1%nat |} |};
     Captain.homeHubPolicy := inl [];
     Captain.findResults :=
       [inr Captain.ErrEmptyMap; inr Captain.ErrEmptyMap; inl [sampleHub]];
     Captain.bootstrapResults := [None; None];
     Captain.connectEnv :=
       fun _ => (smoothConnect, Captain.ArmEnded Terminal.ErrExplicitAck) |}.

(** Authentication acknowledged 2.999 s after the wait began, with a
    context that is never done. *)
Definition lateAck : Captain.AuthRace :=
  {| Captain.endedAt := Some (2999000000%Z, Terminal.ErrExplicitAck);
     Captain.ctxDoneAt := None |}.

(** Two hubs, a suggestion list that names the first one twice (the second
    time marked as duplicate) and allows one new connection, and a lane
    builder that always succeeds: it makes a crane at a fresh address and
    assigns it to the hub. *)
Definition hub1 : @Hub sampleAPI :=
  {| ID := "H1"; Info := {| EntryPolicy := []; ExitPolicy := [] |} |}.
Definition hub2 : @Hub sampleAPI :=
  {| ID := "H2"; Info := {| EntryPolicy := []; ExitPolicy := [] |} |}.

Definition sampleResult : @Captain.OptimizationResult sampleAPI :=
  {| Captain.Purpose := "sample";
     Captain.SuggestedConnections :=
       [ {| Captain.SuggestedHub := hub1; Captain.Duplicate := false |};
         {| Captain.SuggestedHub := hub1; Captain.Duplicate := true |};
         {| Captain.SuggestedHub := hub2; Captain.Duplicate := false |} ];
     Captain.MaxConnect := 1;
     Captain.StopOthers := false |}.

Definition sampleEstablishPublicLane (d : Captain.DocksState) (h : @Hub sampleAPI)
    : Captain.DocksState * (nat * option Terminal.Error) :=
  let crane := size (Captain.cranes d) in
  ({| Captain.cranes :=
        <[crane := {| Captain.lastSuggestedAt := 0; Captain.stopping := false;
                      Captain.stopped := false; Captain.isMine := true;
                      Captain.updatesNotified := 0 |}]> (Captain.cranes d);
      Captain.assigned := <[ID h := crane]> (Captain.assigned d);
      Captain.clock := Captain.clock d |},
   (crane, None)).

Definition emptyDocks : Captain.DocksState :=
  {| Captain.cranes := ∅; Captain.assigned := ∅; Captain.clock := 1000 |}.

(** Docks in which the first hub has a crane that is marked as stopping. *)
Definition stoppingCrane : Captain.CraneState :=
  {| Captain.lastSuggestedAt := 0; Captain.stopping := true;
     Captain.stopped := false; Captain.isMine := true;
     Captain.updatesNotified := 0 |}.

Definition stoppingDocks : Captain.DocksState :=
  {| Captain.cranes := {[ 0%nat := stoppingCrane ]};
     Captain.assigned := {[ "H1" := 0%nat ]};
     Captain.clock := 1000 |}.

(** A header of one byte, and a store with two messages of one byte each,
    the second of high priority. *)
Definition sampleHeader (id : N) (t : Terminal.MsgType) (payload : list byte) : list byte :=
  [Byte.xff].

Definition emptyStore : Terminal.Store :=
  {| Terminal.containers := ∅; Terminal.units := ∅; Terminal.nextAddr := 0 |}.

Definition firstMsg : Terminal.Msg := fst (Terminal.NewMsg [Byte.x01] emptyStore).
Definition secondMsg : Terminal.Msg :=
  fst (Terminal.NewMsg [Byte.x02] (snd (Terminal.NewMsg [Byte.x01] emptyStore))).
Definition twoMsgStore : Terminal.Store :=
  Terminal.MakeUnitHighPriority secondMsg
    (snd (Terminal.NewMsg [Byte.x02] (snd (Terminal.NewMsg [Byte.x01] emptyStore)))).

(** A public crane without terminals, and a constructor of remote crane
    terminals that sets the default idle timeout. *)
Definition publicCrane : Docks.Crane :=
  {| Docks.Public := true; Docks.terminals := ∅;
     Docks.terminalMsgs := []; Docks.abandonWorkers := [] |}.

Definition sampleNewRemoteCraneTerminal (crane : Docks.Crane) (id : N)
    (initData : option nat) : Docks.CraneTerminal + Terminal.Error :=
  inl {| Docks.termID := id; Docks.idleTimeout := Docks.defaultTerminalIdleTimeout |}.

(** A pin with given states, a pin of the listed owner, a trusted pin,
    options that require trusted destination hubs, hub intel that advises
    against entity 4 and hub intel that is not parsed. *)
Definition statePin (st : N) : @Pin sampleAPI :=
  {| State := st; VerifiedOwner := "owner";
     EntityV4 := Some 4%nat; EntityV6 := None;
     PinHub := {| ID := "hub"; Info := {| EntryPolicy := []; ExitPolicy := [] |} |} |}.

Definition ownedPin : @Pin sampleAPI :=
  {| State := 32 + 64; VerifiedOwner := "somebody else";
     EntityV4 := Some 4%nat; EntityV6 := None;
     PinHub := {| ID := "hub"; Info := {| EntryPolicy := []; ExitPolicy := [] |} |} |}.

Definition trustedOptions : @Options sampleAPI :=
  {| Regard := 0; Disregard := 0; HubPolicies := [];
     CheckHubEntryPolicyWith := None; CheckHubExitPolicyWith := None;
     RequireVerifiedOwners := []; NoDefaults := false;
     RequireTrustedDestinationHubs := true; RoutingProfile := EmptyString |}.

Definition denyingIntel : @Intel sampleAPI :=
  {| Parsed := Some {| HubAdvisory := denyingPolicy;
                       HomeHubAdvisory := [];
                       DestinationHubAdvisory := [] |} |}.

Definition unparsedIntel : @Intel sampleAPI := {| Parsed := None |}.

(** Connecting to the first hub fails when the crane is set up, connecting
    to a hub called H3 is cut short by the context, and any other hub can be
    connected to. *)
Definition hub3 : @Hub sampleAPI :=
  {| ID := "H3"; Info := {| EntryPolicy := []; ExitPolicy := [] |} |}.

Definition noCrane : Captain.ConnectEnv :=
  {| Captain.ceEstablishCrane := Some (Captain.ErrorNew "dial failed");
     Captain.ceNewGossipQueryOp := None;
     Captain.ceNewLocalCraneTerminal := None;
     Captain.ceEstablishNewTerminal := None;
     Captain.ceAuthorizeToTerminal := None;
     Captain.ceSetHome := true |}.

Definition sampleConnect (h : @Hub sampleAPI) : Captain.ConnectEnv * Captain.SelectArm :=
  if String.eqb (ID h) "H1" then (noCrane, Captain.ArmEnded Terminal.ErrExplicitAck)
  else if String.eqb (ID h) "H3" then (smoothConnect, Captain.ArmCtxDone)
  else (smoothConnect, Captain.ArmEnded Terminal.ErrExplicitAck).

Definition sampleLocations : Captain.DeviceLocations nat nat :=
  {| Captain.BestV4 := Some {| Captain.dlIP := Some 9%nat;
                               Captain.dlLocation := Some 1%nat |};
     Captain.BestV6 := None |}.

Definition worldWith (homePolicy : list (nat * EPResult))
    (finds : list (list (@Hub sampleAPI) + Captain.error))
    (boots : list (option Captain.error)) : @Captain.World sampleAPI nat nat :=
  {| Captain.internetLocation := Some sampleLocations;
     Captain.homeHubPolicy := inl homePolicy;
     Captain.findResults := finds;
     Captain.bootstrapResults := boots;
     Captain.connectEnv := sampleConnect |}.

(** A lane builder that never succeeds, docks whose crane for the first hub
    has not been suggested for long, and a result that suggests this hub and
    asks to stop the others. *)
Definition failingLane (d : Captain.DocksState) (h : @Hub sampleAPI)
    : Captain.DocksState * (nat * option Terminal.Error) :=
  (d, (0%nat, Some Terminal.ErrTimeout)).

Definition unsuggestedCrane : Captain.CraneState :=
  {| Captain.lastSuggestedAt := 0; Captain.stopping := false;
     Captain.stopped := false; Captain.isMine := true;
     Captain.updatesNotified := 0 |}.

Definition oldDocks : Captain.DocksState :=
  {| Captain.cranes := {[ 0%nat := unsuggestedCrane ]};
     Captain.assigned := {[ "H1" := 0%nat ]};
     Captain.clock := 30000000000000 |}.

Definition keepFirstHub : @Captain.OptimizationResult sampleAPI :=
  {| Captain.Purpose := "sample";
     Captain.SuggestedConnections :=
       [ {| Captain.SuggestedHub := hub1; Captain.Duplicate := false |} ];
     Captain.MaxConnect := 0;
     Captain.StopOthers := true |}.

Definition keepNothing : @Captain.OptimizationResult sampleAPI :=
  {| Captain.Purpose := "sample";
     Captain.SuggestedConnections := [];
     Captain.MaxConnect := 0;
     Captain.StopOthers := true |}.

(** A third message in the store of two. *)
Definition thirdMsg : Terminal.Msg := fst (Terminal.NewMsg [Byte.x03] twoMsgStore).
Definition threeMsgStore : Terminal.Store := snd (Terminal.NewMsg [Byte.x03] twoMsgStore).

(** A constructor of remote crane terminals that always fails, and a
    metrics library that refuses gauges. *)
Definition refusingNewRemoteCraneTerminal (crane : Docks.Crane) (id : N)
    (initData : option nat) : Docks.CraneTerminal + Terminal.Error :=
  inr Terminal.ErrTimeout.

Definition refuseGauges (reg : list Crew.Metric) (m : Crew.Metric) : option Captain.error :=
  match Crew.kind m with
  | Crew.GaugeMetric => Some (Captain.ErrorNew "no gauges")
  | _ => None
  end.

Definition freshCrew : Crew.State :=
  {| Crew.metricsRegistered := false; Crew.registered := [] |}.

(** Options that ask to check the hub's entry policy with entity 7. *)
Definition entryOptions : @Options sampleAPI :=
  {| Regard := 0; Disregard := 0; HubPolicies := [];
     CheckHubEntryPolicyWith := Some 7%nat; CheckHubExitPolicyWith := None;
     RequireVerifiedOwners := []; NoDefaults := false;
     RequireTrustedDestinationHubs := false; RoutingProfile := EmptyString |}.

End Samples.

(** * Properties *)

Lemma EPResult_eqb_eq a b : EPResult_eqb a b = true <-> a = b.
Proof. destruct a, b; simpl; split; intros H; try reflexivity; discriminate H. Qed.

(** ** The matcher *)

Section MatcherFacts.
Import Navigator.
Context {api : EndpointsAPI} {sc : StateConsts}.

Implicit Types (c : Compiled) (pin : Pin) (o : Options).

(** The verdict of the closure is the conjunction of its five checks. *)
Lemma pinMatch_verdict c pin :
  fst (pinMatch c pin) =
    stateCheck c pin
    && ownerCheck (c_owners c) pin
    && fst (policyCheck (c_hubPolicies c) pin)
    && negb (fst (probe EntryProbe (EntryPolicy (Info (PinHub pin)))
                    (c_checkHubEntryPolicyWith c)))
    && negb (fst (probe ExitProbe (EntryPolicy (Info (PinHub pin)))
                    (c_checkHubExitPolicyWith c))).
Proof.
  unfold pinMatch, stateCheck.
  destruct (Has (State pin) (c_regard c)); simpl; [| reflexivity].
  destruct (HasAnyOf (State pin) (c_disregard c)); simpl; [reflexivity |].
  destruct (ownerCheck (c_owners c) pin); simpl; [| reflexivity].
  destruct (policyCheck (c_hubPolicies c) pin) as [ok evs].
  destruct ok; simpl; [| reflexivity].
  destruct (probe EntryProbe _ _) as [d1 evs1].
  destruct d1; simpl; [reflexivity |].
  destruct (probe ExitProbe _ _) as [d2 evs2].
  destruct d2; reflexivity.
Qed.

(** Policies that are not set, match nothing or fail to match do not
    change the outcome of the policy loop. *)
Lemma policyCheck_skip pin pre rest :
  forallb (passesThrough pin) pre = true ->
  fst (policyCheck (pre ++ rest) pin) = fst (policyCheck rest pin).
Proof.
  induction pre as [| p pre IH]; simpl; [reflexivity |].
  intros H. apply andb_prop in H as [Hp Hpre].
  unfold passesThrough, policyResult in Hp.
  destruct (IsSet p); simpl in *; [| auto].
  destruct (MatchMulti p (EntityV4 pin) (EntityV6 pin)) as [r reason].
  destruct r; simpl in Hp; try discriminate Hp; [auto |].
  destruct (policyCheck (pre ++ rest) pin) as [ok evs] eqn:E.
  simpl. rewrite <- (IH Hpre). reflexivity.
Qed.

Lemma policyCheck_head pin policy rest :
  IsSet policy = true ->
  fst (policyCheck (policy :: rest) pin) =
    match policyResult pin policy with
    | Denied => false
    | Permitted => true
    | NoMatch | MatchError => fst (policyCheck rest pin)
    end.
Proof.
  intros Hset. unfold policyResult. simpl. rewrite Hset. simpl.
  destruct (MatchMulti policy (EntityV4 pin) (EntityV6 pin)) as [r reason].
  destruct r; simpl; try reflexivity.
  destruct (policyCheck rest pin); reflexivity.
Qed.

(** A failed match is logged by the loop, whatever comes after it. *)
Lemma policyCheck_warns pin pre policy rest :
  forallb (passesThrough pin) pre = true ->
  IsSet policy = true ->
  policyResult pin policy = MatchError ->
  In (EvWarn (snd (MatchMulti policy (EntityV4 pin) (EntityV6 pin))))
     (snd (policyCheck (pre ++ policy :: rest) pin)).
Proof.
  intros Hpre Hset Hres. induction pre as [| p pre IH]; simpl.
  - rewrite Hset. simpl. unfold policyResult in Hres.
    destruct (MatchMulti policy (EntityV4 pin) (EntityV6 pin)) as [r reason].
    simpl in Hres. subst r.
    destruct (policyCheck rest pin). simpl. left. reflexivity.
  - simpl in Hpre. apply andb_prop in Hpre as [Hp Hpre'].
    specialize (IH Hpre').
    unfold passesThrough, policyResult in Hp.
    destruct (IsSet p); simpl in *; [| exact IH].
    destruct (MatchMulti p (EntityV4 pin) (EntityV6 pin)) as [r reason].
    destruct r; simpl in Hp; try discriminate Hp; [exact IH |].
    destruct (policyCheck (pre ++ policy :: rest) pin) as [ok evs].
    simpl in *. right. exact IH.
Qed.

(** The policy loop logs warnings and asks no entry or exit probe. *)
Lemma policyCheck_no_probe ps pin :
  forallb (fun ev => negb (isProbe ev)) (snd (policyCheck ps pin)) = true.
Proof.
  induction ps as [| p ps IH]; simpl; [reflexivity |].
  destruct (IsSet p); simpl; [| exact IH].
  destruct (MatchMulti p (EntityV4 pin) (EntityV6 pin)) as [r reason].
  destruct r; simpl; try reflexivity; [exact IH |].
  destruct (policyCheck ps pin) as [ok evs]. simpl in *. exact IH.
Qed.

(** The events of the closure: those of the policy loop, then the probes. *)
Lemma pinMatch_rejected_in_loop c pin :
  stateCheck c pin && ownerCheck (c_owners c) pin
    && fst (policyCheck (c_hubPolicies c) pin) = false ->
  forallb (fun ev => negb (isProbe ev)) (snd (pinMatch c pin)) = true.
Proof.
  unfold pinMatch, stateCheck. intros H.
  destruct (Has (State pin) (c_regard c)); simpl in *; [| reflexivity].
  destruct (HasAnyOf (State pin) (c_disregard c)); simpl in *; [reflexivity |].
  destruct (ownerCheck (c_owners c) pin); simpl in *; [| reflexivity].
  pose proof (policyCheck_no_probe (c_hubPolicies c) pin) as Hev.
  destruct (policyCheck (c_hubPolicies c) pin) as [ok evs].
  simpl in *. subst ok. simpl. exact Hev.
Qed.

Lemma policyCheck_withExitPolicy ps pin lst :
  policyCheck ps (withExitPolicy pin lst) = policyCheck ps pin.
Proof.
  induction ps as [| p ps IH]; simpl; [reflexivity |].
  rewrite IH. reflexivity.
Qed.

Lemma policyCheck_withEntryPolicy ps pin lst :
  policyCheck ps (withEntryPolicy pin lst) = policyCheck ps pin.
Proof.
  induction ps as [| p ps IH]; simpl; [reflexivity |].
  rewrite IH. reflexivity.
Qed.

(** The closure never reads the exit policy of the pin's hub. *)
Lemma pinMatch_ignores_exit_policy c pin lst :
  pinMatch c (withExitPolicy pin lst) = pinMatch c pin.
Proof.
  unfold pinMatch. rewrite policyCheck_withExitPolicy. reflexivity.
Qed.

(** Without an entity for the entry check the closure asks no entry probe,
    and its verdict is that of the four other checks. *)
Lemma pinMatch_no_entry_probe c pin :
  c_checkHubEntryPolicyWith c = None ->
  forallb (fun ev => negb (isEntryProbe ev)) (snd (pinMatch c pin)) = true.
Proof.
  intros Hnone. unfold pinMatch. rewrite Hnone.
  destruct (negb (Has (State pin) (c_regard c)) || HasAnyOf (State pin) (c_disregard c));
    [reflexivity |].
  destruct (negb (ownerCheck (c_owners c) pin)); [reflexivity |].
  pose proof (policyCheck_no_probe (c_hubPolicies c) pin) as Hev.
  destruct (policyCheck (c_hubPolicies c) pin) as [ok evs]. simpl in Hev.
  assert (Hevs : forallb (fun ev => negb (isEntryProbe ev)) evs = true).
  { rewrite forallb_forall in *. intros ev Hin. specialize (Hev ev Hin).
    destruct ev as [| [|] ? ?]; simpl in *; congruence. }
  destruct ok; simpl; [| exact Hevs].
  destruct (c_checkHubExitPolicyWith c) as [e |]; simpl.
  - destruct (EPResult_eqb _ Denied); simpl;
      rewrite forallb_app, Hevs; reflexivity.
  - rewrite app_nil_r. exact Hevs.
Qed.

Lemma pinMatch_no_entry_verdict c pin :
  c_checkHubEntryPolicyWith c = None ->
  fst (pinMatch c pin) =
    stateCheck c pin
    && ownerCheck (c_owners c) pin
    && fst (policyCheck (c_hubPolicies c) pin)
    && negb (fst (probe ExitProbe (EntryPolicy (Info (PinHub pin)))
                    (c_checkHubExitPolicyWith c))).
Proof.
  intros Hnone. rewrite pinMatch_verdict, Hnone. simpl.
  rewrite andb_true_r. reflexivity.
Qed.

(** With neither entity, the entry policy of the pin's hub is not read. *)
Lemma pinMatch_entry_policy_unread c pin lst :
  c_checkHubEntryPolicyWith c = None ->
  c_checkHubExitPolicyWith c = None ->
  pinMatch c (withEntryPolicy pin lst) = pinMatch c pin.
Proof.
  intros Hentry Hexit. unfold pinMatch.
  rewrite policyCheck_withEntryPolicy, Hentry, Hexit. reflexivity.
Qed.

(** Bit facts about [Add], [Remove], [Has] and [HasAnyOf]. *)
Lemma Has_Add s states : Has (Add s states) states = true.
Proof.
  unfold Has, Add. apply N.eqb_eq. apply N.bits_inj. intros i.
  rewrite N.land_spec, N.lor_spec.
  destruct (N.testbit s i), (N.testbit states i); reflexivity.
Qed.

Lemma Has_Add_l s a b : Has s b = true -> Has (Add s a) b = true.
Proof.
  unfold Has, Add. rewrite !N.eqb_eq. intros H.
  apply N.bits_inj. intros i.
  apply (f_equal (fun n => N.testbit n i)) in H.
  rewrite N.land_spec in *. rewrite N.lor_spec.
  destruct (N.testbit s i), (N.testbit a i), (N.testbit b i);
    simpl in *; congruence.
Qed.

Lemma HasAnyOf_Remove s states : HasAnyOf (Remove s states) states = false.
Proof.
  unfold HasAnyOf, Remove. apply negb_false_iff, N.eqb_eq.
  apply N.bits_inj. intros i.
  rewrite N.land_spec, N.ldiff_spec, N.bits_0.
  destruct (N.testbit s i), (N.testbit states i); reflexivity.
Qed.

Lemma HasAnyOf_Remove_l s a b :
  HasAnyOf s b = false -> HasAnyOf (Remove s a) b = false.
Proof.
  unfold HasAnyOf, Remove. rewrite !negb_false_iff, !N.eqb_eq. intros H.
  apply N.bits_inj. intros i.
  apply (f_equal (fun n => N.testbit n i)) in H.
  rewrite N.land_spec, N.bits_0 in *. rewrite N.ldiff_spec.
  destruct (N.testbit s i), (N.testbit a i), (N.testbit b i);
    simpl in *; congruence.
Qed.

(** The verdict of the loop on a list that reaches a set policy: what that
    policy says decides, or the rest of the list does. *)
Lemma policyCheck_reaches pin pre policy post :
  forallb (passesThrough pin) pre = true ->
  IsSet policy = true ->
  fst (policyCheck (pre ++ policy :: post) pin) =
    match policyResult pin policy with
    | Denied => false
    | Permitted => true
    | NoMatch | MatchError => fst (policyCheck post pin)
    end.
Proof.
  intros Hpre Hset. rewrite (@policyCheck_skip pin pre (policy :: post) Hpre).
  apply policyCheck_head. exact Hset.
Qed.

(** C2: the policy loop of the compiled matcher.  When the loop reaches a
    set policy (every policy before it was not set, matched nothing or
    failed to match), a Denied result makes the matcher return false at
    once, with no entry or exit probe asked; a Permitted result ends the
    loop and leaves the verdict to the remaining checks, as if there were
    no policies; NoMatch and MatchError both go on with the policies after
    it, and MatchError logs the reason as a warning.  Policies that are all
    unset, unmatched or failing never reject a pin: the verdict is that of
    the matcher without policies. *)
Theorem matcher_policy_loop o hubType hubIntel pin :
  (forall pre policy post,
     compilePolicies o hubType hubIntel = pre ++ policy :: post ->
     forallb (passesThrough pin) pre = true ->
     IsSet policy = true ->
     match policyResult pin policy with
     | Denied =>
         Matcher o hubType hubIntel pin = false
         /\ forallb (fun ev => negb (isProbe ev))
              (MatcherEvents o hubType hubIntel pin) = true
     | Permitted =>
         Matcher o hubType hubIntel pin =
           fst (pinMatch (withPolicies (compile o hubType hubIntel) []) pin)
     | NoMatch =>
         Matcher o hubType hubIntel pin =
           fst (pinMatch (withPolicies (compile o hubType hubIntel) post) pin)
     | MatchError =>
         Matcher o hubType hubIntel pin =
           fst (pinMatch (withPolicies (compile o hubType hubIntel) post) pin)
         /\ In (EvWarn (snd (MatchMulti policy (EntityV4 pin) (EntityV6 pin))))
              (snd (policyCheck (compilePolicies o hubType hubIntel) pin))
     end)
  /\ (forallb (passesThrough pin) (compilePolicies o hubType hubIntel) = true ->
      Matcher o hubType hubIntel pin =
        fst (pinMatch (withPolicies (compile o hubType hubIntel) []) pin)).
Proof.
  split.
  - intros pre policy post Hps Hpre Hset.
    pose proof (@policyCheck_reaches pin pre policy post Hpre Hset) as Hloop.
    pose proof (@policyCheck_warns pin pre policy post Hpre Hset) as Hwarn.
    rewrite <- Hps in Hloop, Hwarn.
    unfold Matcher, MatcherEvents. rewrite !pinMatch_verdict. simpl.
    destruct (policyResult pin policy); rewrite Hloop.
    + reflexivity.
    + split; [reflexivity | exact (Hwarn eq_refl)].
    + split.
      * rewrite andb_false_r. reflexivity.
      * apply pinMatch_rejected_in_loop. simpl. rewrite Hloop.
        apply andb_false_r.
    + reflexivity.
  - intros Hall. unfold Matcher. rewrite !pinMatch_verdict. simpl.
    pose proof (@policyCheck_skip pin _ [] Hall) as Hloop.
    rewrite app_nil_r in Hloop. rewrite Hloop. reflexivity.
Qed.

(** C3: the states the matcher regards and disregards.  Without
    [NoDefaults], [StateSummaryRegard] is added to Regard and
    [StateSummaryDisregard] to Disregard; then a home hub loses
    [StateReachable] and [StateActive] from Regard and gets
    [StateUsageAsHomeDiscouraged] disregarded, a transit hub gets nothing
    more, and a destination hub gets [StateUsageAsDestinationDiscouraged]
    and [StateConnectivityIssues] disregarded.  With [NoDefaults] none of
    them is added: Disregard is the caller's, and so is Regard, but for the
    trusted state a destination hub may be required to have. *)
Theorem matcher_default_states o hubType hubIntel :
  let c := compile o hubType hubIntel in
  let trusted (regard : PinState) :=
    if RequireTrustedDestinationHubs o && HubType_eqb hubType DestinationHub
    then N.lor regard StateTrusted else regard in
  (NoDefaults o = false ->
   match hubType with
   | HomeHub =>
       c_regard c =
         Remove (Remove (Add (Regard o) StateSummaryRegard) StateReachable) StateActive
       /\ c_disregard c =
            Add (Add (Disregard o) StateSummaryDisregard) StateUsageAsHomeDiscouraged
       /\ HasAnyOf (c_regard c) StateReachable = false
       /\ HasAnyOf (c_regard c) StateActive = false
       /\ Has (c_disregard c) StateSummaryDisregard = true
       /\ Has (c_disregard c) StateUsageAsHomeDiscouraged = true
   | TransitHub =>
       c_regard c = Add (Regard o) StateSummaryRegard
       /\ c_disregard c = Add (Disregard o) StateSummaryDisregard
       /\ Has (c_regard c) StateSummaryRegard = true
       /\ Has (c_disregard c) StateSummaryDisregard = true
   | DestinationHub =>
       c_regard c = trusted (Add (Regard o) StateSummaryRegard)
       /\ c_disregard c =
            Add (Add (Add (Disregard o) StateSummaryDisregard)
                   StateUsageAsDestinationDiscouraged) StateConnectivityIssues
       /\ Has (c_regard c) StateSummaryRegard = true
       /\ Has (c_disregard c) StateSummaryDisregard = true
       /\ Has (c_disregard c) StateUsageAsDestinationDiscouraged = true
       /\ Has (c_disregard c) StateConnectivityIssues = true
   end)
  /\ (NoDefaults o = true ->
      c_regard c = trusted (Regard o) /\ c_disregard c = Disregard o).
Proof.
  simpl. unfold compileRegard, compileDisregard. split; intros Hnd; rewrite Hnd; simpl.
  - destruct hubType; simpl; rewrite ?andb_false_r.
    + repeat split.
      * apply HasAnyOf_Remove_l, HasAnyOf_Remove.
      * apply HasAnyOf_Remove.
      * apply Has_Add_l, Has_Add.
      * apply Has_Add.
    + repeat split; apply Has_Add.
    + repeat split.
      * destruct (RequireTrustedDestinationHubs o); simpl;
          [apply (@Has_Add_l _ StateTrusted) |]; apply Has_Add.
      * apply Has_Add_l, Has_Add_l, Has_Add.
      * apply Has_Add_l, Has_Add.
      * apply Has_Add.
  - split; reflexivity.
Qed.

(** C9: [Copy] keeps Regard, Disregard, HubPolicies, both entities to check
    entry and exit policies with, NoDefaults, RequireTrustedDestinationHubs
    and RoutingProfile, and leaves RequireVerifiedOwners empty whatever it
    was: a matcher made from the copy is the matcher of the original with
    the verified-owner restriction dropped. *)
Theorem Copy_drops_verified_owners o :
  Regard (Copy o) = Regard o
  /\ Disregard (Copy o) = Disregard o
  /\ HubPolicies (Copy o) = HubPolicies o
  /\ CheckHubEntryPolicyWith (Copy o) = CheckHubEntryPolicyWith o
  /\ CheckHubExitPolicyWith (Copy o) = CheckHubExitPolicyWith o
  /\ NoDefaults (Copy o) = NoDefaults o
  /\ RequireTrustedDestinationHubs (Copy o) = RequireTrustedDestinationHubs o
  /\ RoutingProfile (Copy o) = RoutingProfile o
  /\ RequireVerifiedOwners (Copy o) = []
  /\ (forall hubType hubIntel pin,
        Matcher (Copy o) hubType hubIntel pin =
          fst (pinMatch (withOwners (compile o hubType hubIntel) []) pin))
  /\ (forall hubType hubIntel pin,
        ownerCheck (c_owners (compile (Copy o) hubType hubIntel)) pin = true).
Proof.
  repeat split; reflexivity.
Qed.

End MatcherFacts.

(** ** The matcher on sample pins *)

Section MatcherSamples.
Import Navigator Samples.

#[local] Existing Instance sampleAPI.
#[local] Existing Instance sampleStates.

(** C1, as the code has it: asked to check the hub's exit policy with an
    entity that this exit policy denies, the matcher still accepts the pin,
    for the exit probe is given the hub's entry policy (here unset). *)
Theorem exit_probe_reads_entry_policy :
  endpointListMatch (ExitPolicy (Info (PinHub exitDenyingPin)))
    (CheckHubExitPolicyWith exitOptions) = Denied
  /\ Matcher exitOptions DestinationHub None exitDenyingPin = true
  /\ MatcherEvents exitOptions DestinationHub None exitDenyingPin =
       [EvEndpointListMatch ExitProbe
          (EntryPolicy (Info (PinHub exitDenyingPin))) 7%nat].
Proof. repeat split; vm_compute; reflexivity. Qed.

(** The same pin with the denying list as entry policy is rejected. *)
Example exit_probe_denied_by_entry_policy :
  Matcher exitOptions DestinationHub None (samplePin [(7%nat, Denied)] []) = false.
Proof. vm_compute. reflexivity. Qed.

Lemma matcher_policy_loop_witness :
  Matcher (optionsWithPolicies [failingPolicy; denyingPolicy]) TransitHub None
    (samplePin [] []) = false
  /\ Matcher (optionsWithPolicies [failingPolicy; []]) TransitHub None
       (samplePin [] []) = true.
Proof.
  split.
  - exact (proj1 (proj1 (matcher_policy_loop
                   (optionsWithPolicies [failingPolicy; denyingPolicy])
                   TransitHub None (samplePin [] []))
                 [failingPolicy] denyingPolicy [] eq_refl eq_refl eq_refl)).
  - exact (proj2 (matcher_policy_loop
                   (optionsWithPolicies [failingPolicy; []])
                   TransitHub None (samplePin [] [])) eq_refl).
Defined.

Lemma matcher_default_states_witness :
  c_regard (compile sampleOptions HomeHub None) = 0%N
  /\ c_disregard (compile bareOptions DestinationHub None) = 2%N.
Proof.
  split.
  - exact (proj1 (proj1 (matcher_default_states sampleOptions HomeHub None) eq_refl)).
  - exact (proj2 (proj2 (matcher_default_states bareOptions DestinationHub None) eq_refl)).
Defined.

(** A pin without a listed owner is rejected by the original options and
    accepted by their copy. *)
Example Copy_admits_unlisted_owner :
  Matcher ownerOptions HomeHub None (samplePin [] []) = false
  /\ Matcher (Copy ownerOptions) HomeHub None (samplePin [] []) = true.
Proof. split; vm_compute; reflexivity. Qed.

End MatcherSamples.

(** ** connectToHomeHub: the wait for authentication *)

Section AuthWait.
Import Captain GoTime.

Local Open Scope Z_scope.

Lemma authTimeout_ns : authTimeout = 3000000000.
Proof. reflexivity. Qed.

(** The timer alone makes some case fire. *)
Lemma select_fires race : exists arm, mayFire race arm = true.
Proof.
  unfold mayFire, selectTime, armTime.
  assert (Hpos : 0 < authTimeout) by reflexivity.
  destruct (endedAt race) as [[te e] |]; destruct (ctxDoneAt race) as [tc |].
  - destruct (Z.le_gt_cases te (Z.min authTimeout tc)) as [H | H].
    + exists (ArmEnded e). rewrite bool_decide_eq_true_2 by reflexivity.
      apply Z.leb_le. lia.
    + destruct (Z.le_gt_cases tc authTimeout).
      * exists ArmCtxDone. apply Z.leb_le. lia.
      * exists ArmTimeout. apply Z.leb_le. lia.
  - destruct (Z.le_gt_cases te authTimeout) as [H | H].
    + exists (ArmEnded e). rewrite bool_decide_eq_true_2 by reflexivity.
      apply Z.leb_le. lia.
    + exists ArmTimeout. apply Z.leb_le. lia.
  - destruct (Z.le_gt_cases tc authTimeout).
    + exists ArmCtxDone. apply Z.leb_le. lia.
    + exists ArmTimeout. apply Z.leb_le. lia.
  - exists ArmTimeout. apply Z.leb_le. lia.
Qed.

(** Which case fires when one channel is ready strictly first. *)
Lemma mayFire_ended_first race arm t e :
  mayFire race arm = true ->
  endedAt race = Some (t, e) -> 0 <= t < authTimeout -> ctxLiveUntil race t = true ->
  arm = ArmEnded e.
Proof.
  unfold mayFire, selectTime, armTime, ctxLiveUntil. intros Hfire Hended Ht Hctx.
  rewrite Hended in Hfire.
  destruct arm as [tErr | |].
  - destruct (bool_decide (e = tErr)) eqn:He; [| discriminate Hfire].
    apply bool_decide_eq_true_1 in He. congruence.
  - apply Z.leb_le in Hfire.
    destruct (ctxDoneAt race) as [tc |]; [apply Z.ltb_lt in Hctx |]; lia.
  - destruct (ctxDoneAt race) as [tc |]; [| discriminate Hfire].
    apply Z.leb_le in Hfire. apply Z.ltb_lt in Hctx. lia.
Qed.

Lemma mayFire_timer_first race arm :
  mayFire race arm = true ->
  endedSilentUntil race authTimeout = true -> ctxLiveUntil race authTimeout = true ->
  arm = ArmTimeout.
Proof.
  unfold mayFire, selectTime, armTime, ctxLiveUntil, endedSilentUntil.
  intros Hfire Hended Hctx.
  assert (0 < authTimeout) by reflexivity.
  destruct arm as [tErr | |]; [| reflexivity |].
  - destruct (endedAt race) as [[te e] |]; [| discriminate Hfire].
    destruct (bool_decide (e = tErr)); [| discriminate Hfire].
    apply Z.leb_le in Hfire. apply Z.ltb_lt in Hended.
    destruct (ctxDoneAt race) as [tc |]; [apply Z.ltb_lt in Hctx |]; lia.
  - destruct (ctxDoneAt race) as [tc |]; [| discriminate Hfire].
    apply Z.leb_le in Hfire. apply Z.ltb_lt in Hctx.
    destruct (endedAt race) as [[te e] |]; [apply Z.ltb_lt in Hended |]; lia.
Qed.

Lemma mayFire_ctx_first race arm tc :
  mayFire race arm = true ->
  ctxDoneAt race = Some tc -> tc < authTimeout ->
  endedSilentUntil race (Z.max 0 tc) = true ->
  arm = ArmCtxDone.
Proof.
  unfold mayFire, selectTime, armTime, endedSilentUntil.
  intros Hfire Hctx Htc Hended. rewrite Hctx in Hfire.
  assert (0 < authTimeout) by reflexivity.
  destruct arm as [tErr | |]; [| | reflexivity].
  - destruct (endedAt race) as [[te e] |]; [| discriminate Hfire].
    destruct (bool_decide (e = tErr)); [| discriminate Hfire].
    apply Z.leb_le in Hfire. apply Z.ltb_lt in Hended. lia.
  - apply Z.leb_le in Hfire.
    destruct (endedAt race) as [[te e] |]; [apply Z.ltb_lt in Hended |]; lia.
Qed.

(** [connectToHomeHub] once authorization has been started. *)
Lemma connectToHomeHub_after_authorize env arm :
  ceEstablishCrane env = None ->
  ceNewLocalCraneTerminal env = None ->
  ceEstablishNewTerminal env = None ->
  ceAuthorizeToTerminal env = None ->
  fst (connectToHomeHub env arm) =
    match authSelect arm with
    | Some tErr => Some (ErrorTerminal tErr)
    | None =>
        if ceSetHome env then None
        else Some (ErrorNew "failed to set home hub on map")
    end.
Proof.
  intros H1 H2 H3 H4. unfold connectToHomeHub. rewrite H1, H2, H3, H4.
  destruct (authSelect arm); [reflexivity |].
  destruct (ceSetHome env); reflexivity.
Qed.

(** C5: the wait for authentication in [connectToHomeHub], once
    [AuthorizeToTerminal] has succeeded.  The timer is set to 3 seconds.
    A value delivered on [Ended] before the 3 seconds are over (and before
    the context is done) decides: [ErrExplicitAck] lets the connection
    proceed (to setting the home hub), anything else fails with that error
    wrapped.  When nothing is delivered within the 3 seconds the call fails
    with [ErrTimeout], and when the context is done first it fails with
    [ErrStopping]. *)
Theorem auth_wait_outcomes env race arm :
  ceEstablishCrane env = None ->
  ceNewLocalCraneTerminal env = None ->
  ceEstablishNewTerminal env = None ->
  ceAuthorizeToTerminal env = None ->
  mayFire race arm = true ->
  authTimeout = 3 * Second
  /\ (forall t e,
        endedAt race = Some (t, e) -> 0 <= t < authTimeout ->
        ctxLiveUntil race t = true ->
        fst (connectToHomeHub env arm) =
          if Terminal.Is e Terminal.ErrExplicitAck
          then (if ceSetHome env then None
                else Some (ErrorNew "failed to set home hub on map"))
          else Some (ErrorTerminal (Terminal.Wrap e "failed to authenticate to")))
  /\ (endedSilentUntil race authTimeout = true ->
      ctxLiveUntil race authTimeout = true ->
      fst (connectToHomeHub env arm) =
        Some (ErrorTerminal
                (Terminal.With Terminal.ErrTimeout
                   "timed out waiting for auth to complete")))
  /\ (forall tc,
        ctxDoneAt race = Some tc -> tc < authTimeout ->
        endedSilentUntil race (Z.max 0 tc) = true ->
        fst (connectToHomeHub env arm) = Some (ErrorTerminal Terminal.ErrStopping)).
Proof.
  intros H1 H2 H3 H4 Hfire.
  rewrite (connectToHomeHub_after_authorize arm H1 H2 H3 H4).
  split; [reflexivity |]. split; [| split].
  - intros t e Hended Ht Hctx.
    rewrite (mayFire_ended_first Hfire Hended Ht Hctx). simpl.
    destruct (Terminal.Is e Terminal.ErrExplicitAck); reflexivity.
  - intros Hended Hctx.
    rewrite (mayFire_timer_first Hfire Hended Hctx). reflexivity.
  - intros tc Hctx Htc Hended.
    rewrite (mayFire_ctx_first Hfire Hctx Htc Hended). reflexivity.
Qed.

(** An acknowledgement after 2.999 s still lets the connection succeed. *)
Lemma auth_wait_outcomes_witness :
  fst (connectToHomeHub Samples.smoothConnect (ArmEnded Terminal.ErrExplicitAck)) = None.
Proof.
  refine (proj1 (proj2 (@auth_wait_outcomes Samples.smoothConnect Samples.lateAck
                   (ArmEnded Terminal.ErrExplicitAck)
                   eq_refl eq_refl eq_refl eq_refl eq_refl))
            2999000000 Terminal.ErrExplicitAck eq_refl _ eq_refl).
  split; [discriminate | reflexivity].
Defined.

End AuthWait.

(** ** establishHomeHub *)

Section HomeHubFacts.
Import Navigator Captain.
Context {api : EndpointsAPI} {sc : StateConsts}.
Variables (IP Location : Type) (entityOfIP : IP -> Entity).

Implicit Types (w : World IP Location) (calls : list (Call Location)).

(** The candidate loop only connects. *)
Lemma connectLoop_calls connect candidates tries err :
  Forall (fun c : Call Location => exists dst, c = CallConnectToHomeHub dst)
    (fst (connectLoop (Location := Location) connect candidates tries err)).
Proof.
  revert tries err. induction candidates as [| h rest IH]; intros tries err; simpl.
  - destruct err; constructor.
  - destruct (connect h) as [env arm].
    destruct (fst (connectToHomeHub env arm)) as [e |].
    + destruct (errors_Is e (ErrorTerminal Terminal.ErrStopping)).
      * repeat constructor. eauto.
      * specialize (IH (S tries) (Some e)).
        destruct (connectLoop connect rest (S tries) (Some e)) as [calls res].
        simpl in *. constructor; eauto.
    + repeat constructor. eauto.
Qed.

Lemma countCalls_app kind calls calls' :
  countCalls kind (calls ++ calls') = (countCalls kind calls + countCalls kind calls')%nat.
Proof. unfold countCalls. rewrite List.filter_app, length_app. reflexivity. Qed.

Lemma countCalls_connect kind calls :
  (forall dst, kind (CallConnectToHomeHub dst) = false) ->
  Forall (fun c : Call Location => exists dst, c = CallConnectToHomeHub dst) calls ->
  countCalls kind calls = 0%nat.
Proof.
  intros Hkind Hall. unfold countCalls.
  induction Hall as [| c calls [dst ->] _ IH]; simpl; [reflexivity |].
  rewrite Hkind. exact IH.
Qed.

(** Every search that fails for an empty map is followed by a bootstrap,
    and every bootstrap that succeeds by another search. *)
Lemma findCandidates_retries (v4 v6 : option Location) opts (empties : list error) r rest boots :
  forallb (fun err => errors_Is err ErrEmptyMap) empties = true ->
  isEmptyMapFailure r = false ->
  let run := findCandidates v4 v6 opts (map inr empties ++ r :: rest)
               (repeat None (length empties) ++ boots) in
  countCalls isBootstrap (fst run) = length empties
  /\ countCalls isFind (fst run) = S (length empties)
  /\ snd run =
       Some (match r with
             | inl candidates => inl candidates
             | inr err => inr (ErrorWrap "failed to find nearby hubs" err)
             end).
Proof.
  intros Hempties Hr. induction empties as [| e empties IH]; simpl.
  - destruct r as [candidates | err]; simpl in *.
    + repeat split.
    + rewrite Hr. repeat split.
  - simpl in Hempties. apply andb_prop in Hempties as [He Hempties].
    rewrite He. specialize (IH Hempties). simpl in IH.
    destruct (findCandidates v4 v6 opts (map inr empties ++ r :: rest)
                (repeat None (length empties) ++ boots)) as [calls res].
    simpl in *. destruct IH as (Hb & Hf & Hres).
    unfold countCalls in *. simpl. repeat split; congruence.
Qed.

(** The searches of [findCandidates] all carry the options it was given. *)
Lemma findCandidates_calls (v4 v6 : option Location) opts finds boots :
  Forall (fun c : Call Location =>
            c = CallFindNearestHubs v4 v6 opts HomeHub 10
            \/ c = CallBootstrapWithUpdates)
    (fst (findCandidates v4 v6 opts finds boots)).
Proof.
  revert boots. induction finds as [| r finds IH]; intros boots; simpl.
  - constructor.
  - destruct r as [candidates | err]; simpl.
    + repeat constructor.
    + destruct (errors_Is err ErrEmptyMap).
      * destruct boots as [| [berr |] boots]; simpl.
        -- repeat constructor.
        -- constructor; [left; reflexivity |]. constructor; [right; reflexivity |].
           constructor.
        -- specialize (IH boots).
           destruct (findCandidates v4 v6 opts finds boots) as [calls res].
           simpl in *. constructor; [left; reflexivity |].
           constructor; [right; reflexivity | exact IH].
      * repeat constructor.
Qed.

(** [establishHomeHub] past the home hub policy. *)
Lemma establishHomeHub_unfold w locations homePolicy :
  internetLocation w = Some locations ->
  homeHubPolicy w = inl homePolicy ->
  let run := findCandidates (LocationOrNil (BestV4 locations))
               (LocationOrNil (BestV6 locations))
               (homeHubOptions homePolicy (ownEntity entityOfIP locations))
               (findResults w) (bootstrapResults w) in
  exists calls',
    fst (establishHomeHub entityOfIP w) = fst run ++ calls'
    /\ Forall (fun c : Call Location => exists dst, c = CallConnectToHomeHub dst) calls'
    /\ (is_Some (snd run) -> is_Some (snd (establishHomeHub entityOfIP w))).
Proof.
  intros Hloc Hpol. unfold establishHomeHub. rewrite Hloc, Hpol. simpl.
  match goal with |- context [findCandidates ?a ?b ?o ?f ?bs] =>
    destruct (findCandidates a b o f bs) as [calls found] end.
  destruct found as [[candidates | err] |]; simpl.
  - destruct ((length candidates =? 0)%nat && (0 <? length homePolicy)%nat).
    + exists []. rewrite app_nil_r. repeat split; [constructor | eauto].
    + pose proof (connectLoop_calls (connectEnv w) candidates 0 None) as Hc.
      destruct (connectLoop (connectEnv w) candidates 0 None) as [calls' res].
      exists calls'. simpl in *. repeat split; eauto.
  - exists []. rewrite app_nil_r. repeat split; [constructor | eauto].
  - exists []. rewrite app_nil_r. repeat split; [constructor |].
    intros [x Hx]. discriminate Hx.
Qed.

(** Without an IP for either address family there is no own entity. *)
Lemma ownEntity_without_IP (locations : DeviceLocations IP Location) :
  ownIP (BestV4 locations) = None ->
  ownIP (BestV6 locations) = None ->
  ownEntity entityOfIP locations = None.
Proof.
  unfold ownIP, ownEntity. intros H4 H6.
  destruct (BestV4 locations) as [[ip4 l4] |]; simpl in H4; subst;
    destruct (BestV6 locations) as [[ip6 l6] |]; simpl in H6; subst; reflexivity.
Qed.

(** With neither entity the closure asks no probe at all. *)
Lemma pinMatch_no_probe (c : Compiled) (pin : Pin) :
  c_checkHubEntryPolicyWith c = None ->
  c_checkHubExitPolicyWith c = None ->
  forallb (fun ev => negb (isProbe ev)) (snd (pinMatch c pin)) = true.
Proof.
  intros Hentry Hexit. unfold pinMatch. rewrite Hentry, Hexit.
  destruct (negb (Has (State pin) (c_regard c)) || HasAnyOf (State pin) (c_disregard c));
    [reflexivity |].
  destruct (negb (ownerCheck (c_owners c) pin)); [reflexivity |].
  pose proof (policyCheck_no_probe (c_hubPolicies c) pin) as Hev.
  destruct (policyCheck (c_hubPolicies c) pin) as [ok evs]. simpl in *.
  destruct ok; simpl; rewrite ?app_nil_r; exact Hev.
Qed.

(** C4, as the code has it: a search that fails with [ErrEmptyMap] is
    followed by [bootstrapWithUpdates] and, when that succeeds, by another
    search, every time: an invocation whose first searches all fail with
    [ErrEmptyMap] bootstraps once for each of them and searches once more,
    and then returns. *)
Theorem establishHomeHub_bootstraps_per_empty_map
    w locations homePolicy (empties : list error) r rest boots :
  internetLocation w = Some locations ->
  homeHubPolicy w = inl homePolicy ->
  findResults w = map inr empties ++ r :: rest ->
  forallb (fun err => errors_Is err ErrEmptyMap) empties = true ->
  isEmptyMapFailure r = false ->
  bootstrapResults w = repeat None (length empties) ++ boots ->
  countCalls isBootstrap (fst (establishHomeHub entityOfIP w)) = length empties
  /\ countCalls isFind (fst (establishHomeHub entityOfIP w)) = S (length empties)
  /\ is_Some (snd (establishHomeHub entityOfIP w)).
Proof.
  intros Hloc Hpol Hfinds Hempties Hr Hboots.
  destruct (establishHomeHub_unfold Hloc Hpol) as (calls' & Hcalls & Hconn & Hret).
  rewrite Hfinds, Hboots in Hcalls, Hret.
  pose proof (findCandidates_retries (LocationOrNil (BestV4 locations))
                (LocationOrNil (BestV6 locations))
                (homeHubOptions homePolicy (ownEntity entityOfIP locations))
                rest boots Hempties Hr) as (Hb & Hf & Hres).
  rewrite Hcalls, !countCalls_app, Hb, Hf.
  rewrite !(countCalls_connect (kind := _) (fun _ => eq_refl) Hconn).
  repeat split; try lia.
  apply Hret. rewrite Hres. eauto.
Qed.

(** C10: a matcher compiled without an entity for the entry check asks no
    entry probe, and its verdict is that of the other checks; and when the
    device location has neither a v4 nor a v6 IP, every search for home hub
    candidates is made with options that lack this entity, so that no
    matcher compiled from them asks any probe or depends on the entry
    policy of a hub. *)
Theorem no_entry_probe_without_entity :
  (forall o hubType hubIntel pin,
     CheckHubEntryPolicyWith o = None ->
     let c := compile o hubType hubIntel in
     forallb (fun ev => negb (isEntryProbe ev)) (MatcherEvents o hubType hubIntel pin) = true
     /\ Matcher o hubType hubIntel pin =
          stateCheck c pin
          && ownerCheck (c_owners c) pin
          && fst (policyCheck (c_hubPolicies c) pin)
          && negb (fst (probe ExitProbe (EntryPolicy (Info (PinHub pin)))
                          (c_checkHubExitPolicyWith c))))
  /\ (forall w locations,
        internetLocation w = Some locations ->
        ownIP (BestV4 locations) = None ->
        ownIP (BestV6 locations) = None ->
        forall v4 v6 opts hubType n,
          In (CallFindNearestHubs v4 v6 opts hubType n)
             (fst (establishHomeHub entityOfIP w)) ->
          CheckHubEntryPolicyWith opts = None
          /\ forall hubType' hubIntel pin lst,
               Matcher opts hubType' hubIntel (withEntryPolicy pin lst) =
                 Matcher opts hubType' hubIntel pin
               /\ forallb (fun ev => negb (isProbe ev))
                    (MatcherEvents opts hubType' hubIntel pin) = true).
Proof.
  split.
  - intros o hubType hubIntel pin Hnone c. split.
    + apply pinMatch_no_entry_probe. exact Hnone.
    + apply pinMatch_no_entry_verdict. exact Hnone.
  - intros w locations Hloc H4 H6 v4 v6 opts hubType n Hin.
    assert (Hopts : exists homePolicy, opts = homeHubOptions homePolicy None).
    { destruct (homeHubPolicy w) as [homePolicy | err] eqn:Hpol.
      - destruct (establishHomeHub_unfold Hloc Hpol) as (calls' & Hcalls & Hconn & _).
        rewrite Hcalls in Hin. apply in_app_or in Hin as [Hin | Hin].
        + pose proof (findCandidates_calls (LocationOrNil (BestV4 locations))
                        (LocationOrNil (BestV6 locations))
                        (homeHubOptions homePolicy (ownEntity entityOfIP locations))
                        (findResults w) (bootstrapResults w)) as Hall.
          rewrite Forall_forall in Hall. apply list_elem_of_In in Hin.
          destruct (Hall _ Hin) as [Heq | Heq]; [| discriminate Heq].
          injection Heq as _ _ -> _ _.
          rewrite (ownEntity_without_IP H4 H6). eauto.
        + rewrite Forall_forall in Hconn. apply list_elem_of_In in Hin.
          destruct (Hconn _ Hin) as [dst Heq]. discriminate Heq.
      - unfold establishHomeHub in Hin. rewrite Hloc, Hpol in Hin. destruct Hin. }
    destruct Hopts as [homePolicy ->]. split; [reflexivity |].
    intros hubType' hubIntel pin lst. split.
    + unfold Matcher. rewrite pinMatch_entry_policy_unread; reflexivity.
    + apply pinMatch_no_probe; reflexivity.
Qed.

End HomeHubFacts.

(** ** establishHomeHub on a map that stays empty after one bootstrap *)

Section HomeHubSamples.
Import Navigator Captain Samples.

#[local] Existing Instance sampleAPI.
#[local] Existing Instance sampleStates.

(** C4, as stated, fails: on a map that is still empty after the first
    bootstrap, one invocation bootstraps twice. *)
Lemma establishHomeHub_bootstraps_twice :
  ~ (countCalls isBootstrap (fst (establishHomeHub (fun ip : nat => ip) twiceEmptyWorld))
     <= 1)%nat.
Proof. vm_compute. lia. Qed.

(** The calls of that invocation, which returns nil in the end. *)
Example establishHomeHub_twice_empty_calls :
  let opts := homeHubOptions [] None in
  establishHomeHub (fun ip : nat => ip) twiceEmptyWorld =
    ([CallFindNearestHubs None (Some 1%nat) opts HomeHub 10;
      CallBootstrapWithUpdates;
      CallFindNearestHubs None (Some 1%nat) opts HomeHub 10;
      CallBootstrapWithUpdates;
      CallFindNearestHubs None (Some 1%nat) opts HomeHub 10;
      CallConnectToHomeHub sampleHub],
     Some None).
Proof. vm_compute. reflexivity. Qed.

Lemma establishHomeHub_bootstraps_per_empty_map_witness :
  countCalls isBootstrap (fst (establishHomeHub (fun ip : nat => ip) twiceEmptyWorld))
    = 2%nat.
Proof.
  exact (proj1 (@establishHomeHub_bootstraps_per_empty_map sampleAPI nat nat
                  (fun ip => ip) twiceEmptyWorld _ [] [ErrEmptyMap; ErrEmptyMap]
                  (inl [sampleHub]) [] []
                  eq_refl eq_refl eq_refl eq_refl eq_refl eq_refl)).
Defined.

Lemma no_entry_probe_without_entity_witness :
  forallb (fun ev => negb (isEntryProbe ev))
    (MatcherEvents (homeHubOptions [] None) HomeHub None
       (samplePin [(4%nat, Denied)] [])) = true
  /\ CheckHubEntryPolicyWith (homeHubOptions (api := sampleAPI) [] None) = None.
Proof.
  pose proof (@no_entry_probe_without_entity sampleAPI sampleStates nat nat
                (fun ip => ip)) as [Hmatcher Hhome].
  split.
  - exact (proj1 (Hmatcher (homeHubOptions [] None) HomeHub None
                    (samplePin [(4%nat, Denied)] []) eq_refl)).
  - exact (proj1 (Hhome twiceEmptyWorld _ eq_refl eq_refl eq_refl
                    None (Some 1%nat) (homeHubOptions [] None) HomeHub 10%nat
                    (or_introl eq_refl))).
Defined.

End HomeHubSamples.

(** ** optimizeNetwork: the loop over the suggested connections *)

Section OptimizeFacts.
Import Navigator Captain.
Context {api : EndpointsAPI}.
Variable EstablishPublicLane : DocksState -> Hub -> DocksState * (nat * option Terminal.Error).

Local Open Scope Z_scope.

#[local] Abbreviation step := (suggestionStep EstablishPublicLane).
#[local] Abbreviation loop := (suggestionLoop EstablishPublicLane).

Lemma lanesLogged_app lg lg' : lanesLogged (lg ++ lg') = lanesLogged lg + lanesLogged lg'.
Proof. unfold lanesLogged. rewrite List.filter_app, length_app. lia. Qed.

Lemma suggestionStep_duplicate maxConnect st connectTo :
  Duplicate connectTo = true -> step maxConnect st connectTo = st.
Proof. intros H. unfold suggestionStep. rewrite H. reflexivity. Qed.

Lemma suggestionLoop_skips_duplicates maxConnect st suggestions :
  loop maxConnect st suggestions =
    loop maxConnect st (List.filter (fun s => negb (Duplicate s)) suggestions).
Proof.
  unfold suggestionLoop. revert st.
  induction suggestions as [| s l IH]; intros st; simpl; [reflexivity |].
  destruct (Duplicate s) eqn:Hdup; simpl.
  - rewrite (suggestionStep_duplicate _ _ Hdup). apply IH.
  - apply IH.
Qed.

(** A suggestion whose hub has a crane: the crane is marked as suggested
    now and is not stopping any more; no lane is attempted. *)
Lemma suggestionStep_assigned maxConnect st connectTo crane c :
  Duplicate connectTo = false ->
  GetAssignedCrane (docks st) (ID (SuggestedHub connectTo)) = Some crane ->
  cranes (docks st) !! crane = Some c ->
  let st' := step maxConnect st connectTo in
  cranes (docks st') !! crane =
    Some {| lastSuggestedAt := clock (docks st);
            stopping := false;
            stopped := stopped c;
            isMine := isMine c;
            updatesNotified :=
              if stopping c then S (updatesNotified c) else updatesNotified c |}
  /\ createdConnections st' = createdConnections st
  /\ attemptedConnections st' = attemptedConnections st
  /\ assigned (docks st') = assigned (docks st)
  /\ lanesLogged (logged st') = lanesLogged (logged st).
Proof.
  intros Hdup Hassigned Hcrane. unfold suggestionStep.
  rewrite Hdup, Hassigned.
  unfold AbortStopping, UpdateLastSuggestedAt. simpl.
  rewrite lookup_alter_eq, Hcrane. simpl.
  destruct (stopping c); simpl.
  - rewrite lookup_alter_eq, lookup_insert_eq. simpl.
    rewrite lanesLogged_app. unfold lanesLogged at 2. simpl.
    repeat split. lia.
  - rewrite lookup_insert_eq. repeat split.
Qed.

Lemma suggestionStep_countsLanes maxConnect st connectTo :
  countsLanes maxConnect st -> countsLanes maxConnect (step maxConnect st connectTo).
Proof.
  unfold countsLanes, suggestionStep. intros [Hcount Hmax].
  destruct (Duplicate connectTo); [auto |].
  destruct (GetAssignedCrane (docks st) (ID (SuggestedHub connectTo))) as [crane |].
  - destruct (AbortStopping crane (UpdateLastSuggestedAt crane (docks st))) as [aborted d].
    destruct aborted; simpl; [| auto].
    rewrite lanesLogged_app. unfold lanesLogged at 2. simpl. split; lia.
  - destruct (createdConnections st <? maxConnect) eqn:Hlt; [| auto].
    apply Z.ltb_lt in Hlt.
    destruct (EstablishPublicLane (docks st) (SuggestedHub connectTo)) as [d [crane tErr]].
    destruct (Terminal.IsOK tErr); simpl;
      rewrite lanesLogged_app; unfold lanesLogged at 2; simpl; split; lia.
Qed.

Lemma suggestionLoop_countsLanes maxConnect st suggestions :
  countsLanes maxConnect st -> countsLanes maxConnect (loop maxConnect st suggestions).
Proof.
  unfold suggestionLoop. revert st.
  induction suggestions as [| s l IH]; intros st Hst; simpl; [exact Hst |].
  apply IH, suggestionStep_countsLanes, Hst.
Qed.

(** The retirement loop logs no lane. *)
Lemma retire_lanesLogged cranesList d lg :
  lanesLogged (snd (fold_left retireStep cranesList (d, lg))) = lanesLogged lg.
Proof.
  revert d lg. induction cranesList as [| crane l IH]; intros d lg;
    cbn [fold_left]; [reflexivity |].
  assert (Hstep : exists d' lg', retireStep (d, lg) crane = (d', lg')
                                 /\ lanesLogged lg' = lanesLogged lg).
  { unfold retireStep. destruct (cranes d !! crane) as [c |]; [| eauto].
    destruct (negb (isMine c)); [eauto |].
    destruct (stopped c || stopping c); [eauto |].
    destruct (_ <? _); [eauto |].
    destruct (MarkStopping crane d) as [marked d'].
    destruct marked; [| eauto].
    eexists _, _. split; [reflexivity |].
    rewrite lanesLogged_app. unfold lanesLogged at 2. simpl. lia. }
  destruct Hstep as (d' & lg' & -> & <-). apply IH.
Qed.

(** C6: one pass of [optimizeNetwork] over the suggested connections.  A
    suggestion marked as duplicate changes nothing, so the pass is the pass
    over the suggestions that are not duplicates.  For such a suggestion
    whose hub has a crane assigned, the crane's LastSuggestedAt is set to
    the current time and its stopping mark is cleared (with a notification
    when it was set); no connection is counted.  And a pass that gets a
    result from [Optimize] returns nil having established no more lanes than
    [MaxConnect] allows. *)
Theorem optimizeNetwork_suggestions :
  (forall maxConnect st connectTo,
     Duplicate connectTo = true -> step maxConnect st connectTo = st)
  /\ (forall maxConnect st suggestions,
        loop maxConnect st suggestions =
          loop maxConnect st (List.filter (fun s => negb (Duplicate s)) suggestions))
  /\ (forall maxConnect st connectTo crane c,
        Duplicate connectTo = false ->
        GetAssignedCrane (docks st) (ID (SuggestedHub connectTo)) = Some crane ->
        cranes (docks st) !! crane = Some c ->
        let st' := step maxConnect st connectTo in
        cranes (docks st') !! crane =
          Some {| lastSuggestedAt := clock (docks st);
                  stopping := false;
                  stopped := stopped c;
                  isMine := isMine c;
                  updatesNotified :=
                    if stopping c then S (updatesNotified c) else updatesNotified c |}
        /\ createdConnections st' = createdConnections st
        /\ attemptedConnections st' = attemptedConnections st
        /\ assigned (docks st') = assigned (docks st)
        /\ lanesLogged (logged st') = lanesLogged (logged st))
  /\ (forall results boots d result,
        optimize results boots = Some (inl result) ->
        exists d' lg,
          optimizeNetwork EstablishPublicLane true results boots d = Some (None, d', lg)
          /\ lanesLogged lg <= Z.max 0 (MaxConnect result)
          /\ (0 <= MaxConnect result -> lanesLogged lg <= MaxConnect result)).
Proof.
  split; [exact suggestionStep_duplicate |].
  split; [exact suggestionLoop_skips_duplicates |].
  split; [exact suggestionStep_assigned |].
  intros results boots d result Hopt.
  unfold optimizeNetwork. rewrite Hopt. simpl.
  set (init := {| docks := d; createdConnections := 0;
                  attemptedConnections := 0; logged := [] |}).
  assert (Hinit : countsLanes (MaxConnect result) init).
  { split; [reflexivity | simpl; lia]. }
  pose proof (suggestionLoop_countsLanes (SuggestedConnections result) Hinit)
    as [Hcount Hmax].
  set (st := loop (MaxConnect result) init (SuggestedConnections result)) in *.
  set (lg0 := if 0 <? attemptedConnections st then _ else _).
  assert (Hlg0 : lanesLogged lg0 = lanesLogged (logged st)).
  { subst lg0. destruct (0 <? attemptedConnections st);
      rewrite lanesLogged_app; unfold lanesLogged at 2; simpl; lia. }
  destruct (StopOthers result).
  - pose proof (retire_lanesLogged (GetAllAssignedCranes (docks st)) (docks st) lg0) as Hr.
    destruct (fold_left retireStep (GetAllAssignedCranes (docks st)) (docks st, lg0))
      as [d' lg].
    simpl in Hr. exists d', lg. split; [reflexivity |]. lia.
  - exists (docks st), lg0. split; [reflexivity |]. lia.
Qed.

End OptimizeFacts.

(** ** optimizeNetwork on sample suggestions *)

Section OptimizeSamples.
Import Navigator Captain Samples.

#[local] Existing Instance sampleAPI.

Local Open Scope Z_scope.

(** With the first hub suggested twice (once as duplicate) and one
    connection allowed, one lane is established, to the first hub. *)
Example optimizeNetwork_one_lane :
  exists d,
    optimizeNetwork sampleEstablishPublicLane true [inl sampleResult] [] emptyDocks =
      Some (None, d, [LogLaneEstablished "H1"; LogCreated 1 1 "sample"])
    /\ assigned d !! "H1" = Some 0%nat
    /\ assigned d !! "H2" = None.
Proof. eexists. split; [vm_compute; reflexivity |]. split; reflexivity. Qed.

Lemma optimizeNetwork_suggestions_witness :
  (exists d' lg,
     optimizeNetwork sampleEstablishPublicLane true [inl sampleResult] [] emptyDocks =
       Some (None, d', lg)
     /\ lanesLogged lg <= Z.max 0 1
     /\ (0 <= 1 -> lanesLogged lg <= 1))
  /\ cranes (docks (suggestionStep sampleEstablishPublicLane 1
                      {| docks := stoppingDocks; createdConnections := 0;
                         attemptedConnections := 0; logged := [] |}
                      {| SuggestedHub := hub1; Duplicate := false |})) !! 0%nat =
       Some {| lastSuggestedAt := 1000; stopping := false; stopped := false;
               isMine := true; updatesNotified := 1 |}.
Proof.
  pose proof (optimizeNetwork_suggestions sampleEstablishPublicLane)
    as (_ & _ & Hassigned & Hbound).
  split.
  - exact (Hbound [inl sampleResult] [] emptyDocks sampleResult eq_refl).
  - exact (proj1 (Hassigned 1
                    {| docks := stoppingDocks; createdConnections := 0;
                       attemptedConnections := 0; logged := [] |}
                    {| SuggestedHub := hub1; Duplicate := false |}
                    0%nat stoppingCrane eq_refl eq_refl eq_refl)).
Defined.

End OptimizeSamples.

(** ** Msg.Consume *)

Section ConsumeFacts.
Import Terminal.
Variable msgHeader : N -> MsgType -> list byte -> list byte.

Lemma IsHighPriorityUnit_lookup msg s u :
  units s !! Unit msg = Some u -> IsHighPriorityUnit msg s = highPriority u.
Proof. intros H. unfold IsHighPriorityUnit. rewrite H. reflexivity. Qed.

Lemma finishCount_lookup msg s u :
  units s !! Unit msg = Some u -> finishCount msg s = finishCalls u.
Proof. intros H. unfold finishCount. rewrite H. reflexivity. Qed.

(** What [Consume] does to the store, step by step. *)
Lemma Consume_steps msg other s a b dm dother :
  Data msg = Some a -> Data other = Some b ->
  containers s !! a = Some dm -> containers s !! b = Some dother ->
  let packed := msgHeader (FlowID other) (Type_ other) dother ++ dother in
  let mine := if decide (a = b) then packed else dm in
  let mark := fun u => {| highPriority := true; finishCalls := finishCalls u |} in
  let finish := fun u => {| highPriority := highPriority u;
                            finishCalls := S (finishCalls u) |} in
  Consume msgHeader msg other s =
    Some {| containers := <[a := mine ++ packed]> (<[b := packed]> (containers s));
            units := alter finish (Unit other)
                       (if IsHighPriorityUnit other s
                        then alter mark (Unit msg) (units s) else units s);
            nextAddr := nextAddr s |}.
Proof.
  intros Hm Ho Ha Hb. unfold Consume, Pack, AppendContainer.
  rewrite Ho. simpl. rewrite Hb. simpl. rewrite Hm. simpl.
  rewrite lookup_insert_eq.
  destruct (decide (a = b)) as [-> | Hne].
  - rewrite lookup_insert_eq. simpl. unfold IsHighPriorityUnit. simpl.
    destruct (units s !! Unit other) as [u |]; [destruct (highPriority u) |]; reflexivity.
  - rewrite lookup_insert_ne by congruence. rewrite Ha. simpl.
    unfold IsHighPriorityUnit. simpl.
    destruct (units s !! Unit other) as [u |]; [destruct (highPriority u) |]; reflexivity.
Qed.

(** C7: [msg.Consume(other)], for messages that have data containers and
    units.  [other] is packed: its header is put in front of its data.  The
    packed data is appended to the data of [msg] (which is the packed data
    itself when both share one container).  Afterwards [msg] is high
    priority exactly when it was before or [other] was.  The unit of
    [other] is finished exactly once, and that of [msg], when it is another
    unit, is not finished.  Nothing else in the store changes. *)
Theorem Consume_packs_appends_inherits_finishes msg other s a b dm dother um uo :
  Data msg = Some a -> Data other = Some b ->
  containers s !! a = Some dm -> containers s !! b = Some dother ->
  units s !! Unit msg = Some um -> units s !! Unit other = Some uo ->
  let packed := msgHeader (FlowID other) (Type_ other) dother ++ dother in
  exists s1 s',
    Pack msgHeader other s = Some s1
    /\ containers s1 !! b = Some packed
    /\ Consume msgHeader msg other s = Some s'
    /\ containers s' !! a = Some ((if decide (a = b) then packed else dm) ++ packed)
    /\ (a <> b -> containers s' !! b = Some packed)
    /\ IsHighPriorityUnit msg s' =
         IsHighPriorityUnit msg s || IsHighPriorityUnit other s
    /\ finishCount other s' = S (finishCount other s)
    /\ (Unit msg <> Unit other ->
        finishCount msg s' = finishCount msg s
        /\ IsHighPriorityUnit other s' = IsHighPriorityUnit other s)
    /\ (forall c, c <> a -> c <> b -> containers s' !! c = containers s !! c)
    /\ (forall u, u <> Unit msg -> u <> Unit other -> units s' !! u = units s !! u).
Proof.
  intros Hm Ho Ha Hb Hum Huo packed.
  rewrite (Consume_steps Hm Ho Ha Hb).
  unfold Pack. rewrite Ho. simpl. rewrite Hb. simpl.
  eexists _, _. split; [reflexivity |].
  split; [simpl; apply lookup_insert_eq |].
  split; [reflexivity |].
  rewrite (IsHighPriorityUnit_lookup Hum), (IsHighPriorityUnit_lookup Huo).
  rewrite (finishCount_lookup Huo), (finishCount_lookup Hum).
  unfold IsHighPriorityUnit, finishCount. simpl.
  split; [apply lookup_insert_eq |].
  split; [intros Hne; rewrite lookup_insert_ne by congruence; apply lookup_insert_eq |].
  assert (Hsame : Unit msg = Unit other -> um = uo) by (intros Heq; congruence).
  split; [| split; [| split; [| split]]].
  - destruct (highPriority uo) eqn:Hhp; rewrite !lookup_alter;
      repeat case_decide; rewrite ?Hum, ?Huo; simpl;
      rewrite ?orb_true_r, ?orb_false_r; try reflexivity; try congruence.
  - destruct (highPriority uo) eqn:Hhp; rewrite !lookup_alter;
      repeat case_decide; rewrite ?Hum, ?Huo; simpl; try reflexivity; try congruence.
  - intros Hne.
    destruct (highPriority uo) eqn:Hhp; rewrite !lookup_alter;
      repeat case_decide; rewrite ?Hum, ?Huo; simpl; try congruence;
      split; try reflexivity; try congruence.
  - intros c Hca Hcb. rewrite !lookup_insert_ne by congruence. reflexivity.
  - intros u Hum' Huo'.
    destruct (highPriority uo); rewrite !lookup_alter_ne by congruence; reflexivity.
Qed.

End ConsumeFacts.

(** ** Msg.Consume on two sample messages *)

Section ConsumeSamples.
Import Terminal Samples.

Lemma Consume_packs_appends_inherits_finishes_witness :
  exists s',
    Consume sampleHeader firstMsg secondMsg twoMsgStore = Some s'
    /\ containers s' !! 0%nat = Some [Byte.x01; Byte.xff; Byte.x02]
    /\ IsHighPriorityUnit firstMsg s' = true
    /\ finishCount secondMsg s' = 1%nat.
Proof.
  destruct (@Consume_packs_appends_inherits_finishes sampleHeader
              firstMsg secondMsg twoMsgStore 0%nat 1%nat [Byte.x01] [Byte.x02]
              {| highPriority := false; finishCalls := 0 |}
              {| highPriority := true; finishCalls := 0 |}
              eq_refl eq_refl eq_refl eq_refl eq_refl eq_refl)
    as (s1 & s' & _ & _ & Hconsume & Hdata & _ & Hpriority & Hfinished & _).
  exists s'. split; [exact Hconsume |]. split; [exact Hdata |].
  split; [exact Hpriority | exact Hfinished].
Defined.

End ConsumeSamples.

(** ** establishTerminal *)

Section EstablishFacts.
Import Terminal Docks GoTime.
Variable NewRemoteCraneTerminal : Crane -> N -> option nat -> CraneTerminal + Error.
Variable packError : Error -> list byte.

Local Open Scope Z_scope.

Lemma idle_timeouts_ns :
  defaultTerminalIdleTimeout = 900000000000
  /\ remoteTerminalIdleTimeout = 1800000000000.
Proof. split; reflexivity. Qed.

(** C8: the remote terminal that [establishTerminal] registers with the
    crane has an idle timeout of 30 minutes when the crane is public;
    otherwise its timeout is left as its constructor set it, which is the
    default of 15 minutes.  The two constants are 30 and 15 minutes. *)
Theorem establishTerminal_idle_timeout crane id initData sendReady s newTerminal :
  NewRemoteCraneTerminal crane id initData = inl newTerminal ->
  let crane' :=
    fst (establishTerminal NewRemoteCraneTerminal packError crane id initData sendReady s) in
  remoteTerminalIdleTimeout = 30 * Minute
  /\ defaultTerminalIdleTimeout = 15 * Minute
  /\ exists t,
       terminals crane' !! termID newTerminal = Some t
       /\ termID t = termID newTerminal
       /\ idleTimeout t =
            (if Public crane then remoteTerminalIdleTimeout else idleTimeout newTerminal)
       /\ (idleTimeout newTerminal = defaultTerminalIdleTimeout ->
           idleTimeout t = if Public crane then 30 * Minute else 15 * Minute).
Proof.
  intros Hnew. unfold establishTerminal. rewrite Hnew. simpl.
  split; [reflexivity |]. split; [reflexivity |].
  destruct (Public crane); simpl.
  - eexists. split; [apply lookup_insert_eq |]. simpl. repeat split.
  - eexists. split; [apply lookup_insert_eq |]. repeat split. intros ->. reflexivity.
Qed.

Lemma establishTerminal_failure_keeps_terminals crane id initData sendReady s err :
  NewRemoteCraneTerminal crane id initData = inr err ->
  terminals (fst (establishTerminal NewRemoteCraneTerminal packError
                    crane id initData sendReady s)) = terminals crane.
Proof.
  intros Hnew. unfold establishTerminal. rewrite Hnew. simpl.
  destruct sendReady; reflexivity.
Qed.

End EstablishFacts.

Section EstablishSamples.
Import Terminal Docks GoTime Samples.

Local Open Scope Z_scope.

Lemma establishTerminal_idle_timeout_witness :
  exists t,
    terminals (fst (establishTerminal sampleNewRemoteCraneTerminal (fun _ => [])
                      publicCrane 5%N None true emptyStore)) !! 5%N = Some t
    /\ idleTimeout t = 30 * Minute.
Proof.
  destruct (@establishTerminal_idle_timeout sampleNewRemoteCraneTerminal (fun _ => [])
              publicCrane 5%N None true emptyStore _ eq_refl)
    as (_ & _ & t & Hlookup & _ & _ & Htimeout).
  exists t. split; [exact Hlookup | exact (Htimeout eq_refl)].
Defined.

End EstablishSamples.

(** ** More about the matcher *)

Section MatcherChecks.
Import Navigator.
Context {api : EndpointsAPI} {sc : StateConsts}.

Implicit Types (c : Compiled) (pin : Pin) (o : Options).

Lemma Has_bit s states i :
  Has s states = true -> N.testbit states i = true -> N.testbit s i = true.
Proof.
  unfold Has. rewrite N.eqb_eq. intros H Hi.
  apply (f_equal (fun n => N.testbit n i)) in H.
  rewrite N.land_spec, Hi, andb_true_r in H. exact H.
Qed.

Lemma HasAnyOf_bit s states i :
  N.testbit s i = true -> N.testbit states i = true -> HasAnyOf s states = true.
Proof.
  unfold HasAnyOf. intros Hs Hi. apply negb_true_iff, N.eqb_neq. intros H.
  apply (f_equal (fun n => N.testbit n i)) in H.
  rewrite N.land_spec, Hs, Hi, N.bits_0 in H. discriminate H.
Qed.

(** The compiled Disregard holds every bit of the caller's. *)
Lemma compileDisregard_keeps o hubType i :
  N.testbit (Disregard o) i = true ->
  N.testbit (compileDisregard o hubType) i = true.
Proof.
  intros Hi. unfold compileDisregard, Add.
  destruct (NoDefaults o); simpl; [exact Hi |].
  destruct hubType; rewrite ?N.lor_spec, Hi; reflexivity.
Qed.

(** The compiled Regard holds a bit of the caller's, unless defaults apply
    to a home hub and the bit is one of Reachable or Active. *)
Lemma compileRegard_keeps o hubType i :
  N.testbit (Regard o) i = true ->
  NoDefaults o = true \/ hubType <> HomeHub
  \/ (N.testbit StateReachable i = false /\ N.testbit StateActive i = false) ->
  N.testbit (compileRegard o hubType) i = true.
Proof.
  intros Hi Hcase. unfold compileRegard, Add, Remove.
  destruct (NoDefaults o) eqn:Hnd, hubType, (RequireTrustedDestinationHubs o);
    simpl; rewrite ?N.lor_spec, ?N.ldiff_spec, ?N.lor_spec, ?Hi; simpl;
    try reflexivity;
    (destruct Hcase as [H | [H | [Hr Ha]]];
       [discriminate H | congruence | rewrite Hr, Ha; reflexivity]).
Qed.

(** X1: a pin that has a state the caller asked to disregard is rejected,
    whatever the hub type, the defaults and the hub intel. *)
Theorem matcher_enforces_disregard o hubType hubIntel pin i :
  N.testbit (Disregard o) i = true ->
  N.testbit (State pin) i = true ->
  Matcher o hubType hubIntel pin = false
  /\ MatcherEvents o hubType hubIntel pin = [].
Proof.
  intros Hd Hs.
  assert (Hany : HasAnyOf (State pin) (compileDisregard o hubType) = true).
  { apply (HasAnyOf_bit Hs). apply compileDisregard_keeps. exact Hd. }
  unfold Matcher, MatcherEvents, pinMatch. simpl. rewrite Hany, orb_true_r.
  split; reflexivity.
Qed.

(** X2: a pin that lacks a state the caller asked to regard is rejected,
    except that for a home hub with defaults the states Reachable and
    Active are not asked for even when the caller names them. *)
Theorem matcher_enforces_regard o hubType hubIntel pin i :
  N.testbit (Regard o) i = true ->
  N.testbit (State pin) i = false ->
  NoDefaults o = true \/ hubType <> HomeHub
  \/ (N.testbit StateReachable i = false /\ N.testbit StateActive i = false) ->
  Matcher o hubType hubIntel pin = false
  /\ MatcherEvents o hubType hubIntel pin = [].
Proof.
  intros Hr Hs Hcase.
  assert (Hhas : Has (State pin) (compileRegard o hubType) = false).
  { destruct (Has (State pin) (compileRegard o hubType)) eqn:E; [| reflexivity].
    pose proof (Has_bit E (@compileRegard_keeps o hubType i Hr Hcase)). congruence. }
  unfold Matcher, MatcherEvents, pinMatch. simpl. rewrite Hhas. split; reflexivity.
Qed.

Lemma inList_In owners owner : inList owners owner = true <-> In owner owners.
Proof.
  unfold inList. rewrite existsb_exists. split.
  - intros (x & Hin & Heq). apply String.eqb_eq in Heq. subst. exact Hin.
  - intros Hin. exists owner. split; [exact Hin | apply String.eqb_refl].
Qed.

(** X3: with verified owners required, only a pin whose verified owner is
    not empty and is one of them can be accepted. *)
Theorem matcher_requires_listed_owner o hubType hubIntel pin :
  RequireVerifiedOwners o <> [] ->
  Matcher o hubType hubIntel pin = true ->
  VerifiedOwner pin <> EmptyString
  /\ In (VerifiedOwner pin) (RequireVerifiedOwners o).
Proof.
  intros Hne Hm. unfold Matcher in Hm. rewrite pinMatch_verdict in Hm.
  apply andb_prop in Hm as [Hm _]. apply andb_prop in Hm as [Hm _].
  apply andb_prop in Hm as [Hm _]. apply andb_prop in Hm as [_ Hown].
  simpl in Hown.
  unfold ownerCheck in Hown.
  destruct (RequireVerifiedOwners o) as [| x l] eqn:E; [congruence |].
  destruct (String.eqb (VerifiedOwner pin) EmptyString) eqn:Hempty;
    [discriminate Hown |].
  apply String.eqb_neq in Hempty. split; [exact Hempty |].
  apply inList_In. exact Hown.
Qed.

(** Once a set policy has permitted or denied, what follows it in the list
    is not looked at. *)
Lemma policyCheck_decided pin pre policy rest rest' :
  IsSet policy = true ->
  policyResult pin policy = Permitted \/ policyResult pin policy = Denied ->
  policyCheck (pre ++ policy :: rest) pin = policyCheck (pre ++ policy :: rest') pin.
Proof.
  intros Hset Hres. unfold policyResult in Hres.
  induction pre as [| p pre IH]; simpl.
  - rewrite Hset. simpl.
    destruct (MatchMulti policy (EntityV4 pin) (EntityV6 pin)) as [r reason].
    simpl in Hres. destruct Hres; subst r; reflexivity.
  - rewrite IH. reflexivity.
Qed.

(** Policies that are not set add nothing at the end of the list. *)
Lemma policyCheck_app_unset pin ps extra :
  forallb (fun p => negb (IsSet p)) extra = true ->
  policyCheck (ps ++ extra) pin = policyCheck ps pin.
Proof.
  intros Hextra. induction ps as [| p ps IH]; simpl.
  - induction extra as [| e extra IHe]; simpl; [reflexivity |].
    simpl in Hextra. apply andb_prop in Hextra as [He Hextra].
    rewrite He. apply IHe. exact Hextra.
  - rewrite IH. reflexivity.
Qed.

Lemma compilePolicies_app o hubType hubIntel :
  compilePolicies o hubType hubIntel = HubPolicies o ++ intelPolicies hubType hubIntel.
Proof.
  unfold compilePolicies, intelPolicies.
  destruct hubIntel as [[[p |]] |]; [destruct hubType | |];
    rewrite ?app_nil_r; reflexivity.
Qed.

(** The closure depends on the policies through the policy loop only. *)
Lemma pinMatch_policies c ps ps' pin :
  policyCheck ps pin = policyCheck ps' pin ->
  pinMatch (withPolicies c ps) pin = pinMatch (withPolicies c ps') pin.
Proof. intros H. unfold pinMatch. simpl. rewrite H. reflexivity. Qed.

Lemma compile_withPolicies o hubType hubIntel :
  compile o hubType hubIntel =
    withPolicies (compile o hubType None) (compilePolicies o hubType hubIntel).
Proof. reflexivity. Qed.

(** X4: when one of the caller's hub policies is set and permits or denies
    the pin, the hub intel plays no part: the matcher gives the same
    verdict and logs the same with any intel. *)
Theorem caller_policy_precedes_intel o hubType hubIntel hubIntel' pin policy :
  In policy (HubPolicies o) ->
  IsSet policy = true ->
  policyResult pin policy = Permitted \/ policyResult pin policy = Denied ->
  Matcher o hubType hubIntel pin = Matcher o hubType hubIntel' pin
  /\ MatcherEvents o hubType hubIntel pin = MatcherEvents o hubType hubIntel' pin.
Proof.
  intros Hin Hset Hres.
  assert (Heq : pinMatch (compile o hubType hubIntel) pin =
                pinMatch (compile o hubType hubIntel') pin).
  { rewrite (compile_withPolicies o hubType hubIntel),
            (compile_withPolicies o hubType hubIntel').
    apply pinMatch_policies. rewrite !compilePolicies_app.
    apply in_split in Hin as (pre & post & ->).
    rewrite <- !app_assoc. simpl.
    apply policyCheck_decided; assumption. }
  unfold Matcher, MatcherEvents. rewrite Heq. split; reflexivity.
Qed.

(** X5: hub intel that is not parsed, or whose advisories for the hub type
    are all unset, is as good as no intel. *)
Theorem unset_intel_is_no_intel o hubType hubIntel pin :
  forallb (fun p => negb (IsSet p)) (intelPolicies hubType hubIntel) = true ->
  Matcher o hubType hubIntel pin = Matcher o hubType None pin
  /\ MatcherEvents o hubType hubIntel pin = MatcherEvents o hubType None pin.
Proof.
  intros Hunset.
  assert (Heq : pinMatch (compile o hubType hubIntel) pin =
                pinMatch (compile o hubType None) pin).
  { rewrite (compile_withPolicies o hubType hubIntel),
            (compile_withPolicies o hubType None).
    apply pinMatch_policies. rewrite !compilePolicies_app. simpl.
    rewrite app_nil_r. apply policyCheck_app_unset. exact Hunset. }
  unfold Matcher, MatcherEvents. rewrite Heq. split; reflexivity.
Qed.

Lemma Has_lor_r s regard states :
  Has s (N.lor regard states) = true -> Has s states = true.
Proof.
  unfold Has. rewrite !N.eqb_eq. intros H. apply N.bits_inj. intros i.
  apply (f_equal (fun n => N.testbit n i)) in H.
  rewrite N.land_spec in *. rewrite N.lor_spec in H.
  destruct (N.testbit s i), (N.testbit regard i), (N.testbit states i);
    simpl in *; congruence.
Qed.

(** X6: the Trusted requirement binds destination hubs, and only them: a
    destination hub is accepted only with the Trusted state, and for home
    and transit hubs the flag changes nothing. *)
Theorem trusted_required_of_destination_hubs_only o hubIntel pin :
  (RequireTrustedDestinationHubs o = true ->
   Matcher o DestinationHub hubIntel pin = true ->
   Has (State pin) StateTrusted = true)
  /\ (forall hubType b,
        hubType <> DestinationHub ->
        Matcher (withRequireTrusted o b) hubType hubIntel pin =
          Matcher o hubType hubIntel pin).
Proof.
  split.
  - intros Hflag Hm. unfold Matcher in Hm. rewrite pinMatch_verdict in Hm.
    apply andb_prop in Hm as [Hm _]. apply andb_prop in Hm as [Hm _].
    apply andb_prop in Hm as [Hm _]. apply andb_prop in Hm as [Hstate _].
    unfold stateCheck in Hstate. apply andb_prop in Hstate as [Hhas _].
    simpl in Hhas. unfold compileRegard in Hhas. rewrite Hflag in Hhas.
    simpl in Hhas. exact (Has_lor_r Hhas).
  - intros hubType b Hne. unfold Matcher. f_equal.
    unfold pinMatch, compile, compileRegard. simpl.
    destruct hubType; [| | congruence]; simpl; rewrite !andb_false_r; reflexivity.
Qed.

(** X7: when no exit check is asked for, a hub that announces no entry
    policy is never rejected by the entry check, whatever entity the caller
    gives: the verdict is that of the state, owner and policy checks. *)
Theorem unset_entry_policy_passes_probes o hubType hubIntel pin :
  CheckHubExitPolicyWith o = None ->
  IsSet (EntryPolicy (Info (PinHub pin))) = false ->
  let c := compile o hubType hubIntel in
  Matcher o hubType hubIntel pin =
    stateCheck c pin && ownerCheck (c_owners c) pin
    && fst (policyCheck (c_hubPolicies c) pin).
Proof.
  intros Hexit Hunset c. unfold Matcher. rewrite pinMatch_verdict. fold c.
  subst c. simpl. rewrite Hexit. simpl.
  destruct (CheckHubEntryPolicyWith o) as [e |]; simpl;
    rewrite ?Hunset; simpl; rewrite !andb_true_r; reflexivity.
Qed.

Lemma HubPoliciesAreSet_false o :
  HubPoliciesAreSet o = false ->
  forallb (fun p => negb (IsSet p)) (HubPolicies o) = true.
Proof.
  unfold HubPoliciesAreSet. induction (HubPolicies o) as [| p ps IH]; simpl;
    [reflexivity |].
  intros H. apply orb_false_elim in H as [Hp Hps]. rewrite Hp. simpl. auto.
Qed.

(** X8: when [HubPoliciesAreSet] says no and the hub intel brings no set
    advisory, the policy loop does nothing: the matcher decides as without
    any policy and logs no warning. *)
Theorem no_set_policies_no_policy_check o hubType hubIntel pin :
  HubPoliciesAreSet o = false ->
  forallb (fun p => negb (IsSet p)) (intelPolicies hubType hubIntel) = true ->
  Matcher o hubType hubIntel pin =
    fst (pinMatch (withPolicies (compile o hubType hubIntel) []) pin)
  /\ policyCheck (compilePolicies o hubType hubIntel) pin = (true, []).
Proof.
  intros Hcaller Hintel.
  assert (Hloop : policyCheck (compilePolicies o hubType hubIntel) pin = (true, [])).
  { rewrite compilePolicies_app.
    rewrite (policyCheck_app_unset pin (HubPolicies o) Hintel).
    apply (policyCheck_app_unset pin [] (HubPoliciesAreSet_false Hcaller)). }
  split; [| exact Hloop].
  unfold Matcher.
  change (fst (pinMatch (withPolicies (compile o hubType None)
                           (compilePolicies o hubType hubIntel)) pin) =
          fst (pinMatch (withPolicies (compile o hubType None) []) pin)).
  f_equal. apply pinMatch_policies. exact Hloop.
Qed.

End MatcherChecks.

Section MatcherChecksSamples.
Import Navigator Samples.

#[local] Existing Instance sampleAPI.
#[local] Existing Instance sampleStates.

Lemma matcher_enforces_disregard_witness :
  Matcher bareOptions TransitHub None (statePin 3) = false.
Proof.
  exact (proj1 (@matcher_enforces_disregard sampleAPI sampleStates
                  bareOptions TransitHub None (statePin 3) 1%N eq_refl eq_refl)).
Defined.

Lemma matcher_enforces_regard_witness :
  Matcher bareOptions TransitHub None (statePin 0) = false.
Proof.
  exact (proj1 (@matcher_enforces_regard sampleAPI sampleStates
                  bareOptions TransitHub None (statePin 0) 0%N eq_refl eq_refl
                  (or_introl eq_refl))).
Defined.

(** The exception for home hubs: asked to regard Reachable, the matcher
    for home hubs still accepts a pin that is not reachable. *)
Example home_hub_regard_drops_reachable :
  Matcher {| Regard := 32; Disregard := 0; HubPolicies := [];
             CheckHubEntryPolicyWith := None; CheckHubExitPolicyWith := None;
             RequireVerifiedOwners := []; NoDefaults := false;
             RequireTrustedDestinationHubs := false; RoutingProfile := EmptyString |}
    HomeHub None (statePin 0) = true.
Proof. vm_compute. reflexivity. Qed.

Lemma matcher_requires_listed_owner_witness :
  VerifiedOwner ownedPin <> EmptyString
  /\ In (VerifiedOwner ownedPin) (RequireVerifiedOwners ownerOptions).
Proof.
  refine (@matcher_requires_listed_owner sampleAPI sampleStates
            ownerOptions HomeHub None ownedPin _ eq_refl).
  discriminate.
Defined.

Lemma caller_policy_precedes_intel_witness :
  Matcher (optionsWithPolicies [failingPolicy; permittingPolicy]) HomeHub
    (Some denyingIntel) (samplePin [] []) =
  Matcher (optionsWithPolicies [failingPolicy; permittingPolicy]) HomeHub
    None (samplePin [] []).
Proof.
  exact (proj1 (@caller_policy_precedes_intel sampleAPI sampleStates
                  (optionsWithPolicies [failingPolicy; permittingPolicy]) HomeHub
                  (Some denyingIntel) None (samplePin [] []) permittingPolicy
                  (or_intror (or_introl eq_refl)) eq_refl (or_introl eq_refl))).
Defined.

Lemma unset_intel_is_no_intel_witness :
  Matcher sampleOptions HomeHub (Some unparsedIntel) (samplePin [] []) =
  Matcher sampleOptions HomeHub None (samplePin [] []).
Proof.
  exact (proj1 (@unset_intel_is_no_intel sampleAPI sampleStates
                  sampleOptions HomeHub (Some unparsedIntel) (samplePin [] []) eq_refl)).
Defined.

Lemma trusted_required_of_destination_hubs_only_witness :
  Has (State (statePin (32 + 64 + 128))) StateTrusted = true
  /\ Matcher (withRequireTrusted sampleOptions true) HomeHub None (samplePin [] []) =
       Matcher sampleOptions HomeHub None (samplePin [] []).
Proof.
  pose proof (@trusted_required_of_destination_hubs_only sampleAPI sampleStates)
    as Htrusted.
  split.
  - exact (proj1 (Htrusted trustedOptions None (statePin (32 + 64 + 128)))
             eq_refl eq_refl).
  - refine (proj2 (Htrusted sampleOptions None (samplePin [] [])) HomeHub true _).
    discriminate.
Defined.

Lemma unset_entry_policy_passes_probes_witness :
  Matcher entryOptions DestinationHub None (samplePin [] [(7%nat, Denied)]) = true.
Proof.
  exact (@unset_entry_policy_passes_probes sampleAPI sampleStates
           entryOptions DestinationHub None (samplePin [] [(7%nat, Denied)])
           eq_refl eq_refl).
Defined.

Lemma no_set_policies_no_policy_check_witness :
  policyCheck (compilePolicies (optionsWithPolicies [[]; []]) HomeHub
                 (Some unparsedIntel)) (samplePin [] []) = (true, []).
Proof.
  exact (proj2 (@no_set_policies_no_policy_check sampleAPI sampleStates
                  (optionsWithPolicies [[]; []]) HomeHub (Some unparsedIntel)
                  (samplePin [] []) eq_refl eq_refl)).
Defined.

End MatcherChecksSamples.

(** ** More about establishHomeHub *)

Section HomeHubOutcomes.
Import Navigator Captain.
Context {api : EndpointsAPI}.
Variables (IP Location : Type) (entityOfIP : IP -> Entity).

Implicit Types (w : World IP Location) (calls : list (Call Location)).

Lemma establishHomeHub_found w locations homePolicy candidates rest :
  internetLocation w = Some locations ->
  homeHubPolicy w = inl homePolicy ->
  findResults w = inl candidates :: rest ->
  establishHomeHub entityOfIP w =
    if (length candidates =? 0)%nat && (0 <? length homePolicy)%nat
    then ([homeHubSearch entityOfIP locations homePolicy],
          Some (Some ErrAllHomeHubsExcluded))
    else (homeHubSearch entityOfIP locations homePolicy
            :: fst (connectLoop (connectEnv w) candidates 0 None),
          Some (snd (connectLoop (Location := Location) (connectEnv w)
                       candidates 0 None))).
Proof.
  intros Hloc Hpol Hfind. unfold establishHomeHub.
  rewrite Hloc, Hpol, Hfind. simpl.
  destruct ((length candidates =? 0)%nat && (0 <? length homePolicy)%nat);
    [reflexivity |].
  destruct (connectLoop (Location := Location) (connectEnv w) candidates 0 None).
  reflexivity.
Qed.

(** Candidates that fail softly are tried one after the other. *)
Lemma connectLoop_soft connect (pre rest : list Hub) tries err :
  forallb (failsSoftly connect) pre = true ->
  connectLoop (Location := Location) connect (pre ++ rest) tries err =
    (map CallConnectToHomeHub pre
       ++ fst (connectLoop connect rest (tries + length pre)
                 (lastError connect pre err)),
     snd (connectLoop (Location := Location) connect rest (tries + length pre)
            (lastError connect pre err))).
Proof.
  revert tries err. induction pre as [| h pre IH]; intros tries err Hsoft.
  - simpl. rewrite Nat.add_0_r.
    destruct (connectLoop connect rest tries err). reflexivity.
  - simpl in Hsoft. apply andb_prop in Hsoft as [Hh Hpre].
    unfold failsSoftly in Hh.
    destruct (connectError connect h) as [e |] eqn:Hce; [| discriminate Hh].
    apply negb_true_iff in Hh.
    unfold lastError. cbn [app connectLoop fold_left].
    fold (lastError connect pre (connectError connect h)). rewrite Hce.
    unfold connectError in Hce.
    destruct (connect h) as [env arm]. simpl in Hce. rewrite Hce, Hh.
    rewrite (IH (S tries) (Some e) Hpre).
    replace (S tries + length pre)%nat with (tries + S (length pre))%nat by lia.
    reflexivity.
Qed.

Lemma errors_Is_refl (e : error) : errors_Is e e = true.
Proof. destruct e; simpl; rewrite bool_decide_eq_true_2 by reflexivity; reflexivity. Qed.

Lemma errors_Is_wrapped msg (e : error) : errors_Is (ErrorWrap msg e) e = true.
Proof. simpl. rewrite errors_Is_refl. apply orb_true_r. Qed.

Lemma connectLoop_head connect (h : Hub) post tries err :
  connectLoop (Location := Location) connect (h :: post) tries err =
    match connectError connect h with
    | Some e =>
        if errors_Is e (ErrorTerminal Terminal.ErrStopping)
        then ([CallConnectToHomeHub h], Some e)
        else (CallConnectToHomeHub h
                :: fst (connectLoop connect post (S tries) (Some e)),
              snd (connectLoop (Location := Location) connect post (S tries) (Some e)))
    | None => ([CallConnectToHomeHub h], None)
    end.
Proof.
  unfold connectError. cbn [connectLoop]. destruct (connect h) as [env arm]. simpl.
  destruct (fst (connectToHomeHub env arm)) as [e |]; [| reflexivity].
  destruct (errors_Is e (ErrorTerminal Terminal.ErrStopping)); [reflexivity |].
  destruct (connectLoop connect post (S tries) (Some e)). reflexivity.
Qed.

Lemma nonempty_candidates (pre : list Hub) h post (homePolicy : Endpoints) :
  (length (pre ++ h :: post) =? 0)%nat && (0 <? length homePolicy)%nat = false.
Proof. rewrite length_app. simpl. destruct (length pre); reflexivity. Qed.

(** X9: when the search returns no candidate, nothing is connected to; the
    call fails with [ErrAllHomeHubsExcluded] if the home policy has
    entries, and for want of candidates otherwise. *)
Theorem establishHomeHub_without_candidates w locations homePolicy rest :
  internetLocation w = Some locations ->
  homeHubPolicy w = inl homePolicy ->
  findResults w = inl [] :: rest ->
  establishHomeHub entityOfIP w =
    ([homeHubSearch entityOfIP locations homePolicy],
     Some (Some (if (0 <? length homePolicy)%nat
                 then ErrAllHomeHubsExcluded
                 else ErrorNew "no home hub candidates available"))).
Proof.
  intros Hloc Hpol Hfind. rewrite (establishHomeHub_found Hloc Hpol Hfind). simpl.
  destruct (0 <? length homePolicy)%nat; reflexivity.
Qed.

(** X10: the candidates are tried in order, and the first one that can be
    connected to ends the call with success; those after it are not tried. *)
Theorem establishHomeHub_first_success w locations homePolicy pre h post rest :
  internetLocation w = Some locations ->
  homeHubPolicy w = inl homePolicy ->
  findResults w = inl (pre ++ h :: post) :: rest ->
  forallb (failsSoftly (connectEnv w)) pre = true ->
  connectError (connectEnv w) h = None ->
  establishHomeHub entityOfIP w =
    (homeHubSearch entityOfIP locations homePolicy
       :: map CallConnectToHomeHub pre ++ [CallConnectToHomeHub h],
     Some None).
Proof.
  intros Hloc Hpol Hfind Hsoft Hh. rewrite (establishHomeHub_found Hloc Hpol Hfind).
  rewrite nonempty_candidates, (connectLoop_soft (h :: post) 0 None Hsoft).
  rewrite connectLoop_head, Hh. reflexivity.
Qed.

(** X11: an error that is [ErrStopping] ends the call at once: it is
    returned as it is and the remaining candidates are not tried. *)
Theorem establishHomeHub_stops_on_ErrStopping w locations homePolicy pre h post rest e :
  internetLocation w = Some locations ->
  homeHubPolicy w = inl homePolicy ->
  findResults w = inl (pre ++ h :: post) :: rest ->
  forallb (failsSoftly (connectEnv w)) pre = true ->
  connectError (connectEnv w) h = Some e ->
  errors_Is e (ErrorTerminal Terminal.ErrStopping) = true ->
  establishHomeHub entityOfIP w =
    (homeHubSearch entityOfIP locations homePolicy
       :: map CallConnectToHomeHub pre ++ [CallConnectToHomeHub h],
     Some (Some e)).
Proof.
  intros Hloc Hpol Hfind Hsoft Hh Hstop. rewrite (establishHomeHub_found Hloc Hpol Hfind).
  rewrite nonempty_candidates, (connectLoop_soft (h :: post) 0 None Hsoft).
  rewrite connectLoop_head, Hh, Hstop. reflexivity.
Qed.

(** X12: when every candidate fails (without stopping), all of them have
    been tried, in order, and the call fails with an error that tells how
    many were tried and wraps the error of the last one. *)
Theorem establishHomeHub_all_candidates_fail w locations homePolicy pre h rest e :
  internetLocation w = Some locations ->
  homeHubPolicy w = inl homePolicy ->
  findResults w = inl (pre ++ [h]) :: rest ->
  forallb (failsSoftly (connectEnv w)) (pre ++ [h]) = true ->
  connectError (connectEnv w) h = Some e ->
  let failure :=
    ErrorWrap ("failed to connect to a new home hub - tried "
                 +:+ pretty (length (pre ++ [h])) +:+ " hubs") e in
  establishHomeHub entityOfIP w =
    (homeHubSearch entityOfIP locations homePolicy
       :: map CallConnectToHomeHub (pre ++ [h]),
     Some (Some failure))
  /\ errors_Is failure e = true.
Proof.
  intros Hloc Hpol Hfind Hsoft Hh failure. split; [| apply errors_Is_wrapped].
  rewrite (establishHomeHub_found Hloc Hpol Hfind).
  rewrite nonempty_candidates.
  pose proof (connectLoop_soft [] 0 None Hsoft) as Hloop.
  rewrite app_nil_r in Hloop. rewrite Hloop. simpl.
  unfold lastError. rewrite fold_left_app. simpl. rewrite Hh.
  rewrite app_nil_r. reflexivity.
Qed.

(** The searches and bootstraps made while the map stays empty. *)
Lemma findCandidates_through (v4 v6 : option Location) opts
    (empties : list error) finds boots :
  forallb (fun err => errors_Is err ErrEmptyMap) empties = true ->
  findCandidates v4 v6 opts (map inr empties ++ finds)
    (repeat None (length empties) ++ boots) =
    (concat (repeat [CallFindNearestHubs v4 v6 opts HomeHub 10;
                     CallBootstrapWithUpdates] (length empties))
       ++ fst (findCandidates v4 v6 opts finds boots),
     snd (findCandidates v4 v6 opts finds boots)).
Proof.
  intros Hempties. induction empties as [| e empties IH].
  - simpl. destruct (findCandidates v4 v6 opts finds boots). reflexivity.
  - simpl in Hempties. apply andb_prop in Hempties as [He Hempties].
    cbn [map app length repeat findCandidates concat]. rewrite He.
    rewrite (IH Hempties). reflexivity.
Qed.

(** X13: a search that fails for another reason than an empty map ends
    the call, also after any number of bootstraps: nothing is bootstrapped
    or connected to after it, and the error returned wraps the search
    error, which [errors.Is] still finds in it. *)
Theorem establishHomeHub_search_failure
    w locations homePolicy (empties : list error) err rest boots :
  internetLocation w = Some locations ->
  homeHubPolicy w = inl homePolicy ->
  findResults w = map inr empties ++ inr err :: rest ->
  forallb (fun e => errors_Is e ErrEmptyMap) empties = true ->
  errors_Is err ErrEmptyMap = false ->
  bootstrapResults w = repeat None (length empties) ++ boots ->
  let search := homeHubSearch entityOfIP locations homePolicy in
  establishHomeHub entityOfIP w =
    (concat (repeat [search; CallBootstrapWithUpdates] (length empties)) ++ [search],
     Some (Some (ErrorWrap "failed to find nearby hubs" err)))
  /\ errors_Is (ErrorWrap "failed to find nearby hubs" err) err = true.
Proof.
  intros Hloc Hpol Hfind Hempties Hother Hboots search.
  split; [| apply errors_Is_wrapped].
  unfold establishHomeHub. rewrite Hloc, Hpol, Hfind, Hboots.
  rewrite (findCandidates_through _ _ _ (inr err :: rest) boots Hempties).
  simpl. rewrite Hother. reflexivity.
Qed.

(** X14: when a bootstrap fails, also after bootstraps that succeeded, the
    call returns the bootstrap error as it is and does not search again. *)
Theorem establishHomeHub_bootstrap_failure
    w locations homePolicy (empties : list error) err rest berr boots :
  internetLocation w = Some locations ->
  homeHubPolicy w = inl homePolicy ->
  findResults w = map inr empties ++ inr err :: rest ->
  forallb (fun e => errors_Is e ErrEmptyMap) empties = true ->
  errors_Is err ErrEmptyMap = true ->
  bootstrapResults w = repeat None (length empties) ++ Some berr :: boots ->
  let search := homeHubSearch entityOfIP locations homePolicy in
  establishHomeHub entityOfIP w =
    (concat (repeat [search; CallBootstrapWithUpdates] (length empties))
       ++ [search; CallBootstrapWithUpdates],
     Some (Some berr)).
Proof.
  intros Hloc Hpol Hfind Hempties Hempty Hboots search.
  unfold establishHomeHub. rewrite Hloc, Hpol, Hfind, Hboots.
  rewrite (findCandidates_through _ _ _ (inr err :: rest) (Some berr :: boots) Hempties).
  simpl. rewrite Hempty. reflexivity.
Qed.

End HomeHubOutcomes.

(** ** More about connectToHomeHub *)

Section ConnectOutcomes.
Import Captain.



(** X16: whatever happens, [connectToHomeHub] sets the firewall
    exceptions first and clears them last, and does so once each.  The
    crane is stopped exactly when it was established and the call fails,
    and it is assigned to the hub exactly when the call succeeds. *)
Theorem connectToHomeHub_cleans_up env arm :
  exists mid,
    snd (connectToHomeHub env arm) =
      EvSetExceptions true :: mid ++ [EvSetExceptions false]
    /\ (forall b, ~ In (EvSetExceptions b) mid)
    /\ (In EvCraneStop mid <->
        ceEstablishCrane env = None /\ fst (connectToHomeHub env arm) <> None)
    /\ (In EvAssignCrane mid <-> fst (connectToHomeHub env arm) = None).
Proof.
  unfold connectToHomeHub.
  destruct (ceEstablishCrane env) as [err |].
  { exists []. simpl. intuition congruence. }
  assert (Hgossip : forall ev,
            In ev (match ceNewGossipQueryOp env with
                   | Some _ => [EvLogWarning "failed to start initial gossip query"]
                   | None => []
                   end) -> exists msg, ev = EvLogWarning msg).
  { intros ev. destruct (ceNewGossipQueryOp env); simpl; [| tauto].
    intros [<- | []]. eauto. }
  set (gossip := match ceNewGossipQueryOp env with
                 | Some _ => [EvLogWarning "failed to start initial gossip query"]
                 | None => []
                 end) in *.
  assert (Hfail : forall err evs,
            (forall ev, In ev evs -> ev = EvSetHome) ->
            exists mid,
              EvSetExceptions true :: gossip ++ evs ++ [EvCraneStop; EvSetExceptions false] =
                EvSetExceptions true :: mid ++ [EvSetExceptions false]
              /\ (forall b, ~ In (EvSetExceptions b) mid)
              /\ (In EvCraneStop mid <-> @None error = None /\ Some err <> @None error)
              /\ (In EvAssignCrane mid <-> Some err = @None error)).
  { intros err evs Hevs. exists (gossip ++ evs ++ [EvCraneStop]).
    split; [rewrite <- !app_assoc; reflexivity |].
    split; [| split].
    - intros b Hin. rewrite !in_app_iff in Hin. destruct Hin as [H | [H | H]].
      + destruct (Hgossip _ H) as [msg Hmsg]. discriminate Hmsg.
      + specialize (Hevs _ H). discriminate Hevs.
      + destruct H as [H | []]. discriminate H.
    - split; [intros _; split; congruence |].
      intros _. rewrite !in_app_iff. right. right. left. reflexivity.
    - split; [| discriminate].
      intros Hin. rewrite !in_app_iff in Hin. destruct Hin as [H | [H | H]].
      + destruct (Hgossip _ H) as [msg Hmsg]. discriminate Hmsg.
      + specialize (Hevs _ H). discriminate Hevs.
      + destruct H as [H | []]. discriminate H. }
  destruct (ceNewLocalCraneTerminal env); [apply Hfail; intros ev [] |].
  destruct (ceEstablishNewTerminal env); [apply Hfail; intros ev [] |].
  destruct (ceAuthorizeToTerminal env); [apply Hfail; intros ev [] |].
  destruct (authSelect arm); [apply Hfail; intros ev [] |].
  destruct (ceSetHome env); simpl.
  - exists (gossip ++ [EvSetHome; EvAssignCrane]).
    split; [rewrite <- !app_assoc; reflexivity |].
    split; [| split].
    + intros b Hin. rewrite in_app_iff in Hin. destruct Hin as [H | H].
      * destruct (Hgossip _ H) as [msg Hmsg]. discriminate Hmsg.
      * simpl in H. intuition discriminate.
    + split; [| intros [_ H]; congruence].
      intros Hin. rewrite in_app_iff in Hin. destruct Hin as [H | H].
      * destruct (Hgossip _ H) as [msg Hmsg]. discriminate Hmsg.
      * simpl in H. intuition discriminate.
    + split; [reflexivity |]. intros _. rewrite in_app_iff. right. simpl. tauto.
  - apply (Hfail (ErrorNew "failed to set home hub on map") [EvSetHome]).
    intros ev [<- | []]. reflexivity.
Qed.

End ConnectOutcomes.

(** ** More about optimizeNetwork *)

Section OptimizePass.
Import Navigator Captain.
Context {api : EndpointsAPI}.
Variable EstablishPublicLane : DocksState -> Hub -> DocksState * (nat * option Terminal.Error).

Local Open Scope Z_scope.

#[local] Abbreviation step := (suggestionStep EstablishPublicLane).
#[local] Abbreviation loop := (suggestionLoop EstablishPublicLane).

Lemma failsLogged_app lg lg' : failsLogged (lg ++ lg') = failsLogged lg + failsLogged lg'.
Proof. unfold failsLogged. rewrite List.filter_app, length_app. lia. Qed.

Lemma suggestionStep_counters maxConnect st connectTo n :
  countersAgree st n ->
  countersAgree (step maxConnect st connectTo)
    (n + if Duplicate connectTo then 0 else 1).
Proof.
  unfold countersAgree, suggestionStep. intros (Hc & Ha & Hn).
  destruct (Duplicate connectTo); [repeat split; lia |].
  destruct (GetAssignedCrane (docks st) (ID (SuggestedHub connectTo))) as [crane |].
  - destruct (AbortStopping crane (UpdateLastSuggestedAt crane (docks st))) as [aborted d].
    destruct aborted; simpl; [| repeat split; lia].
    rewrite lanesLogged_app, failsLogged_app.
    unfold lanesLogged at 2 4, failsLogged at 2. simpl. repeat split; lia.
  - destruct (createdConnections st <? maxConnect); [| repeat split; lia].
    destruct (EstablishPublicLane (docks st) (SuggestedHub connectTo)) as [d [crane tErr]].
    destruct (Terminal.IsOK tErr); simpl;
      rewrite lanesLogged_app, failsLogged_app;
      unfold lanesLogged at 2 4, failsLogged at 2; simpl; repeat split; lia.
Qed.

Lemma suggestionLoop_counters maxConnect st suggestions n :
  countersAgree st n ->
  countersAgree (loop maxConnect st suggestions)
    (n + Z.of_nat (length (List.filter (fun s => negb (Duplicate s)) suggestions))).
Proof.
  unfold suggestionLoop. revert st n.
  induction suggestions as [| s l IH]; intros st n Hst; simpl.
  - destruct Hst as (Hc & Ha & Hn). repeat split; try assumption. lia.
  - destruct (IH _ _ (suggestionStep_counters maxConnect s Hst)) as (Hc & Ha & Hn).
    repeat split; try assumption.
    destruct (Duplicate s); simpl in *; lia.
Qed.

(** X17: the counters of a pass.  The connections created are the lanes
    logged as established, the other attempts are the lanes logged as
    failed, and there are no more attempts than suggestions that are not
    duplicates. *)
Theorem optimizeNetwork_counters maxConnect d suggestions :
  let st := loop maxConnect
              {| docks := d; createdConnections := 0;
                 attemptedConnections := 0; logged := [] |} suggestions in
  createdConnections st = lanesLogged (logged st)
  /\ attemptedConnections st - createdConnections st = failsLogged (logged st)
  /\ 0 <= createdConnections st <= attemptedConnections st
  /\ attemptedConnections st <=
       Z.of_nat (length (List.filter (fun s => negb (Duplicate s)) suggestions)).
Proof.
  intros st.
  assert (Hinit : countersAgree
                    {| docks := d; createdConnections := 0;
                       attemptedConnections := 0; logged := [] |} 0).
  { repeat split; simpl; lia. }
  destruct (suggestionLoop_counters maxConnect suggestions Hinit) as (Hc & Ha & Hn).
  fold st in Hc, Ha, Hn.
  assert (0 <= lanesLogged (logged st)) by (unfold lanesLogged; lia).
  assert (0 <= failsLogged (logged st)) by (unfold failsLogged; lia).
  repeat split; lia.
Qed.

(** One iteration of the retirement loop, by cases. *)
Lemma retireStep_cases d lg crane :
  retireStep (d, lg) crane =
    match cranes d !! crane with
    | Some c =>
        if retirable d c
        then (withCranes d (<[crane := markedCrane c]> (cranes d)),
              lg ++ [LogRetiring crane])
        else (d, lg)
    | None => (d, lg)
    end.
Proof.
  unfold retireStep, retirable, MarkStopping.
  destruct (cranes d !! crane) as [c |] eqn:Hc; [| reflexivity].
  destruct (isMine c) eqn:Hmine; simpl; [| reflexivity].
  destruct (stopped c) eqn:Hstopped; simpl; [reflexivity |].
  destruct (stopping c) eqn:Hstopping; simpl; [reflexivity |].
  destruct (clock d - stopCraneAfterBeingUnsuggestedFor <? lastSuggestedAt c);
    simpl; [reflexivity |].
  unfold NotifyUpdate, withCranes, markedCrane. simpl.
  rewrite alter_insert_eq. simpl. rewrite ?Hstopped, ?Hmine. reflexivity.
Qed.

Lemma retirable_marked d c : retirable d (markedCrane c) = false.
Proof. unfold retirable. simpl. rewrite orb_true_r, andb_false_r. reflexivity. Qed.

(** The cranes after the retirement loop over a list of cranes. *)
Lemma retire_fold_cranes (l : list nat) d lg crane :
  let d' := fst (fold_left retireStep l (d, lg)) in
  clock d' = clock d
  /\ assigned d' = assigned d
  /\ cranes d' !! crane =
       match cranes d !! crane with
       | Some c =>
           Some (if retirable d c && existsb (Nat.eqb crane) l
                 then markedCrane c else c)
       | None => None
       end.
Proof.
  revert d lg. induction l as [| a l IH]; intros d lg; cbn [fold_left].
  - simpl. repeat split. destruct (cranes d !! crane) as [c |]; [| reflexivity].
    rewrite andb_false_r. reflexivity.
  - rewrite retireStep_cases.
    destruct (cranes d !! a) as [ca |] eqn:Ha.
    + destruct (retirable d ca) eqn:Hret.
      * specialize (IH (withCranes d (<[a := markedCrane ca]> (cranes d)))
                      (lg ++ [LogRetiring a])).
        destruct IH as (Hclock & Hassigned & Hcranes).
        split; [exact Hclock |]. split; [exact Hassigned |].
        rewrite Hcranes. simpl. rewrite lookup_insert.
        destruct (decide (a = crane)) as [-> | Hne].
        -- rewrite Ha, Hret, Nat.eqb_refl. simpl.
           change (retirable (withCranes d (<[crane:=markedCrane ca]> (cranes d)))
                     (markedCrane ca))
             with (retirable d (markedCrane ca)).
           rewrite retirable_marked. reflexivity.
        -- destruct (cranes d !! crane) as [c |]; [| reflexivity].
           assert (Hneq : Nat.eqb crane a = false) by (apply Nat.eqb_neq; congruence).
           rewrite Hneq. reflexivity.
      * specialize (IH d lg). destruct IH as (Hclock & Hassigned & Hcranes).
        split; [exact Hclock |]. split; [exact Hassigned |].
        rewrite Hcranes. destruct (cranes d !! crane) as [c |] eqn:Hc; [| reflexivity].
        simpl. destruct (Nat.eqb crane a) eqn:Heq; [| reflexivity].
        apply Nat.eqb_eq in Heq. subst a. assert (c = ca) by congruence. subst c.
        rewrite Hret. reflexivity.
    + specialize (IH d lg). destruct IH as (Hclock & Hassigned & Hcranes).
      split; [exact Hclock |]. split; [exact Hassigned |].
      rewrite Hcranes. destruct (cranes d !! crane) as [c |] eqn:Hc; [| reflexivity].
      simpl. destruct (Nat.eqb crane a) eqn:Heq; [| reflexivity].
      apply Nat.eqb_eq in Heq. subst a. congruence.
Qed.

(** X18: the retirement loop marks as stopping exactly those cranes of
    its list that are mine, neither stopped nor stopping, and were last
    suggested at least [stopCraneAfterBeingUnsuggestedFor] ago; each is
    notified once, however often it is listed.  All other cranes, the
    assignments and every other field are left as they are: no stopping
    mark is ever cleared. *)
Theorem retirement_marks_exactly (l : list nat) d lg crane :
  let d' := fst (fold_left retireStep l (d, lg)) in
  clock d' = clock d
  /\ assigned d' = assigned d
  /\ cranes d' !! crane =
       match cranes d !! crane with
       | Some c =>
           Some (if retirable d c && existsb (Nat.eqb crane) l
                 then markedCrane c else c)
       | None => None
       end.
Proof. exact (retire_fold_cranes l d lg crane). Qed.

(** The docks after the iteration for a suggestion whose hub has a crane. *)
Lemma suggestionStep_touches maxConnect st connectTo a :
  Duplicate connectTo = false ->
  GetAssignedCrane (docks st) (ID (SuggestedHub connectTo)) = Some a ->
  let cur := docks st in
  let d' := docks (step maxConnect st connectTo) in
  clock d' = clock cur
  /\ assigned d' = assigned cur
  /\ (forall crane, crane <> a -> cranes d' !! crane = cranes cur !! crane)
  /\ (forall c, cranes cur !! a = Some c ->
        exists c', cranes d' !! a = Some c'
                   /\ stopping c' = false /\ lastSuggestedAt c' = clock cur).
Proof.
  intros Hdup Ha. unfold suggestionStep. rewrite Hdup, Ha.
  unfold AbortStopping, UpdateLastSuggestedAt. simpl.
  rewrite lookup_alter_eq.
  destruct (cranes (docks st) !! a) as [c |] eqn:Hc; simpl.
  - destruct (stopping c); simpl.
    + repeat split.
      * intros crane Hne. rewrite lookup_alter_ne, lookup_insert_ne, lookup_alter_ne
          by congruence. reflexivity.
      * intros c0 _. rewrite lookup_alter_eq, lookup_insert_eq. simpl. eauto.
    + repeat split.
      * intros crane Hne. rewrite lookup_insert_ne, lookup_alter_ne by congruence.
        reflexivity.
      * intros c0 _. rewrite lookup_insert_eq. eauto.
  - repeat split.
    + intros crane Hne. rewrite lookup_alter_ne by congruence. reflexivity.
    + intros c0 H0. discriminate H0.
Qed.

(** The docks after the iteration for a suggestion whose hub has no crane. *)
Lemma suggestionStep_builds maxConnect st connectTo d :
  laneKeeps EstablishPublicLane d ->
  duringPass d (docks st) ->
  Duplicate connectTo = false ->
  GetAssignedCrane (docks st) (ID (SuggestedHub connectTo)) = None ->
  let cur := docks st in
  let d' := docks (step maxConnect st connectTo) in
  duringPass d d'
  /\ (forall k a, assigned cur !! k = Some a -> assigned d' !! k = Some a)
  /\ (forall crane c, cranes cur !! crane = Some c ->
        exists c', cranes d' !! crane = Some c'
                   /\ stopping c' = stopping c
                   /\ (lastSuggestedAt c' = lastSuggestedAt c
                       \/ clock d <= lastSuggestedAt c')).
Proof.
  intros Hkeeps Hpass Hdup Hnone. unfold suggestionStep. rewrite Hdup, Hnone.
  destruct (createdConnections st <? maxConnect).
  - destruct (Hkeeps (docks st) (SuggestedHub connectTo) Hnone Hpass)
      as (Hpass' & Hcranes & Hassigned).
    destruct (EstablishPublicLane (docks st) (SuggestedHub connectTo))
      as [cur' [cr tErr]]. simpl in Hpass', Hcranes, Hassigned.
    destruct (Terminal.IsOK tErr); simpl.
    + split; [exact Hpass' |]. split; [exact Hassigned |].
      intros crane c Hc. rewrite lookup_alter. specialize (Hcranes _ _ Hc).
      destruct (decide (cr = crane)) as [-> | Hne].
      * rewrite Hcranes. simpl. eexists. split; [reflexivity |].
        split; [reflexivity |]. right. simpl. apply Hpass'.
      * rewrite Hcranes. eauto.
    + split; [exact Hpass' |]. split; [exact Hassigned |].
      intros crane c Hc. rewrite (Hcranes _ _ Hc). eauto.
  - simpl. split; [exact Hpass |]. split; [auto |]. eauto.
Qed.

Lemma suggestionStep_keeps maxConnect st connectTo d crane :
  laneKeeps EstablishPublicLane d ->
  keptCrane d (docks st) crane ->
  keptCrane d (docks (step maxConnect st connectTo)) crane.
Proof.
  intros Hkeeps (Hpass & c & Hc & Hstop & Hlast).
  destruct (Duplicate connectTo) eqn:Hdup.
  { rewrite (suggestionStep_duplicate _ _ _ Hdup). split; eauto. }
  destruct (GetAssignedCrane (docks st) (ID (SuggestedHub connectTo))) as [a |] eqn:Ha.
  - destruct (@suggestionStep_touches maxConnect st connectTo a Hdup Ha)
      as (Hclock & _ & Hother & Hsame).
    split; [unfold duringPass in *; rewrite Hclock; exact Hpass |].
    destruct (decide (crane = a)) as [-> | Hne].
    + destruct (Hsame _ Hc) as (c' & Hc' & Hstop' & Hlast').
      exists c'. repeat split; try assumption. rewrite Hlast'. apply Hpass.
    + exists c. rewrite (Hother _ Hne). auto.
  - destruct (@suggestionStep_builds maxConnect st connectTo d Hkeeps Hpass Hdup Ha)
      as (Hpass' & _ & Hcranes).
    split; [exact Hpass' |].
    destruct (Hcranes _ _ Hc) as (c' & Hc' & Hstop' & Hlast').
    exists c'. repeat split; [exact Hc' | congruence |].
    destruct Hlast' as [-> | H]; assumption.
Qed.

Lemma suggestionStep_assigned_stays maxConnect st connectTo d hubID crane :
  laneKeeps EstablishPublicLane d ->
  assignedCrane d (docks st) hubID crane ->
  assignedCrane d (docks (step maxConnect st connectTo)) hubID crane.
Proof.
  intros Hkeeps (Hpass & Hassigned & [c Hc]).
  destruct (Duplicate connectTo) eqn:Hdup.
  { rewrite (suggestionStep_duplicate _ _ _ Hdup).
    split; [exact Hpass | split; [exact Hassigned | exists c; exact Hc]]. }
  destruct (GetAssignedCrane (docks st) (ID (SuggestedHub connectTo))) as [a |] eqn:Ha.
  - destruct (@suggestionStep_touches maxConnect st connectTo a Hdup Ha)
      as (Hclock & Hsame & Hother & Htouched).
    split; [unfold duringPass in *; rewrite Hclock; exact Hpass |].
    split; [unfold GetAssignedCrane in *; rewrite Hsame; exact Hassigned |].
    destruct (decide (crane = a)) as [-> | Hne].
    + destruct (Htouched _ Hc) as (c' & Hc' & _). eauto.
    + rewrite (Hother _ Hne). eauto.
  - destruct (@suggestionStep_builds maxConnect st connectTo d Hkeeps Hpass Hdup Ha)
      as (Hpass' & Hassigned' & Hcranes).
    split; [exact Hpass' |]. split; [apply Hassigned'; exact Hassigned |].
    destruct (Hcranes _ _ Hc) as (c' & Hc' & _). eauto.
Qed.

Lemma suggestionStep_makes_kept maxConnect st connectTo d crane :
  assignedCrane d (docks st) (ID (SuggestedHub connectTo)) crane ->
  Duplicate connectTo = false ->
  keptCrane d (docks (step maxConnect st connectTo)) crane.
Proof.
  intros (Hpass & Hassigned & [c Hc]) Hdup.
  destruct (@suggestionStep_touches maxConnect st connectTo crane Hdup Hassigned)
    as (Hclock & _ & _ & Htouched).
  split; [unfold duringPass in *; rewrite Hclock; exact Hpass |].
  destruct (Htouched _ Hc) as (c' & Hc' & Hstop' & Hlast').
  exists c'. repeat split; try assumption. rewrite Hlast'. apply Hpass.
Qed.

Lemma suggestionLoop_keeps maxConnect st suggestions d crane :
  laneKeeps EstablishPublicLane d ->
  keptCrane d (docks st) crane ->
  keptCrane d (docks (loop maxConnect st suggestions)) crane.
Proof.
  intros Hkeeps. unfold suggestionLoop. revert st.
  induction suggestions as [| s l IH]; intros st Hst; simpl; [exact Hst |].
  apply IH, suggestionStep_keeps; assumption.
Qed.

Lemma suggestionLoop_makes_kept maxConnect st suggestions d connectTo crane :
  laneKeeps EstablishPublicLane d ->
  assignedCrane d (docks st) (ID (SuggestedHub connectTo)) crane ->
  In connectTo suggestions ->
  Duplicate connectTo = false ->
  keptCrane d (docks (loop maxConnect st suggestions)) crane.
Proof.
  intros Hkeeps Hassigned Hin Hdup. unfold suggestionLoop. revert st Hassigned.
  induction suggestions as [| s l IH]; intros st Hassigned; [destruct Hin |].
  simpl. destruct Hin as [-> | Hin].
  - apply (@suggestionLoop_keeps maxConnect _ l d crane Hkeeps).
    apply suggestionStep_makes_kept; assumption.
  - apply (IH Hin). apply suggestionStep_assigned_stays; assumption.
Qed.

(** X19: a crane that a pass is told to keep is not retired by that pass.
    When a suggestion that is no duplicate names a hub that has a crane,
    then at the end of the pass, retirement included, the crane is not
    marked as stopping and has been suggested since the pass began --
    provided that building lanes leaves existing cranes and assignments
    alone and the pass takes less than
    [stopCraneAfterBeingUnsuggestedFor]. *)
Theorem suggested_crane_survives_pass results boots d result connectTo crane c :
  laneKeeps EstablishPublicLane d ->
  optimize results boots = Some (inl result) ->
  In connectTo (SuggestedConnections result) ->
  Duplicate connectTo = false ->
  GetAssignedCrane d (ID (SuggestedHub connectTo)) = Some crane ->
  cranes d !! crane = Some c ->
  exists d' lg c',
    optimizeNetwork EstablishPublicLane true results boots d = Some (None, d', lg)
    /\ cranes d' !! crane = Some c'
    /\ stopping c' = false
    /\ clock d <= lastSuggestedAt c'.
Proof.
  intros Hkeeps Hopt Hin Hdup Hassigned Hc.
  unfold optimizeNetwork. rewrite Hopt. simpl.
  set (init := {| docks := d; createdConnections := 0;
                  attemptedConnections := 0; logged := [] |}).
  assert (Hstart : assignedCrane d (docks init) (ID (SuggestedHub connectTo)) crane).
  { split; [| split; [exact Hassigned | eauto]].
    unfold duringPass. simpl.
    assert (0 < stopCraneAfterBeingUnsuggestedFor) by reflexivity. lia. }
  pose proof (@suggestionLoop_makes_kept (MaxConnect result) init
                (SuggestedConnections result) d connectTo crane
                Hkeeps Hstart Hin Hdup)
    as (Hpass & c' & Hc' & Hstop & Hlast).
  set (st := loop (MaxConnect result) init (SuggestedConnections result)) in *.
  set (lg0 := if 0 <? attemptedConnections st then _ else _).
  destruct (StopOthers result).
  - pose proof (retire_fold_cranes (GetAllAssignedCranes (docks st)) (docks st) lg0 crane)
      as (_ & _ & Hcranes).
    destruct (fold_left retireStep (GetAllAssignedCranes (docks st)) (docks st, lg0))
      as [d' lg].
    simpl in Hcranes. rewrite Hc' in Hcranes.
    assert (Hret : retirable (docks st) c' = false).
    { unfold retirable.
      assert (Hlt : (clock (docks st) - stopCraneAfterBeingUnsuggestedFor
                     <? lastSuggestedAt c') = true).
      { apply Z.ltb_lt. unfold duringPass in Hpass. lia. }
      rewrite Hlt. apply andb_false_r. }
    rewrite Hret in Hcranes. simpl in Hcranes.
    exists d', lg, c'. repeat split; assumption.
  - exists (docks st), lg0, c'. repeat split; assumption.
Qed.

End OptimizePass.

(** ** More about messages and terminals *)

Section ConsumeTwice.
Import Terminal.
Variable msgHeader : N -> MsgType -> list byte -> list byte.

(** X20: consuming two messages one after the other appends their packed
    data in that order, makes the consumer high priority when any of the
    three was, finishes the unit of each consumed message once and leaves
    the consumer's unit unfinished (the three messages having containers
    and units of their own). *)
Theorem Consume_in_sequence msg a b s cm ca cb dm da db um ua ub :
  Data msg = Some cm -> Data a = Some ca -> Data b = Some cb ->
  cm <> ca -> cm <> cb -> ca <> cb ->
  containers s !! cm = Some dm ->
  containers s !! ca = Some da ->
  containers s !! cb = Some db ->
  Unit msg <> Unit a -> Unit msg <> Unit b -> Unit a <> Unit b ->
  units s !! Unit msg = Some um ->
  units s !! Unit a = Some ua ->
  units s !! Unit b = Some ub ->
  exists s1 s2,
    Consume msgHeader msg a s = Some s1
    /\ Consume msgHeader msg b s1 = Some s2
    /\ containers s2 !! cm =
         Some (dm ++ (msgHeader (FlowID a) (Type_ a) da ++ da)
                  ++ (msgHeader (FlowID b) (Type_ b) db ++ db))
    /\ IsHighPriorityUnit msg s2 =
         highPriority um || highPriority ua || highPriority ub
    /\ finishCount a s2 = S (finishCalls ua)
    /\ finishCount b s2 = S (finishCalls ub)
    /\ finishCount msg s2 = finishCalls um.
Proof.
  intros Hm Ha Hb Hma Hmb Hab Hdm Hda Hdb Huma Humb Huab Hum Hua Hub.
  pose proof (Consume_steps msgHeader Hm Ha Hdm Hda) as H1.
  cbv zeta in H1. rewrite decide_False in H1 by exact Hma.
  rewrite (IsHighPriorityUnit_lookup Hua) in H1.
  match type of H1 with _ = Some ?x => set (s1 := x) in * end.
  assert (Hdm1 : containers s1 !! cm =
                 Some (dm ++ msgHeader (FlowID a) (Type_ a) da ++ da)).
  { subst s1. simpl. apply lookup_insert_eq. }
  assert (Hdb1 : containers s1 !! cb = Some db).
  { subst s1. simpl. rewrite !lookup_insert_ne by congruence. exact Hdb. }
  assert (Hhpb : IsHighPriorityUnit b s1 = highPriority ub).
  { unfold IsHighPriorityUnit. subst s1. simpl.
    rewrite lookup_alter_ne by congruence.
    destruct (highPriority ua); [rewrite lookup_alter_ne by congruence |];
      rewrite Hub; reflexivity. }
  pose proof (Consume_steps msgHeader Hm Hb Hdm1 Hdb1) as H2.
  cbv zeta in H2. rewrite decide_False in H2 by exact Hmb. rewrite Hhpb in H2.
  match type of H2 with _ = Some ?x => exists s1, x end.
  split; [exact H1 |]. split; [exact H2 |].
  unfold IsHighPriorityUnit, finishCount. subst s1. simpl.
  split; [rewrite lookup_insert_eq, <- app_assoc; reflexivity |].
  destruct (highPriority ua), (highPriority ub); simpl;
    repeat (rewrite lookup_alter; case_decide; try congruence);
    rewrite ?Hum, ?Hua, ?Hub; simpl; rewrite ?orb_true_r, ?orb_false_r;
    repeat split; reflexivity.
Qed.

End ConsumeTwice.

Section TerminalEstablishment.
Import Terminal Docks.
Variable NewRemoteCraneTerminal : Crane -> N -> option nat -> CraneTerminal + Error.
Variable packError : Error -> list byte.
Variable AbandonTerminal : Crane -> N -> Error -> Crane.

(** X21: when the remote terminal cannot be made, [establishTerminal]
    registers no terminal and answers with one Stop message for the flow,
    carrying the packed error and a fresh unit: sent on [terminalMsgs] when
    that is possible at once, handed to a worker otherwise, never both. *)
Theorem establishTerminal_failure_sends_stop crane id initData sendReady s err :
  NewRemoteCraneTerminal crane id initData = inr err ->
  let r := establishTerminal NewRemoteCraneTerminal packError
             crane id initData sendReady s in
  let msg := {| FlowID := id; Type_ := MsgTypeStop;
                Data := Some (nextAddr s); Unit := nextAddr s |} in
  terminals (fst r) = terminals crane
  /\ Public (fst r) = Public crane
  /\ terminalMsgs (fst r) =
       (if sendReady then terminalMsgs crane ++ [msg] else terminalMsgs crane)
  /\ abandonWorkers (fst r) =
       (if sendReady then abandonWorkers crane else abandonWorkers crane ++ [msg])
  /\ containers (snd r) !! nextAddr s = Some (packError err)
  /\ units (snd r) !! nextAddr s = Some {| highPriority := false; finishCalls := 0 |}.
Proof.
  intros Hnew. unfold establishTerminal. rewrite Hnew. simpl.
  destruct sendReady; simpl; repeat split; apply lookup_insert_eq.
Qed.

(** X22: [EstablishNewTerminal] registers the terminal before it sends.
    When the Init message can be sent, it is the one message sent and
    carries the terminal's ID and the init data; when instead the crane's
    context is done, nothing is sent, the terminal is abandoned and plain
    [ErrStopping] is returned.  Either way the unit made for the message
    is not finished by this call. *)
Theorem EstablishNewTerminal_outcomes crane localTerm initData arm s :
  let r := EstablishNewTerminal AbandonTerminal crane localTerm initData arm s in
  let '(crane', s', sent, err) := r in
  let msg := {| FlowID := termID localTerm; Type_ := MsgTypeInit;
                Data := initData; Unit := nextAddr s |} in
  units s' !! nextAddr s = Some {| highPriority := false; finishCalls := 0 |}
  /\ containers s' = containers s
  /\ match arm with
     | ArmControllerMsgs =>
         err = None /\ sent = [msg]
         /\ terminals crane' !! termID localTerm = Some localTerm
     | ArmCraneDone =>
         err = Some ErrStopping /\ sent = []
         /\ crane' = AbandonTerminal (setTerminal crane localTerm) (termID localTerm)
                       (With ErrStopping "initiation aborted")
     end.
Proof.
  unfold EstablishNewTerminal. simpl.
  destruct arm; simpl; repeat split; apply lookup_insert_eq.
Qed.

End TerminalEstablishment.

(** ** crew: registering the metrics *)

Section RegisterMetrics.
Import Captain Crew.

Lemma registerEach_accepted NewMetric (pre rest reg : list Metric) :
  acceptsEach NewMetric pre reg = true ->
  registerEach NewMetric (pre ++ rest) reg = registerEach NewMetric rest (reg ++ pre).
Proof.
  revert reg. induction pre as [| m pre IH]; intros reg Hacc; simpl.
  - rewrite app_nil_r. reflexivity.
  - simpl in Hacc. destruct (NewMetric reg m); [discriminate Hacc |].
    rewrite (IH _ Hacc), <- app_assoc. reflexivity.
Qed.

(** X23: [registerMetrics] does its work at most once.  After any call,
    also one that failed half way, the flag is set, and every later call
    returns nil and registers nothing, whatever the library would say: the
    metrics a failed call did not reach are never registered. *)
Theorem registerMetrics_only_once NewMetric NewMetric' st :
  let st1 := fst (registerMetrics NewMetric st) in
  metricsRegistered st1 = true
  /\ registerMetrics NewMetric' st1 = (st1, None).
Proof.
  unfold registerMetrics.
  destruct (metricsRegistered st) eqn:Hflag.
  - cbn [fst]. rewrite Hflag. split; reflexivity.
  - destruct (registerEach NewMetric connectMetrics (registered st)) as [reg err].
    split; reflexivity.
Qed.

(** X24: a first call registers the nine metrics in order and stops at
    the first one the library refuses, returning its error; the metrics
    before it stay registered, those after it are not made.  When none is
    refused all nine are registered and nil is returned. *)
Theorem registerMetrics_stops_at_first_error NewMetric st :
  metricsRegistered st = false ->
  (forall pre m post err,
     connectMetrics = pre ++ m :: post ->
     acceptsEach NewMetric pre (registered st) = true ->
     NewMetric (registered st ++ pre) m = Some err ->
     registerMetrics NewMetric st =
       ({| metricsRegistered := true; registered := registered st ++ pre |}, Some err))
  /\ (acceptsEach NewMetric connectMetrics (registered st) = true ->
      registerMetrics NewMetric st =
        ({| metricsRegistered := true;
            registered := registered st ++ connectMetrics |}, None)).
Proof.
  intros Hflag. unfold registerMetrics. rewrite Hflag. split.
  - intros pre m post err Hsplit Hacc Hrefused.
    rewrite Hsplit, (@registerEach_accepted NewMetric pre (m :: post) _ Hacc).
    cbn [registerEach]. rewrite Hrefused. reflexivity.
  - intros Hacc.
    pose proof (@registerEach_accepted NewMetric connectMetrics [] _ Hacc) as H.
    rewrite app_nil_r in H. rewrite H. reflexivity.
Qed.

End RegisterMetrics.

(** ** The further properties on sample data *)

Section MoreSamples.
Import Navigator Captain Samples.

#[local] Existing Instance sampleAPI.

Local Open Scope Z_scope.

Lemma establishHomeHub_without_candidates_witness :
  snd (establishHomeHub (fun ip : nat => ip) (worldWith [(4%nat, Denied)] [inl []] []))
    = Some (Some ErrAllHomeHubsExcluded).
Proof.
  exact (f_equal snd
           (@establishHomeHub_without_candidates sampleAPI nat nat (fun ip => ip)
              (worldWith [(4%nat, Denied)] [inl []] []) sampleLocations
              [(4%nat, Denied)] [] eq_refl eq_refl eq_refl)).
Defined.

Lemma establishHomeHub_first_success_witness :
  snd (establishHomeHub (fun ip : nat => ip)
         (worldWith [] [inl [hub1; hub2; hub3]] [])) = Some None.
Proof.
  exact (f_equal snd
           (@establishHomeHub_first_success sampleAPI nat nat (fun ip => ip)
              (worldWith [] [inl [hub1; hub2; hub3]] []) sampleLocations
              [] [hub1] hub2 [hub3] [] eq_refl eq_refl eq_refl eq_refl eq_refl)).
Defined.

Lemma establishHomeHub_stops_on_ErrStopping_witness :
  establishHomeHub (fun ip : nat => ip) (worldWith [] [inl [hub1; hub3; hub2]] []) =
    ([homeHubSearch (fun ip : nat => ip) sampleLocations [];
      CallConnectToHomeHub hub1; CallConnectToHomeHub hub3],
     Some (Some (ErrorTerminal Terminal.ErrStopping))).
Proof.
  exact (@establishHomeHub_stops_on_ErrStopping sampleAPI nat nat (fun ip => ip)
           (worldWith [] [inl [hub1; hub3; hub2]] []) sampleLocations
           [] [hub1] hub3 [hub2] [] (ErrorTerminal Terminal.ErrStopping)
           eq_refl eq_refl eq_refl eq_refl eq_refl eq_refl).
Defined.

Lemma establishHomeHub_all_candidates_fail_witness :
  snd (establishHomeHub (fun ip : nat => ip) (worldWith [] [inl [hub1; hub1]] [])) =
    Some (Some (ErrorWrap "failed to connect to a new home hub - tried 2 hubs"
                  (ErrorNew "dial failed"))).
Proof.
  exact (f_equal snd
           (proj1 (@establishHomeHub_all_candidates_fail sampleAPI nat nat (fun ip => ip)
                     (worldWith [] [inl [hub1; hub1]] []) sampleLocations
                     [] [hub1] hub1 [] (ErrorNew "dial failed")
                     eq_refl eq_refl eq_refl eq_refl eq_refl))).
Defined.

Lemma establishHomeHub_search_failure_witness :
  snd (establishHomeHub (fun ip : nat => ip)
         (worldWith [] [inr ErrEmptyMap; inr (ErrorNew "no map")] [None])) =
    Some (Some (ErrorWrap "failed to find nearby hubs" (ErrorNew "no map"))).
Proof.
  exact (f_equal snd
           (proj1 (@establishHomeHub_search_failure sampleAPI nat nat (fun ip => ip)
                     (worldWith [] [inr ErrEmptyMap; inr (ErrorNew "no map")] [None])
                     sampleLocations [] [ErrEmptyMap] (ErrorNew "no map") [] []
                     eq_refl eq_refl eq_refl eq_refl eq_refl eq_refl))).
Defined.

Lemma establishHomeHub_bootstrap_failure_witness :
  snd (establishHomeHub (fun ip : nat => ip)
         (worldWith [] [inr ErrEmptyMap; inr ErrEmptyMap]
            [None; Some (ErrorNew "offline")])) =
    Some (Some (ErrorNew "offline")).
Proof.
  exact (f_equal snd
           (@establishHomeHub_bootstrap_failure sampleAPI nat nat (fun ip => ip)
              (worldWith [] [inr ErrEmptyMap; inr ErrEmptyMap]
                 [None; Some (ErrorNew "offline")])
              sampleLocations [] [ErrEmptyMap] ErrEmptyMap [] (ErrorNew "offline") []
              eq_refl eq_refl eq_refl eq_refl eq_refl eq_refl)).
Defined.

Lemma failingLane_keeps d : laneKeeps failingLane d.
Proof. intros cur h _ Hpass. simpl. split; [exact Hpass |]. split; auto. Defined.

Lemma suggested_crane_survives_pass_witness :
  exists d' lg c',
    optimizeNetwork failingLane true [inl keepFirstHub] [] oldDocks = Some (None, d', lg)
    /\ cranes d' !! 0%nat = Some c'
    /\ stopping c' = false
    /\ clock oldDocks <= lastSuggestedAt c'.
Proof.
  refine (@suggested_crane_survives_pass sampleAPI failingLane
            [inl keepFirstHub] [] oldDocks keepFirstHub
            {| SuggestedHub := hub1; Duplicate := false |} 0%nat unsuggestedCrane
            (@failingLane_keeps oldDocks) eq_refl (or_introl eq_refl)
            eq_refl eq_refl eq_refl).
Defined.

(** Without the suggestion the same crane is retired. *)
Example unsuggested_crane_is_retired :
  exists d' lg,
    optimizeNetwork failingLane true [inl keepNothing] [] oldDocks = Some (None, d', lg)
    /\ cranes d' !! 0%nat = Some (markedCrane unsuggestedCrane).
Proof. eexists _, _. split; [vm_compute; reflexivity |]. reflexivity. Qed.

End MoreSamples.

Section MoreTerminalSamples.
Import Terminal Docks Samples.

Lemma Consume_in_sequence_witness :
  exists s1 s2,
    Consume sampleHeader firstMsg secondMsg threeMsgStore = Some s1
    /\ Consume sampleHeader firstMsg thirdMsg s1 = Some s2
    /\ containers s2 !! 0%nat =
         Some [Byte.x01; Byte.xff; Byte.x02; Byte.xff; Byte.x03].
Proof.
  destruct (@Consume_in_sequence sampleHeader firstMsg secondMsg thirdMsg threeMsgStore
              0%nat 1%nat 2%nat [Byte.x01] [Byte.x02] [Byte.x03]
              {| highPriority := false; finishCalls := 0 |}
              {| highPriority := true; finishCalls := 0 |}
              {| highPriority := false; finishCalls := 0 |}
              eq_refl eq_refl eq_refl)
    as (s1 & s2 & H1 & H2 & Hdata & _);
    try discriminate; try reflexivity.
  exists s1, s2. split; [exact H1 |]. split; [exact H2 | exact Hdata].
Defined.

Lemma establishTerminal_failure_sends_stop_witness :
  terminalMsgs (fst (establishTerminal refusingNewRemoteCraneTerminal (fun _ => [Byte.x07])
                       publicCrane 5%N None true emptyStore)) =
    [ {| FlowID := 5; Type_ := MsgTypeStop; Data := Some 0%nat; Unit := 0%nat |} ].
Proof.
  exact (proj1 (proj2 (proj2
           (@establishTerminal_failure_sends_stop refusingNewRemoteCraneTerminal
              (fun _ => [Byte.x07]) publicCrane 5%N None true emptyStore
              ErrTimeout eq_refl)))).
Defined.

End MoreTerminalSamples.

Section CrewSamples.
Import Captain Crew Samples.

Lemma registerMetrics_stops_at_first_error_witness :
  registerMetrics refuseGauges freshCrew =
    ({| metricsRegistered := true; registered := firstn 1 connectMetrics |},
     Some (ErrorNew "no gauges")).
Proof.
  exact (proj1 (@registerMetrics_stops_at_first_error refuseGauges freshCrew eq_refl)
           (firstn 1 connectMetrics)
           (nth 1 connectMetrics
              {| kind := GaugeMetric; metricID := EmptyString;
                 options := {| Name := EmptyString; InternalID := EmptyString;
                               Persist := false |} |})
           (skipn 2 connectMetrics) (ErrorNew "no gauges") eq_refl eq_refl eq_refl).
Defined.

End CrewSamples.
